(** * Niagara download engine: filename normalizer, resumable state and
      worker-pool batches

    A shallow embedding of [utils.standardize_filename] and of
    [niagara_download_engine] ([DownloadStats], [DownloadState],
    [DownloadEngine], [filter_existing_files]), followed by the properties
    proved about them.  The point list reader and the URL builder of
    [niagara_url_generator], [count_points_in_file] of [fetch_pointlist]
    and the download stage of [process_district] are embedded beside them.

    Conventions of the model.
    - A Python [str] or [bytes] value is a [string]; [len] is [String.length].
    - A Python [float] is a primitive binary64 [float]; its operations are
      the kernel's, specified by [FloatAxioms].
    - Counters that start at zero and only grow are [nat]; the configurable
      [min_content_size] is a [Z].
    - The fields of a [DownloadState] hold dynamically typed values
      ([pyval]), as the dataclass does not check its annotations.
    - The network, the clock and the order in which the pool completes its
      futures are supplied by a [World]; every order of completion is the
      order of some world ([as_completed_any]).  Each [_download_single]
      runs atomically, at the moment its future completes.
    - The disk is a map from folder paths to folders; a folder holds the
      files the workers write and the state file, the latter as the
      document [json.load] reads from it.
    - Timestamps of [DownloadStats], the progress callback and the log are
      observers only and are left out. *)

From Stdlib Require Import ZArith List String Ascii Bool Lia Permutation.
From Stdlib Require Import Floats DecimalString.
Import ListNotations.

#[local] Set Warnings "-inexact-float,-register-all".
#[local] Open Scope string_scope.
#[local] Open Scope list_scope.

(** ** utils.py *)

Module Utils.

(** [s.replace(old, new)] for one-character [old] and [new]. *)
Fixpoint replace (old new : ascii) (s : string) : string :=
  match s with
  | EmptyString => EmptyString
  | String c rest =>
      String (if Ascii.eqb c old then new else c) (replace old new rest)
  end.

(** [s.lstrip(c)] for a one-character set. *)
Fixpoint lstrip (c : ascii) (s : string) : string :=
  match s with
  | EmptyString => EmptyString
  | String c' rest => if Ascii.eqb c' c then lstrip c rest else s
  end.

(** [s.rstrip(c)] for a one-character set. *)
Fixpoint rstrip (c : ascii) (s : string) : string :=
  match s with
  | EmptyString => EmptyString
  | String c' rest =>
      match rstrip c rest with
      | EmptyString =>
          if Ascii.eqb c' c then EmptyString else String c' EmptyString
      | kept => String c' kept
      end
  end.

(** [s.strip(c)]: both ends. *)
Definition strip (c : ascii) (s : string) : string := rstrip c (lstrip c s).

(** The characters of the literal iterated by the [for] loop: less-than,
    greater-than, colon, double quote (code 034), bar, question mark, star. *)
Definition illegal_chars : list ascii :=
  ["<"; ">"; ":"; "034"; "|"; "?"; "*"]%char.

(** [standardize_filename(point_path)]. *)
Definition standardize_filename (point_path : string) : string :=
  fold_left (fun filename char => replace char "_" filename)
            illegal_chars
            (strip "_" (replace "/" "_" point_path)).

(** [c in s]. *)
Fixpoint contains (c : ascii) (s : string) : bool :=
  match s with
  | EmptyString => false
  | String c' rest => Ascii.eqb c' c || contains c rest
  end.

(** [s.endswith(suffix)]. *)
Definition endswith (suffix s : string) : bool :=
  let n := String.length s in
  let k := String.length suffix in
  Nat.leb k n && String.eqb (substring (n - k) k s) suffix.

End Utils.

(** ** Python values and exceptions *)

(** The values [json.load] produces and [json.dump] accepts. A [PDict] keeps
    its items in insertion order. *)
Inductive pyval : Type :=
| PNone
| PBool (b : bool)
| PInt (z : Z)
| PFloat (x : float)
| PStr (s : string)
| PList (items : list pyval)
| PDict (items : list (string * pyval)).

(** The exceptions the engine can let escape. *)
Inductive exn : Type :=
| TypeError
| AttributeError.

(** [hash(v)] succeeds. *)
Definition hashable (v : pyval) : bool :=
  match v with
  | PList _ | PDict _ => false
  | _ => true
  end.

(** The one-character strings a [str] iterates over. *)
Fixpoint chars (s : string) : list pyval :=
  match s with
  | EmptyString => []
  | String c rest => PStr (String c EmptyString) :: chars rest
  end.

(** [set(v)]: the elements of the resulting set, or the TypeError of a value
    that is not iterable or has an unhashable element. *)
Definition py_set (v : pyval) : exn + list pyval :=
  match v with
  | PList items => if forallb hashable items then inr items else inl TypeError
  | PStr s => inr (chars s)
  | PDict items => inr (map (fun kv => PStr (fst kv)) items)
  | _ => inl TypeError
  end.

(** [p in elements] for a [str] [p]: a [str] is equal to another [str] with
    the same characters and to nothing else. *)
Definition py_in (p : string) (elements : list pyval) : bool :=
  existsb (fun v => match v with PStr s => String.eqb p s | _ => false end)
          elements.

(** [v.append(x)]: only a list has the method. *)
Definition py_append (v x : pyval) : exn + pyval :=
  match v with
  | PList items => inr (PList (items ++ [x]))
  | _ => inl AttributeError
  end.

(** [str(n)] for an [int]. *)
Definition str_of_int (n : Z) : string := NilZero.string_of_int (Z.to_int n).

(** ** The file system seen by the engine *)

(** What [json.load] makes of the state file: a document, or text it rejects
    with [JSONDecodeError].  The file is taken to hold text: bytes that do
    not decode, on which the read raises an error [load] does not catch,
    are not represented. *)
Inductive state_file : Type :=
| NotJson
| JsonDoc (v : pyval).

(** A folder: the regular files the workers write (name and bytes) and the
    [.download_state.json] sidecar.  The two never share a name, a
    worker's file name ending in [.csv]. *)
Record folder : Type := mkFolder {
  files : list (string * string);
  sidecar : option state_file
}.

(** Folder path to folder; [None] when the path does not exist. *)
Definition FS : Type := string -> option folder.

Definition state_name : string := ".download_state.json".

(** [os.path.join(a, b)] on a POSIX system. *)
Definition path_join (a b : string) : string :=
  match b with
  | String "/" _ => b
  | _ =>
      if String.eqb a "" then b
      else if Utils.endswith "/" a then (a ++ b)%string
      else (a ++ "/" ++ b)%string
  end.

Definition update (fs : FS) (path : string) (d : folder) : FS :=
  fun p => if String.eqb p path then Some d else fs p.

(** [os.makedirs(path, exist_ok=True)] for a path that can be created;
    the parents created on the way are not represented. *)
Definition makedirs (fs : FS) (path : string) : FS :=
  match fs path with
  | Some _ => fs
  | None => update fs path (mkFolder [] None)
  end.

(** Replace or add the entry [name]. *)
Fixpoint put (name body : string) (entries : list (string * string))
  : list (string * string) :=
  match entries with
  | [] => [(name, body)]
  | (n, b) :: rest =>
      if String.eqb n name then (name, body) :: rest
      else (n, b) :: put name body rest
  end.

(** [open(os.path.join(dir, name), 'wb').write(body)] in an existing folder. *)
Definition write_file (fs : FS) (dir name body : string) : FS :=
  match fs dir with
  | Some d => update fs dir (mkFolder (put name body (files d)) (sidecar d))
  | None => fs
  end.

(** [os.listdir(dir)] of an existing folder. *)
Definition listdir (d : folder) : list string :=
  match sidecar d with
  | Some _ => state_name :: map fst (files d)
  | None => map fst (files d)
  end.

(** The sidecar of [dir], when both exist. *)
Definition read_state_file (fs : FS) (dir : string) : option state_file :=
  match fs dir with
  | Some d => sidecar d
  | None => None
  end.

(** ** Data classes *)

Module Stats.

Record DownloadStats : Type := mk {
  total : nat;
  success : nat;
  failed : nat;
  empty : nat;
  skipped : nat;
  bytes_downloaded : nat;
  errors : list (string * string)
}.

(** [DownloadStats(total=t, skipped=s)]. *)
Definition init (t s : nat) : DownloadStats := mk t 0 0 0 s 0 [].

End Stats.

Module State.

Record DownloadState : Type := mk {
  district : pyval;
  date_started : pyval;
  total_points : pyval;
  completed : pyval;
  failed : pyval;
  empty : pyval
}.

(** The field defaults of the dataclass. *)
Definition default : DownloadState :=
  mk (PStr "") (PStr "") (PInt 0) (PList []) (PList []) (PList []).

(** [dataclasses.asdict(self)]. *)
Definition asdict (st : DownloadState) : pyval :=
  PDict [("district", district st); ("date_started", date_started st);
         ("total_points", total_points st); ("completed", completed st);
         ("failed", failed st); ("empty", empty st)].

(** One keyword argument of the constructor call; [None] is the TypeError
    of an unexpected keyword. *)
Definition set_field (st : DownloadState) (key : string) (v : pyval)
  : option DownloadState :=
  if String.eqb key "district" then
    Some (mk v (date_started st) (total_points st) (completed st) (failed st) (empty st))
  else if String.eqb key "date_started" then
    Some (mk (district st) v (total_points st) (completed st) (failed st) (empty st))
  else if String.eqb key "total_points" then
    Some (mk (district st) (date_started st) v (completed st) (failed st) (empty st))
  else if String.eqb key "completed" then
    Some (mk (district st) (date_started st) (total_points st) v (failed st) (empty st))
  else if String.eqb key "failed" then
    Some (mk (district st) (date_started st) (total_points st) (completed st) v (empty st))
  else if String.eqb key "empty" then
    Some (mk (district st) (date_started st) (total_points st) (completed st) (failed st) v)
  else None.

Fixpoint set_fields (st : DownloadState) (kwargs : list (string * pyval))
  : exn + DownloadState :=
  match kwargs with
  | [] => inr st
  | (key, v) :: rest =>
      match set_field st key v with
      | Some st' => set_fields st' rest
      | None => inl TypeError
      end
  end.

(** The constructor called on the unpacked [data], as [load] does: [data]
    must be a mapping whose keys are field names; the values are stored as
    they come. *)
Definition construct (data : pyval) : exn + DownloadState :=
  match data with
  | PDict kwargs => set_fields default kwargs
  | _ => inl TypeError
  end.

(** [DownloadState.save(path)], the path being [dir / state_name]. *)
Definition save (st : DownloadState) (fs : FS) (dir : string) : FS :=
  let fs := makedirs fs dir in
  match fs dir with
  | Some d => update fs dir (mkFolder (files d) (Some (JsonDoc (asdict st))))
  | None => fs
  end.

(** [DownloadState.load(path)]: [JSONDecodeError], [TypeError] and
    [KeyError] are caught and give [None]. *)
Definition load (fs : FS) (dir : string) : option DownloadState :=
  match read_state_file fs dir with
  | None => None
  | Some NotJson => None
  | Some (JsonDoc data) =>
      match construct data with
      | inr st => Some st
      | inl _ => None
      end
  end.

(** [completed_set]. *)
Definition completed_set (st : DownloadState) : exn + list pyval :=
  py_set (completed st).

End State.

(** ** The environment of a batch *)

(** What one [_download_single] call meets: a response whose status is not
    an error, with its body, which is then written in full; or the
    exception raised on the way.  An exception raised before the file is
    open (by the session, or by [open] in an existing folder) goes with
    [RaisedException]; one raised by the write, once [open] has created or
    truncated the file, goes with [RaisedOnWrite], which tells what the
    file is left with. *)
Inductive attempt : Type :=
| Body (content : string)
| RaisedTimeout
| RaisedHTTPError (status_code : option Z)
| RaisedRequestException (message : string)
| RaisedException (message : string)
| RaisedOnWrite (message : string) (remnant : string).

(** The three terminal classifications, the strings [success], [empty] and
    [failed] of the source. *)
Inductive status : Type :=
| Success
| Empty
| Failed.

Record World : Type := mkWorld {
  (** [datetime.now().strftime] with the year-month-day format. *)
  today : string;
  (** [datetime.now().isoformat()] read when [k] futures have completed. *)
  now : nat -> string;
  (** The fate of the request of the [i]-th submitted future. *)
  fetch : nat -> string -> string -> attempt;
  (** The place at which a future completes among the [n] submitted after it. *)
  pick : nat -> nat
}.

Fixpoint insert_at {A : Type} (n : nat) (x : A) (l : list A) : list A :=
  match n, l with
  | S n', y :: l' => y :: insert_at n' x l'
  | _, _ => x :: l
  end.

(** [as_completed(futures)]: the futures in completion order, any order
    being possible. *)
Fixpoint as_completed {A : Type} (pick : nat -> nat) (futures : list A)
  : list A :=
  match futures with
  | [] => []
  | f :: rest => insert_at (pick (List.length rest)) f (as_completed pick rest)
  end.

(** The futures of the dictionary comprehension, numbered in submission
    order. *)
Definition submit (url_list : list (string * string))
  : list (nat * (string * string)) :=
  combine (seq 0 (List.length url_list)) url_list.

(** ** DownloadEngine *)

Record DownloadEngine : Type := mkEngine {
  min_content_size : Z;
  throttle_delay : float;
  _consecutive_failures : nat;
  _throttle_multiplier : float
}.

(** [__init__]. *)
Definition new_engine (min_content_size : Z) (throttle_delay : float)
  : DownloadEngine :=
  mkEngine min_content_size throttle_delay 0 1.0%float.

(** [max(a, b)] and [min(a, b)]: the first argument is kept unless the
    second is strictly greater, respectively smaller. *)
Definition py_max (a b : float) : float := if (a <? b)%float then b else a.
Definition py_min (a b : float) : float := if (b <? a)%float then b else a.

(** The locked block that follows the file write in [_download_single]. *)
Definition throttle_on_success (eng : DownloadEngine) : DownloadEngine :=
  mkEngine (min_content_size eng) (throttle_delay eng) 0
           (py_max 1.0 (_throttle_multiplier eng * 0.9))%float.

(** [_handle_failure]. *)
Definition _handle_failure (eng : DownloadEngine) : DownloadEngine :=
  let failures := S (_consecutive_failures eng) in
  mkEngine (min_content_size eng) (throttle_delay eng) failures
           (if Nat.ltb 5 failures
            then py_min 5.0 (_throttle_multiplier eng * 1.5)%float
            else _throttle_multiplier eng).

(** The interval slept before the request, when one is. *)
Definition throttle_sleep (eng : DownloadEngine) : option float :=
  if (0 <? throttle_delay eng)%float
  then Some (throttle_delay eng * _throttle_multiplier eng)%float
  else None.

Definition result : Type := string * status * nat * option string.

(** The text of the [FileNotFoundError] that [open] raises when the folder
    of [path] does not exist. *)
Definition no_such_file (path : string) : string :=
  ("[Errno 2] No such file or directory: '" ++ path ++ "'")%string.

(** [_download_single(point_path, url, save_folder)] for the [i]-th future. *)
Definition _download_single (w : World) (eng : DownloadEngine) (fs : FS)
    (i : nat) (point_path url save_folder : string)
  : DownloadEngine * FS * result :=
  match fetch w i point_path url with
  | Body content =>
      let filename := (Utils.standardize_filename point_path ++ ".csv")%string in
      let filepath := path_join save_folder filename in
      match fs save_folder with
      | None =>
          (_handle_failure eng, fs,
           (point_path, Failed, 0, Some (substring 0 50 (no_such_file filepath))))
      | Some _ =>
          let fs := write_file fs save_folder filename content in
          let eng := throttle_on_success eng in
          if (Z.of_nat (String.length content) <? min_content_size eng)%Z
          then (eng, fs, (point_path, Empty, String.length content, None))
          else (eng, fs, (point_path, Success, String.length content, None))
      end
  | RaisedTimeout =>
      (_handle_failure eng, fs, (point_path, Failed, 0, Some "Timeout"))
  | RaisedHTTPError status_code =>
      let shown := match status_code with
                   | Some code => str_of_int code
                   | None => "unknown"
                   end in
      (_handle_failure eng, fs, (point_path, Failed, 0, Some ("HTTP " ++ shown)%string))
  | RaisedRequestException message =>
      (_handle_failure eng, fs, (point_path, Failed, 0, Some (substring 0 50 message)))
  | RaisedException message =>
      (_handle_failure eng, fs, (point_path, Failed, 0, Some (substring 0 50 message)))
  | RaisedOnWrite message remnant =>
      let filename := (Utils.standardize_filename point_path ++ ".csv")%string in
      let filepath := path_join save_folder filename in
      match fs save_folder with
      | None =>
          (_handle_failure eng, fs,
           (point_path, Failed, 0, Some (substring 0 50 (no_such_file filepath))))
      | Some _ =>
          (_handle_failure eng, write_file fs save_folder filename remnant,
           (point_path, Failed, 0, Some (substring 0 50 message)))
      end
  end.

(** The [if]/[elif]/[else] on [status] that both batch loops apply to the
    statistics.  Under [if error:] a message that is [None] or the empty
    string is not appended. *)
Definition tally (stats : Stats.DownloadStats) (r : result)
  : Stats.DownloadStats :=
  let '(point_path, st, size, error) := r in
  match st with
  | Success =>
      Stats.mk (Stats.total stats) (S (Stats.success stats)) (Stats.failed stats)
               (Stats.empty stats) (Stats.skipped stats)
               (Stats.bytes_downloaded stats + size) (Stats.errors stats)
  | Empty =>
      Stats.mk (Stats.total stats) (Stats.success stats) (Stats.failed stats)
               (S (Stats.empty stats)) (Stats.skipped stats)
               (Stats.bytes_downloaded stats + size) (Stats.errors stats)
  | Failed =>
      Stats.mk (Stats.total stats) (Stats.success stats) (S (Stats.failed stats))
               (Stats.empty stats) (Stats.skipped stats)
               (Stats.bytes_downloaded stats)
               (match error with
                | Some (String c rest) =>
                    Stats.errors stats ++ [(point_path, String c rest)]
                | _ => Stats.errors stats
                end)
  end.

(** The folder the batch writes to. *)
Definition save_folder_of (w : World) (output_folder : string)
    (date_subfolder : bool) : string :=
  if date_subfolder then path_join output_folder (today w) else output_folder.

(** One turn of the [for future in as_completed(futures)] loop of
    [download_batch]. *)
Definition batch_step (w : World) (save_folder : string)
    (acc : DownloadEngine * FS * Stats.DownloadStats)
    (future : nat * (string * string))
  : DownloadEngine * FS * Stats.DownloadStats :=
  let '(eng, fs, stats) := acc in
  let '(i, (point_path, url)) := future in
  let '(eng, fs, r) := _download_single w eng fs i point_path url save_folder in
  (eng, fs, tally stats r).

(** [download_batch(url_list, output_folder, date_subfolder)]. *)
Definition download_batch (w : World) (eng : DownloadEngine) (fs : FS)
    (url_list : list (string * string)) (output_folder : string)
    (date_subfolder : bool)
  : DownloadEngine * FS * Stats.DownloadStats :=
  let stats := Stats.init (List.length url_list) 0 in
  match url_list with
  | [] => (eng, fs, stats)
  | _ :: _ =>
      let save_folder := save_folder_of w output_folder date_subfolder in
      let fs := makedirs fs save_folder in
      fold_left (batch_step w save_folder)
                (as_completed (pick w) (submit url_list))
                (eng, fs, stats)
  end.

(** The state of the loop of [download_batch_with_resume]. *)
Record resume_acc : Type := mkAcc {
  acc_completed : nat;
  acc_engine : DownloadEngine;
  acc_fs : FS;
  acc_stats : Stats.DownloadStats;
  acc_state : State.DownloadState
}.

(** [error or 'unknown']. *)
Definition or_unknown (error : option string) : string :=
  match error with
  | Some (String c rest) => String c rest
  | _ => "unknown"
  end.

(** The record appended to [state.failed]. *)
Definition failure_record (point_path : string) (error : option string)
    (time : string) : pyval :=
  PDict [("point", PStr point_path); ("error", PStr (or_unknown error));
         ("time", PStr time)].

(** The appends to the state lists, by status. *)
Definition record_outcome (w : World) (completed : nat)
    (state : State.DownloadState) (r : result)
  : exn + State.DownloadState :=
  let '(point_path, st, size, error) := r in
  match st with
  | Success =>
      match py_append (State.completed state) (PStr point_path) with
      | inr done =>
          inr (State.mk (State.district state) (State.date_started state)
                        (State.total_points state) done (State.failed state)
                        (State.empty state))
      | inl e => inl e
      end
  | Empty =>
      match py_append (State.empty state) (PStr point_path) with
      | inr empties =>
          match py_append (State.completed state) (PStr point_path) with
          | inr done =>
              inr (State.mk (State.district state) (State.date_started state)
                            (State.total_points state) done (State.failed state)
                            empties)
          | inl e => inl e
          end
      | inl e => inl e
      end
  | Failed =>
      match py_append (State.failed state)
                      (failure_record point_path error (now w completed)) with
      | inr failures =>
          inr (State.mk (State.district state) (State.date_started state)
                        (State.total_points state) (State.completed state)
                        failures (State.empty state))
      | inl e => inl e
      end
  end.

(** One turn of the loop of [download_batch_with_resume]; an exception ends
    the loop. *)
Definition resume_step (w : World) (save_folder : string)
    (acc : exn + resume_acc) (future : nat * (string * string))
  : exn + resume_acc :=
  match acc with
  | inl e => inl e
  | inr a =>
      let '(i, (point_path, url)) := future in
      let '(eng, fs, r) :=
        _download_single w (acc_engine a) (acc_fs a) i point_path url save_folder in
      let completed := S (acc_completed a) in
      match record_outcome w completed (acc_state a) r with
      | inl e => inl e
      | inr state =>
          let fs := if Nat.eqb (completed mod 50) 0
                    then State.save state fs save_folder
                    else fs in
          inr (mkAcc completed eng fs (tally (acc_stats a) r) state)
      end
  end.

(** How a call of [download_batch_with_resume] ends. *)
Inductive outcome : Type :=
| Returned (stats : Stats.DownloadStats) (eng : DownloadEngine) (fs : FS)
| Raised (e : exn).

(** The state the batch starts from: the loaded one, or a fresh one. *)
Definition initial_state (w : World) (fs : FS) (save_folder : string)
    (url_list : list (string * string)) (district : string)
  : State.DownloadState :=
  match State.load fs save_folder with
  | Some state => state
  | None =>
      State.mk (PStr district) (PStr (now w 0))
               (PInt (Z.of_nat (List.length url_list)))
               (PList []) (PList []) (PList [])
  end.

(** The list comprehension that drops the points already done. *)
Definition not_done (already_done : list pyval)
    (url_list : list (string * string)) : list (string * string) :=
  filter (fun pu => negb (py_in (fst pu) already_done)) url_list.

(** [download_batch_with_resume(url_list, output_folder, district,
    date_subfolder)]. *)
Definition download_batch_with_resume (w : World) (eng : DownloadEngine)
    (fs : FS) (url_list : list (string * string))
    (output_folder district : string) (date_subfolder : bool) : outcome :=
  let save_folder := save_folder_of w output_folder date_subfolder in
  let fs := makedirs fs save_folder in
  let state := initial_state w fs save_folder url_list district in
  match State.completed_set state with
  | inl e => Raised e
  | inr already_done =>
      let remaining := not_done already_done url_list in
      let skipped_by_state := List.length url_list - List.length remaining in
      let stats := Stats.init (List.length remaining) skipped_by_state in
      match remaining with
      | [] => Returned stats eng fs
      | _ :: _ =>
          let fs := makedirs fs save_folder in
          match fold_left (resume_step w save_folder)
                          (as_completed (pick w) (submit remaining))
                          (inr (mkAcc 0 eng fs stats state)) with
          | inl e => Raised e
          | inr a =>
              Returned (acc_stats a) (acc_engine a)
                       (State.save (acc_state a) (acc_fs a) save_folder)
          end
      end
  end.

(** ** filter_existing_files *)

(** [expected in existing]. *)
Definition str_in (name : string) (names : list string) : bool :=
  existsb (String.eqb name) names.

(** One turn of the loop over [url_list]. *)
Definition filter_step (existing : list string)
    (acc : list (string * string) * nat) (item : string * string)
  : list (string * string) * nat :=
  let '(filtered, skipped) := acc in
  let '(point_path, url) := item in
  let expected := (Utils.standardize_filename point_path ++ ".csv")%string in
  if str_in expected existing
  then (filtered, S skipped)
  else (filtered ++ [(point_path, url)], skipped).

(** [filter_existing_files(url_list, output_folder, force)]. *)
Definition filter_existing_files (w : World) (fs : FS)
    (url_list : list (string * string)) (output_folder : string) (force : bool)
  : list (string * string) * nat :=
  if force then (url_list, 0)
  else
    let today_folder := path_join output_folder (today w) in
    match fs today_folder with
    | None => (url_list, 0)
    | Some d =>
        let existing := filter (Utils.endswith ".csv") (listdir d) in
        fold_left (filter_step existing) url_list ([], 0)
    end.

(** ** Notions used in the statements *)

(** The classification of the claims: success when the fetched body has at
    least [min_content_size] bytes, empty when it is shorter, failed on any
    exception. *)
Definition classify (min_content_size : Z) (a : attempt) : status :=
  match a with
  | Body content =>
      if (Z.of_nat (String.length content) <? min_content_size)%Z
      then Empty else Success
  | _ => Failed
  end.

(** The message kept for an attempt that raised. *)
Definition error_text (a : attempt) : option string :=
  match a with
  | Body _ => None
  | RaisedTimeout => Some "Timeout"
  | RaisedHTTPError (Some code) => Some ("HTTP " ++ str_of_int code)%string
  | RaisedHTTPError None => Some "HTTP unknown"
  | RaisedRequestException message => Some (substring 0 50 message)
  | RaisedException message => Some (substring 0 50 message)
  | RaisedOnWrite message _ => Some (substring 0 50 message)
  end.

Definition body_size (a : attempt) : nat :=
  match a with
  | Body content => String.length content
  | _ => 0
  end.

(** What the world answers to a future. *)
Definition attempt_of (w : World) (future : nat * (string * string)) : attempt :=
  fetch w (fst future) (fst (snd future)) (snd (snd future)).

Definition point_of (future : nat * (string * string)) : string :=
  fst (snd future).

(** The tuple a future resolves to. *)
Definition result_of (w : World) (min_content_size : Z)
    (future : nat * (string * string)) : result :=
  (point_of future, classify min_content_size (attempt_of w future),
   body_size (attempt_of w future), error_text (attempt_of w future)).

Definition status_eqb (a b : status) : bool :=
  match a, b with
  | Success, Success | Empty, Empty | Failed, Failed => true
  | _, _ => false
  end.

Definition status_of (r : result) : status := snd (fst (fst r)).
Definition point_of_result (r : result) : string := fst (fst (fst r)).
Definition error_of (r : result) : option string := snd r.

(** How many of the results carry the status [st]. *)
Definition count (st : status) (results : list result) : nat :=
  List.length (filter (fun r => status_eqb (status_of r) st) results).

(** The identifiers of the results that carry a status accepted by [keep],
    in order. *)
Definition points_with (keep : status -> bool) (results : list result)
  : list string :=
  map point_of_result (filter (fun r => keep (status_of r)) results).

Definition is_failed (st : status) : bool := status_eqb st Failed.
Definition is_empty (st : status) : bool := status_eqb st Empty.
Definition not_failed (st : status) : bool := negb (status_eqb st Failed).

(** The pairs the failed results with a message that is not empty add to
    [errors], in order. *)
Definition reported (results : list result) : list (string * string) :=
  flat_map (fun r =>
              match status_of r, error_of r with
              | Failed, Some (String c rest) => [(point_of_result r, String c rest)]
              | _, _ => []
              end) results.

(** The state lists are lists and the completed identifiers are hashable:
    what a state created by the engine, and any state it saved, satisfies. *)
Definition lists_ok (st : State.DownloadState) : bool :=
  match State.completed st, State.failed st, State.empty st with
  | PList done, PList _, PList _ => forallb hashable done
  | _, _, _ => false
  end.

(** The items of a list value. *)
Definition items_of (v : pyval) : list pyval :=
  match v with
  | PList items => items
  | _ => []
  end.

(** The [point] entry of a failure record. *)
Definition record_point (v : pyval) : option string :=
  match v with
  | PDict (("point", PStr p) :: _) => Some p
  | _ => None
  end.

(** [st'] is [st] after the results [rs] were recorded: the identifiers of
    the results that did not fail were appended to the completed list,
    those of the empty results to the empty list as well, and one record
    per failed result, carrying its identifier, to the failed list; the
    other fields are unchanged. *)
Definition records (st st' : State.DownloadState) (rs : list result) : Prop :=
  lists_ok st' = true
  /\ State.district st' = State.district st
  /\ State.date_started st' = State.date_started st
  /\ State.total_points st' = State.total_points st
  /\ items_of (State.completed st')
     = items_of (State.completed st) ++ map PStr (points_with not_failed rs)
  /\ items_of (State.empty st')
     = items_of (State.empty st) ++ map PStr (points_with is_empty rs)
  /\ exists recs,
       items_of (State.failed st') = items_of (State.failed st) ++ recs
       /\ map record_point recs = map Some (points_with is_failed rs).

(** The state a resumable batch starts from, the items it keeps, and the
    accumulator its loop starts with. *)
Definition start_state (w : World) (fs : FS)
    (url_list : list (string * string)) (output_folder district : string)
    (date_subfolder : bool) : State.DownloadState :=
  let save_folder := save_folder_of w output_folder date_subfolder in
  initial_state w (makedirs fs save_folder) save_folder url_list district.

Definition remaining_of (w : World) (fs : FS)
    (url_list : list (string * string)) (output_folder district : string)
    (date_subfolder : bool) : list (string * string) :=
  not_done
    (items_of (State.completed
                 (start_state w fs url_list output_folder district date_subfolder)))
    url_list.

Definition loop_start (w : World) (eng : DownloadEngine) (fs : FS)
    (url_list : list (string * string)) (output_folder district : string)
    (date_subfolder : bool) : resume_acc :=
  let save_folder := save_folder_of w output_folder date_subfolder in
  let remaining :=
    remaining_of w fs url_list output_folder district date_subfolder in
  mkAcc 0 eng (makedirs (makedirs fs save_folder) save_folder)
        (Stats.init (List.length remaining)
                    (List.length url_list - List.length remaining))
        (start_state w fs url_list output_folder district date_subfolder).

(** The name a point is saved under. *)
Definition csv_name (point_path : string) : string :=
  (Utils.standardize_filename point_path ++ ".csv")%string.

(** The attempt ended in an exception. *)
Definition raised (a : attempt) : bool :=
  match a with
  | Body _ => false
  | _ => true
  end.

(** The completion order of a batch over [items], and the results in that
    order. *)
Definition completion_order (w : World) (items : list (string * string))
  : list (nat * (string * string)) :=
  as_completed (pick w) (submit items).

Definition results_of (w : World) (min_content_size : Z)
    (items : list (string * string)) : list result :=
  map (result_of w min_content_size) (completion_order w items).

(** The throttle states an engine goes through: the initial one, and those
    a success or a failure leads to. *)
Inductive reachable : DownloadEngine -> Prop :=
| reachable_new (min_content_size : Z) (throttle_delay : float) :
    reachable (new_engine min_content_size throttle_delay)
| reachable_success (eng : DownloadEngine) :
    reachable eng -> reachable (throttle_on_success eng)
| reachable_failure (eng : DownloadEngine) :
    reachable eng -> reachable (_handle_failure eng).

(** The states over the first [k] completions of the resumable loop. *)
Definition resume_prefix (w : World) (save_folder : string) (k : nat)
    (order : list (nat * (string * string))) (start : resume_acc)
  : exn + resume_acc :=
  fold_left (resume_step w save_folder) (firstn k order) (inr start).

(** ** A concrete batch

    Three points: the first answers with 500 bytes, the second with 10, the
    third times out.  The futures complete in submission order reversed. *)

Fixpoint filler (n : nat) : string :=
  match n with
  | 0 => EmptyString
  | S n' => String "x" (filler n')
  end.

Definition example_world : World :=
  mkWorld "2024-01-01" (fun _ => "2024-01-01T00:00:00")
          (fun i _ _ =>
             match i with
             | 0 => Body (filler 500)
             | 1 => Body (filler 10)
             | _ => RaisedTimeout
             end)
          (fun n => n).

Definition example_items : list (string * string) :=
  [("/Building/RTU-1", "http://host/1"); ("/Building/RTU-2", "http://host/2");
   ("/Building/RTU-3", "http://host/3")].

(** A disk with nothing on it. *)
Definition empty_fs : FS := fun _ => None.

(** A world in which every attempt raises an exception whose text is empty. *)
Definition silent_world : World :=
  mkWorld "2024-01-01" (fun _ => "2024-01-01T00:00:00")
          (fun _ _ _ => RaisedException "") (fun _ => 0).

(** A disk whose only folder holds the given sidecar. *)
Definition disk_with (dir : string) (content : state_file) : FS :=
  update empty_fs dir (mkFolder [] (Some content)).

(** A disk whose state file has the right key and a value of the wrong type,
    the document with the single entry completed: 5. *)
Definition mistyped_disk : FS :=
  disk_with "out/2024-01-01" (JsonDoc (PDict [("completed", PInt 5)])).

(** A batch of [n] points that all answer with sixty bytes. *)
Definition many_items (n : nat) : list (string * string) :=
  map (fun i => (("/site/p" ++ str_of_int (Z.of_nat i))%string, "http://host/p"))
      (seq 0 n).

Definition steady_world : World :=
  mkWorld "2024-01-01" (fun _ => "2024-01-01T00:00:00")
          (fun _ _ _ => Body (filler 60)) (fun _ => 0).

(** ** niagara_url_generator.py and fetch_pointlist.py

    The text of a point list is read as the lines the iteration over the
    open file yields, each with its line end; its characters are those
    below 256. *)

Module PointList.

(** [c.isspace()] for a character below 256: tab to carriage return, the
    four separators 28 to 31, the space, next line (133) and the no-break
    space (160). *)
Definition isspace (c : ascii) : bool :=
  let n := nat_of_ascii c in
  (Nat.leb 9 n && Nat.leb n 13) || (Nat.leb 28 n && Nat.leb n 32)
  || Nat.eqb n 133 || Nat.eqb n 160.

(** [s.lstrip()], [s.rstrip()] and [s.strip()]. *)
Fixpoint lstrip_ws (s : string) : string :=
  match s with
  | EmptyString => EmptyString
  | String c rest => if isspace c then lstrip_ws rest else s
  end.

Fixpoint rstrip_ws (s : string) : string :=
  match s with
  | EmptyString => EmptyString
  | String c rest =>
      match rstrip_ws rest with
      | EmptyString => if isspace c then EmptyString else String c EmptyString
      | kept => String c kept
      end
  end.

Definition strip_ws (s : string) : string := rstrip_ws (lstrip_ws s).

(** [s.split(sep)[0]] for a one-character [sep]. *)
Fixpoint first_field (sep : ascii) (s : string) : string :=
  match s with
  | EmptyString => EmptyString
  | String c rest =>
      if Ascii.eqb c sep then EmptyString else String c (first_field sep rest)
  end.

(** [s.replace(c, '')] for a one-character [c]. *)
Fixpoint remove (c : ascii) (s : string) : string :=
  match s with
  | EmptyString => EmptyString
  | String c' rest =>
      if Ascii.eqb c' c then remove c rest else String c' (remove c rest)
  end.

(** [s.startswith(c)] for a one-character [c]. *)
Definition startswith (c : ascii) (s : string) : bool :=
  match s with
  | EmptyString => false
  | String c' _ => Ascii.eqb c' c
  end.

(** The lines the iteration over a file opened in text mode yields, for the
    rest [text] of the file and the part [current] of the line read so
    far: a line ends after a newline (code 010), a carriage return (013)
    or the two in a row, each given as a newline; the last line may have
    no end. *)
Fixpoint lines_from (text current : string) : list string :=
  match text with
  | EmptyString =>
      match current with
      | EmptyString => []
      | _ => [current]
      end
  | String c rest =>
      if Ascii.eqb c "010" then
        (current ++ String "010" EmptyString)%string :: lines_from rest ""
      else if Ascii.eqb c "013" then
        match rest with
        | String c' rest' =>
            if Ascii.eqb c' "010"
            then (current ++ String "010" EmptyString)%string
                   :: lines_from rest' ""
            else (current ++ String "010" EmptyString)%string
                   :: lines_from rest ""
        | EmptyString => [(current ++ String "010" EmptyString)%string]
        end
      else lines_from rest (current ++ String c EmptyString)
  end.

Definition file_lines (text : string) : list string := lines_from text "".

(** The body of the loop of [load_point_list]: the point a line
    contributes, if any.  Code 034 is the double quote, 010 the newline. *)
Definition point_of_line (line : string) : option string :=
  let line := strip_ws line in
  if String.eqb line "" || startswith "#" line then None
  else
    let point_path := strip_ws (first_field "," line) in
    let point_path := remove "010" (remove "034" point_path) in
    if String.eqb point_path "" then None else Some point_path.

(** [load_point_list(filepath)], on the lines of the file. *)
Definition load_point_list (lines : list string) : list string :=
  fold_left (fun points line =>
               match point_of_line line with
               | Some point_path => points ++ [point_path]
               | None => points
               end)
            lines [].

(** [count_points_in_file(filepath)], on the lines of a file that opens. *)
Definition count_points_in_file (lines : list string) : nat :=
  List.length
    (map strip_ws
         (filter (fun l => negb (String.eqb (strip_ws l) "")
                           && negb (startswith "#" l))
                 lines)).

(** [URLGenerator._build_url(point_path, start_time, end_time)]. *)
Definition _build_url (base_ip point_path start_time end_time : string)
  : string :=
  (base_ip ++ "/ord?history:" ++ point_path
   ++ "?period=timeRange;start=" ++ start_time ++ ";end=" ++ end_time
   ++ "|bql:select%20timestamp,value|view:file:ITableToCsv")%string.

(** [URLGenerator.get_point_list_url()]. *)
Definition get_point_list_url (base_ip : string) : string :=
  (Utils.rstrip "/" base_ip
   ++ "/ord?history:|bql:select%20id|view:file:ITableToCsv")%string.

End PointList.

(** ** download_niagara_fast.py *)

(** How [process_district] ends once the URLs are generated: with the
    statistics, with [None] after a failed login, or with an exception of
    the engine. *)
Inductive district_outcome : Type :=
| StatsReturned (stats : Stats.DownloadStats) (fs : FS)
| NoneReturned
| ExceptionRaised (e : exn).

(** [stats.skipped = skipped]. *)
Definition set_skipped (stats : Stats.DownloadStats) (skipped : nat)
  : Stats.DownloadStats :=
  Stats.mk (Stats.total stats) (Stats.success stats) (Stats.failed stats)
           (Stats.empty stats) skipped (Stats.bytes_downloaded stats)
           (Stats.errors stats).

(** [process_district] from the call of [filter_existing_files] on:
    [url_list] is what [URLGenerator.generate] returned, [authenticated]
    tells whether the login gave cookies.  The engine is created with the
    default [min_content_size] of 50 and the given throttle. *)
Definition process_district (w : World) (fs : FS)
    (url_list : list (string * string)) (output_folder district_name : string)
    (force : bool) (throttle : float) (authenticated : bool)
  : district_outcome :=
  let '(filtered_list, skipped) :=
    filter_existing_files w fs url_list output_folder force in
  match filtered_list with
  | [] => StatsReturned (Stats.init 0 skipped) fs
  | _ :: _ =>
      if authenticated then
        match download_batch_with_resume w (new_engine 50 throttle) fs
                filtered_list output_folder district_name true with
        | Returned stats _ fs' => StatsReturned (set_skipped stats skipped) fs'
        | Raised e => ExceptionRaised e
        end
      else NoneReturned
  end.

(** ** Further notions used in the statements *)


(** The field names of [DownloadState]. *)
Definition field_names : list string :=
  ["district"; "date_started"; "total_points"; "completed"; "failed"; "empty"].

(** [d.get(key)] of a mapping given by its items, a later item replacing an
    earlier one with the same key. *)
Fixpoint py_get (key : string) (items : list (string * pyval)) : option pyval :=
  match items with
  | [] => None
  | (k, v) :: rest =>
      match py_get key rest with
      | Some v' => Some v'
      | None => if String.eqb k key then Some v else None
      end
  end.

(** The items of a mapping. *)
Definition dict_items (v : pyval) : list (string * pyval) :=
  match v with
  | PDict items => items
  | _ => []
  end.

(** The value of the field [key] of a state. *)
Definition field (key : string) (st : State.DownloadState) : option pyval :=
  py_get key (dict_items (State.asdict st)).


(** The bytes a batch adds for a future: those of its body. *)
Definition bytes_of (w : World) (future : nat * (string * string)) : nat :=
  body_size (attempt_of w future).

(** A point a list file can hold on a line of its own: not empty, no white
    space at either end, no comma, double quote, newline or carriage
    return, not a comment. *)
Definition clean_point (p : string) : bool :=
  negb (String.eqb p "")
  && String.eqb (PointList.strip_ws p) p
  && negb (Utils.contains "," p)
  && negb (Utils.contains "034" p)
  && negb (Utils.contains "010" p)
  && negb (Utils.contains "013" p)
  && negb (PointList.startswith "#" p).

(** The character that ends a line. *)
Definition newline : string := String "010" EmptyString.

(** The text of a file that holds the given points, one per line. *)
Definition text_of_points (points : list string) : string :=
  fold_right (fun p text => (p ++ newline ++ text)%string) "" points.


(** The value of a finite positive float, in units of [2 ^ -53]. *)
Definition weight (m : float) : Z :=
  match Prim2SF m with
  | S754_finite false mx e => (Z.pos mx * 2 ^ (e + 53))%Z
  | _ => 0%Z
  end.

(** The multiplier after a success, as a function of the multiplier. *)
Definition decayed (m : float) : float := py_max 1.0 (m * 0.9)%float.


(** The state an earlier run left after it completed the first point. *)
Definition one_done : State.DownloadState :=
  State.mk (PStr "d") (PStr "2024-01-01T00:00:00") (PInt 4)
           (PList [PStr "/Building/RTU-1"]) (PList []) (PList []).


(** A disk whose state file holds [one_done], beside the file of the second
    point. *)
Definition half_done_disk : FS :=
  update empty_fs "out/2024-01-01"
         (mkFolder [("Building_RTU-2.csv", filler 60)]
                   (Some (JsonDoc (State.asdict one_done)))).





(** A disk whose state file lists the three points of [example_items] as
    completed. *)
Definition finished_disk : FS :=
  State.save
    (State.mk (PStr "d") (PStr "2024-01-01T00:00:00") (PInt 3)
              (PList [PStr "/Building/RTU-1"; PStr "/Building/RTU-2";
                      PStr "/Building/RTU-3"])
              (PList []) (PList []))
    empty_fs "out/2024-01-01".

(** * Properties *)

(** ** Filename normalizer *)

Section Normalizer.

Import Utils.

Lemma contains_replace_old (old new : ascii) (s : string) :
  old <> new -> contains old (replace old new s) = false.
Proof.
  intros Hneq. induction s as [|c rest IH]; [reflexivity|].
  simpl. rewrite IH, orb_false_r.
  destruct (Ascii.eqb_spec c old) as [->|Hc].
  - apply Ascii.eqb_neq. congruence.
  - apply Ascii.eqb_neq. assumption.
Qed.

Lemma contains_replace_other (c old new : ascii) (s : string) :
  c <> new -> contains c s = false -> contains c (replace old new s) = false.
Proof.
  intros Hneq. induction s as [|c' rest IH]; [reflexivity|].
  simpl. intros H. apply orb_false_elim in H. destruct H as [Hc Hrest].
  rewrite (IH Hrest), orb_false_r.
  destruct (Ascii.eqb c' old); [|assumption].
  apply Ascii.eqb_neq. congruence.
Qed.

Lemma contains_lstrip (c x : ascii) (s : string) :
  contains c s = false -> contains c (lstrip x s) = false.
Proof.
  induction s as [|c' rest IH]; [reflexivity|].
  intros H. simpl. destruct (Ascii.eqb c' x); [|assumption].
  apply IH. simpl in H. apply orb_false_elim in H. tauto.
Qed.

Lemma contains_rstrip (c x : ascii) (s : string) :
  contains c s = false -> contains c (rstrip x s) = false.
Proof.
  induction s as [|c' rest IH]; [reflexivity|].
  intros H. simpl in H. apply orb_false_elim in H. destruct H as [Hc Hrest].
  specialize (IH Hrest). simpl.
  destruct (rstrip x rest) as [|k kept].
  - destruct (Ascii.eqb c' x); [reflexivity|]. simpl. rewrite Hc. reflexivity.
  - change (contains c (String c' (String k kept)))
      with (Ascii.eqb c' c || contains c (String k kept)).
    rewrite Hc, IH. reflexivity.
Qed.

Lemma contains_strip (c x : ascii) (s : string) :
  contains c s = false -> contains c (strip x s) = false.
Proof. intros H. apply contains_rstrip, contains_lstrip, H. Qed.

Lemma contains_fold_replace (c : ascii) (olds : list ascii) (s : string) :
  c <> "_"%char -> contains c s = false ->
  contains c (fold_left (fun f ch => replace ch "_" f) olds s) = false.
Proof.
  intros Hneq. revert s. induction olds as [|o olds IH]; intros s H; [assumption|].
  simpl. apply IH. apply contains_replace_other; assumption.
Qed.

Lemma contains_fold_replace_member (c : ascii) (olds : list ascii) (s : string) :
  c <> "_"%char -> In c olds ->
  contains c (fold_left (fun f ch => replace ch "_" f) olds s) = false.
Proof.
  intros Hneq. revert s. induction olds as [|o olds IH]; intros s Hin; [destruct Hin|].
  simpl. destruct Hin as [->|Hin].
  - apply contains_fold_replace; [assumption|].
    apply contains_replace_old. assumption.
  - apply IH. assumption.
Qed.

(** The slash and the seven characters of the loop never occur in a
    standardized filename. *)
Lemma standardize_filename_replaced (point_path : string) (c : ascii) :
  In c ("/"%char :: illegal_chars) ->
  contains c (standardize_filename point_path) = false.
Proof.
  intros [<-|Hin]; unfold standardize_filename.
  - apply contains_fold_replace; [discriminate|].
    apply contains_strip, contains_replace_old. discriminate.
  - apply contains_fold_replace_member; [|assumption].
    unfold illegal_chars in Hin. simpl in Hin.
    intuition (subst; discriminate).
Qed.

(** The function is deterministic: equal inputs give equal outputs. *)
Lemma standardize_filename_deterministic (p q : string) :
  p = q -> standardize_filename p = standardize_filename q.
Proof. intros ->. reflexivity. Qed.

(** C3. The claim asks that no output contains a backslash (code 092), and
    the docstring promises to strip the characters Windows forbids; the
    code replaces the slash and seven others but lets the backslash
    through: the path [a\b] is returned unchanged. *)
Theorem standardize_filename_keeps_backslash :
  standardize_filename "a\b" = "a\b"
  /\ contains "092"%char (standardize_filename "a\b") = true.
Proof. split; reflexivity. Qed.

End Normalizer.

(** ** Binary64 arithmetic of the throttle

    The multiplier only meets the constants 1.0, 0.9, 1.5 and 5.0.  The
    products are followed through the rounding of [SpecFloat]: a product of
    two 53-bit mantissas is shifted right by 52 or 53 bits and rounded to
    nearest, which moves it by at most one unit in the last place. *)

Section Binary64.

#[local] Open Scope Z_scope.

(** The number of binary digits of a mantissa is its [Pos.size]. *)
Lemma digits2_pos_size (p : positive) : digits2_pos p = Pos.size p.
Proof. induction p; simpl; congruence. Qed.

(** A mantissa of [d] digits lies between [2 ^ (d - 1)] and [2 ^ d]. *)
Lemma digits2_pos_bounds (p : positive) :
  2 ^ (Z.pos (digits2_pos p) - 1) <= Z.pos p < 2 ^ Z.pos (digits2_pos p).
Proof.
  rewrite digits2_pos_size.
  pose proof (Pos.size_gt p) as Hgt.
  pose proof (Pos.size_le p) as Hle.
  apply Pos2Z.pos_lt_pos in Hgt. apply Pos2Z.pos_le_pos in Hle.
  rewrite Pos2Z.inj_pow in Hgt, Hle.
  change (Z.pos p~0) with (2 * Z.pos p) in Hle.
  replace (Z.pos (Pos.size p)) with (Z.succ (Z.pos (Pos.size p) - 1)) in Hle at 1 by lia.
  rewrite Z.pow_succ_r in Hle by lia.
  lia.
Qed.

(** One right shift halves the mantissa. *)
Lemma shr_1_m (mrs : shr_record) :
  0 <= shr_m mrs -> shr_m (shr_1 mrs) = shr_m mrs / 2.
Proof.
  destruct mrs as [m r s]; simpl. intros Hm.
  destruct m as [|[p|p|]|p]; simpl; try lia; try reflexivity.
  - rewrite Pos2Z.inj_xI. apply Z.div_unique with (r := 1); lia.
  - rewrite Pos2Z.inj_xO. apply Z.div_unique with (r := 0); lia.
Qed.

(** [n] right shifts divide the mantissa by [2 ^ n]. *)
Lemma iter_shr_1_m (n : positive) : forall mrs : shr_record,
  0 <= shr_m mrs -> shr_m (iter_pos shr_1 n mrs) = shr_m mrs / 2 ^ Z.pos n.
Proof.
  induction n as [n IH|n IH|]; intros mrs Hm; simpl iter_pos.
  - assert (H1 : 0 <= shr_m (shr_1 mrs)) by (rewrite shr_1_m by lia; apply Z.div_pos; lia).
    assert (H2 : 0 <= shr_m (iter_pos shr_1 n (shr_1 mrs)))
      by (rewrite IH by lia; apply Z.div_pos; lia).
    rewrite IH, IH, shr_1_m by lia.
    rewrite !Z.div_div by lia.
    f_equal. change (Z.pos n~1) with (2 * Z.pos n + 1).
    replace (2 * Z.pos n + 1) with (1 + Z.pos n + Z.pos n) by lia.
    rewrite !Z.pow_add_r by lia. change (2 ^ 1) with 2. lia.
  - assert (H2 : 0 <= shr_m (iter_pos shr_1 n mrs))
      by (rewrite IH by lia; apply Z.div_pos; lia).
    rewrite IH, IH by lia.
    rewrite !Z.div_div by lia.
    f_equal. change (Z.pos n~0) with (2 * Z.pos n).
    replace (2 * Z.pos n) with (Z.pos n + Z.pos n) by lia.
    rewrite !Z.pow_add_r by lia. lia.
  - rewrite shr_1_m by lia. reflexivity.
Qed.

(** The number of digits is determined by the bounds. *)
Lemma digits2_pos_unique (p : positive) (d : Z) :
  2 ^ (d - 1) <= Z.pos p < 2 ^ d -> Z.pos (digits2_pos p) = d.
Proof.
  intros [Hlo Hhi].
  destruct (digits2_pos_bounds p) as [Hlo' Hhi'].
  assert (Hd : 0 < d).
  { destruct (Z_lt_le_dec 0 d) as [|Hle]; [assumption|].
    destruct (Z.eq_dec d 0) as [->|]; [simpl in Hhi; lia|].
    rewrite Z.pow_neg_r in Hhi by lia. lia. }
  destruct (Z.lt_trichotomy (Z.pos (digits2_pos p)) d) as [Hlt|[Heq|Hgt]].
  - assert (2 ^ Z.pos (digits2_pos p) <= 2 ^ (d - 1)) by (apply Z.pow_le_mono_r; lia). lia.
  - assumption.
  - assert (2 ^ d <= 2 ^ (Z.pos (digits2_pos p) - 1)) by (apply Z.pow_le_mono_r; lia). lia.
Qed.

(** Rounding to nearest moves the shifted mantissa up by one at most. *)
Lemma round_nearest_even_bounds (mrs : shr_record) :
  shr_m mrs <= round_nearest_even (shr_m mrs) (loc_of_shr_record mrs) <= shr_m mrs + 1.
Proof.
  destruct mrs as [m [|] [|]]; simpl; try destruct (Z.even m); lia.
Qed.

(** The first shift of a product of [53 + n] digits is by [n] places. *)
Lemma shr_fexp_first (M n : positive) (ex : Z) :
  Z.pos (digits2_pos M) = 53 + Z.pos n -> -1074 <= ex + Z.pos n ->
  shr_fexp prec emax (Z.pos M) ex loc_Exact
  = (iter_pos shr_1 n (Build_shr_record (Z.pos M) false false), ex + Z.pos n).
Proof.
  intros Hd He. unfold shr_fexp, fexp, SpecFloat.emin, prec, emax.
  simpl Zdigits2. rewrite Hd.
  replace (Z.max (53 + Z.pos n + ex - 53) (3 - 1024 - 53) - ex) with (Z.pos n) by lia.
  reflexivity.
Qed.

(** A 53-digit mantissa is not shifted again. *)
Lemma shr_fexp_normal (q : positive) (e : Z) :
  2 ^ 52 <= Z.pos q < 2 ^ 53 -> -1074 <= e ->
  shr_fexp prec emax (Z.pos q) e loc_Exact = (Build_shr_record (Z.pos q) false false, e).
Proof.
  intros Hq He. unfold shr_fexp, fexp, SpecFloat.emin, prec, emax.
  simpl Zdigits2. rewrite (digits2_pos_unique q 53) by (simpl; lia).
  replace (Z.max (53 + e - 53) (3 - 1024 - 53) - e) with 0 by lia.
  reflexivity.
Qed.

(** A rounding that carries to [2 ^ 53] is shifted once more. *)
Lemma shr_fexp_carry (e : Z) :
  -1074 <= e ->
  shr_fexp prec emax (2 ^ 53) e loc_Exact = (Build_shr_record (2 ^ 52) false false, e + 1).
Proof.
  intros He. unfold shr_fexp, fexp, SpecFloat.emin, prec, emax.
  change (Zdigits2 (2 ^ 53)) with 54.
  replace (Z.max (54 + e - 53) (3 - 1024 - 53) - e) with 1 by lia.
  reflexivity.
Qed.

(** The rounding of a positive mantissa of [53 + n] digits: a finite
    positive float whose mantissa is the quotient by [2 ^ n] or the next
    integer, renormalized when the rounding carries. *)
Lemma binary_round_aux_bounds (M n : positive) (ex : Z) :
  Z.pos (digits2_pos M) = 53 + Z.pos n ->
  -1074 <= ex + Z.pos n -> ex + Z.pos n + 1 <= 971 ->
  exists q e,
    binary_round_aux prec emax false (Z.pos M) ex loc_Exact = S754_finite false q e
    /\ ((e = ex + Z.pos n
         /\ Z.pos M / 2 ^ Z.pos n <= Z.pos q <= Z.pos M / 2 ^ Z.pos n + 1
         /\ 2 ^ 52 <= Z.pos q < 2 ^ 53)
        \/ (e = ex + Z.pos n + 1 /\ Z.pos q = 2 ^ 52
            /\ Z.pos M / 2 ^ Z.pos n + 1 = 2 ^ 53)).
Proof.
  intros Hd Hlo Hhi.
  unfold binary_round_aux. rewrite (shr_fexp_first M n ex Hd Hlo).
  set (mrs := iter_pos shr_1 n _).
  assert (Hm : shr_m mrs = Z.pos M / 2 ^ Z.pos n)
    by (unfold mrs; rewrite iter_shr_1_m by (simpl; lia); reflexivity).
  pose proof (round_nearest_even_bounds mrs) as Hr.
  rewrite Hm in Hr.
  set (t := Z.pos M / 2 ^ Z.pos n) in *.
  assert (Ht : 2 ^ 52 <= t < 2 ^ 53).
  { destruct (digits2_pos_bounds M) as [H1 H2]. rewrite Hd in H1, H2.
    replace (53 + Z.pos n - 1) with (52 + Z.pos n) in H1 by lia.
    rewrite Z.pow_add_r in H1, H2 by lia.
    assert (0 < 2 ^ Z.pos n) by (apply Z.pow_pos_nonneg; lia).
    unfold t. split.
    - apply Z.div_le_lower_bound; lia.
    - apply Z.div_lt_upper_bound; lia. }
  rewrite Hm. fold t.
  set (q' := round_nearest_even t (loc_of_shr_record mrs)) in *.
  destruct (Z_lt_le_dec q' (2 ^ 53)) as [Hlt|Hge].
  - destruct q' as [|q|q] eqn:Eq; try lia.
    rewrite shr_fexp_normal by lia. cbn [shr_m].
    replace (ex + Z.pos n <=? emax - prec) with true
      by (symmetry; apply Z.leb_le; unfold emax, prec; lia).
    exists q, (ex + Z.pos n). split; [reflexivity|]. left. lia.
  - assert (Eq : q' = 2 ^ 53) by lia. rewrite Eq.
    rewrite shr_fexp_carry by lia. cbn [shr_m].
    change (2 ^ 52) with (Z.pos (2 ^ 52)).
    replace (ex + Z.pos n + 1 <=? emax - prec) with true
      by (symmetry; apply Z.leb_le; unfold emax, prec; lia).
    exists (2 ^ 52)%positive, (ex + Z.pos n + 1). split; [reflexivity|]. right. lia.
Qed.

(** The order on finite positive floats: by exponent, then by mantissa. *)
Lemma SFleb_finite_pos (m1 m2 : positive) (e1 e2 : Z) :
  SFleb (S754_finite false m1 e1) (S754_finite false m2 e2) = true
  <-> e1 < e2 \/ (e1 = e2 /\ Z.pos m1 <= Z.pos m2).
Proof.
  unfold SFleb, SFcompare.
  change (Pos.compare_cont Eq m1 m2) with (m1 ?= m2)%positive.
  rewrite Pos2Z.inj_compare.
  destruct (Z.compare_spec e1 e2); destruct (Z.compare_spec (Z.pos m1) (Z.pos m2));
    split; intros; try discriminate; try reflexivity; lia.
Qed.

(** The four constants of the throttle, as mantissa and exponent. *)
Lemma Prim2SF_one : Prim2SF 1 = S754_finite false (2 ^ 52) (-52).
Proof. reflexivity. Qed.
Lemma Prim2SF_five : Prim2SF 5 = S754_finite false (5 * 2 ^ 50) (-50).
Proof. reflexivity. Qed.
Lemma Prim2SF_decay : Prim2SF 0.9 = S754_finite false 8106479329266893 (-53).
Proof. reflexivity. Qed.
Lemma Prim2SF_growth : Prim2SF 1.5 = S754_finite false (3 * 2 ^ 51) (-52).
Proof. reflexivity. Qed.

(** A float between 1.0 and 5.0 is finite, positive and normal, with
    exponent -52, -51 or -50. *)
Lemma float_in_range (m : float) :
  (1 <=? m)%float = true -> (m <=? 5)%float = true ->
  exists mx e, Prim2SF m = S754_finite false mx e
    /\ 2 ^ 52 <= Z.pos mx < 2 ^ 53 /\ -52 <= e <= -50
    /\ (e = -50 -> Z.pos mx <= 5 * 2 ^ 50).
Proof.
  rewrite !leb_spec, Prim2SF_one, Prim2SF_five.
  pose proof (Prim2SF_valid m) as Hv.
  destruct (Prim2SF m) as [s|s| |s mx e]; try discriminate.
  - destruct s; discriminate.
  - destruct s; [discriminate|].
    rewrite !SFleb_finite_pos. intros H1 H5.
    exists mx, e. split; [reflexivity|].
    assert (He : -52 <= e <= -50) by lia.
    unfold valid_binary, bounded, canonical_mantissa, fexp, SpecFloat.emin, prec, emax in Hv.
    apply andb_prop in Hv. destruct Hv as [Hc _]. apply Z.eqb_eq in Hc.
    assert (Hd : Z.pos (digits2_pos mx) = 53) by lia.
    pose proof (digits2_pos_bounds mx) as Hb. rewrite Hd in Hb.
    change (2 ^ (53 - 1)) with (2 ^ 52) in Hb.
    change (Z.pos (5 * 2 ^ 50)) with (5 * 2 ^ 50) in H5.
    repeat split; try lia.
Qed.

(** The product of two finite positive floats is the rounded product of
    the mantissas. *)
Lemma mul_finite_pos (mx my : positive) (ex ey : Z) :
  SF64mul (S754_finite false mx ex) (S754_finite false my ey)
  = binary_round_aux prec emax false (Z.pos (mx * my)) (ex + ey) loc_Exact.
Proof. reflexivity. Qed.

(** The decay stays below the cap. *)
Lemma decay_le_five (m : float) :
  (1 <=? m)%float = true -> (m <=? 5)%float = true -> (m * 0.9 <=? 5)%float = true.
Proof.
  intros H1 H5.
  destruct (float_in_range m H1 H5) as (mx & e & Hm & Hmx & He & He5).
  rewrite leb_spec, mul_spec, Hm, Prim2SF_decay, Prim2SF_five, mul_finite_pos.
  set (M := (mx * 8106479329266893)%positive).
  assert (HM : Z.pos M = Z.pos mx * 8106479329266893) by (unfold M; lia).
  change (Z.pos (5 * 2 ^ 50)) with (5 * 2 ^ 50).
  destruct (Z_lt_le_dec (Z.pos M) (2 ^ 105)) as [Hlt|Hge].
  - destruct (binary_round_aux_bounds M 52 (e + -53)) as (q & e' & Hr & Hq);
      [apply digits2_pos_unique; lia | lia | lia |].
    rewrite Hr. apply SFleb_finite_pos.
    destruct Hq as [(-> & Hq & Hq')|(-> & Hq & Hq')]; lia.
  - destruct (binary_round_aux_bounds M 53 (e + -53)) as (q & e' & Hr & Hq);
      [apply digits2_pos_unique; lia | lia | lia |].
    rewrite Hr. apply SFleb_finite_pos.
    pose proof (Z.mul_div_le (Z.pos M) (2 ^ 53) eq_refl) as Hdiv.
    destruct Hq as [(-> & Hq & Hq')|(-> & Hq & Hq')]; lia.
Qed.

(** The growth does not go below its argument, nor below the floor. *)
Lemma growth_ge (m : float) :
  (1 <=? m)%float = true -> (m <=? 5)%float = true ->
  (m <=? m * 1.5)%float = true /\ (1 <=? m * 1.5)%float = true.
Proof.
  intros H1 H5.
  destruct (float_in_range m H1 H5) as (mx & e & Hm & Hmx & He & He5).
  rewrite !leb_spec, mul_spec, Hm, Prim2SF_growth, Prim2SF_one, mul_finite_pos.
  set (M := (mx * (3 * 2 ^ 51))%positive).
  assert (HM : Z.pos M = Z.pos mx * 6755399441055744) by (unfold M; lia).
  change (Z.pos (2 ^ 52)) with (2 ^ 52).
  destruct (Z_lt_le_dec (Z.pos M) (2 ^ 105)) as [Hlt|Hge].
  - destruct (binary_round_aux_bounds M 52 (e + -52)) as (q & e' & Hr & Hq);
      [apply digits2_pos_unique; lia | lia | lia |].
    rewrite Hr, !SFleb_finite_pos.
    pose proof (Z.mul_succ_div_gt (Z.pos M) (2 ^ 52) eq_refl) as Hdiv.
    destruct Hq as [(-> & Hq & Hq')|(-> & Hq & Hq')]; lia.
  - destruct (binary_round_aux_bounds M 53 (e + -52)) as (q & e' & Hr & Hq);
      [apply digits2_pos_unique; lia | lia | lia |].
    rewrite Hr, !SFleb_finite_pos.
    destruct Hq as [(-> & Hq & Hq')|(-> & Hq & Hq')]; lia.
Qed.

(** Strictly below implies below or equal. *)
Lemma leb_of_ltb (x y : float) : (x <? y)%float = true -> (x <=? y)%float = true.
Proof.
  rewrite ltb_spec, leb_spec. unfold SFltb, SFleb.
  destruct (SFcompare (Prim2SF x) (Prim2SF y)) as [[| |]|]; congruence.
Qed.

End Binary64.

(** ** Adaptive throttling *)

Section Throttle.

(** A float in the range is below or equal to itself (it is not a NaN). *)
Lemma leb_refl_in_range (m : float) :
  (1 <=? m)%float = true -> (m <=? 5)%float = true -> (m <=? m)%float = true.
Proof.
  intros H1 H5.
  destruct (float_in_range m H1 H5) as (mx & e & Hm & _).
  rewrite leb_spec, Hm. apply SFleb_finite_pos. right. split; [reflexivity|lia].
Qed.

(** The floor: the decayed multiplier stays between 1.0 and 5.0. *)
Lemma decay_in_range (m : float) :
  (1 <=? m)%float = true -> (m <=? 5)%float = true ->
  (1 <=? py_max 1 (m * 0.9))%float = true /\ (py_max 1 (m * 0.9) <=? 5)%float = true.
Proof.
  intros H1 H5. unfold py_max.
  destruct (1 <? m * 0.9)%float eqn:Hlt.
  - split; [apply leb_of_ltb, Hlt | apply decay_le_five; assumption].
  - split; reflexivity.
Qed.

(** The cap: the raised multiplier stays between 1.0 and 5.0 and is not
    below the multiplier it comes from. *)
Lemma growth_in_range (m : float) :
  (1 <=? m)%float = true -> (m <=? 5)%float = true ->
  (1 <=? py_min 5 (m * 1.5))%float = true /\ (py_min 5 (m * 1.5) <=? 5)%float = true
  /\ (m <=? py_min 5 (m * 1.5))%float = true.
Proof.
  intros H1 H5. unfold py_min.
  destruct (growth_ge m H1 H5) as [Hge Hone].
  destruct (m * 1.5 <? 5)%float eqn:Hlt.
  - split; [assumption|]. split; [apply leb_of_ltb, Hlt | assumption].
  - split; [reflexivity|]. split; [reflexivity | assumption].
Qed.

(** Every reachable multiplier lies between the floor and the cap. *)
Lemma reachable_in_range (eng : DownloadEngine) :
  reachable eng ->
  (1 <=? _throttle_multiplier eng)%float = true
  /\ (_throttle_multiplier eng <=? 5)%float = true.
Proof.
  induction 1 as [mcs delay | eng Hr [H1 H5] | eng Hr [H1 H5]].
  - split; reflexivity.
  - apply decay_in_range; assumption.
  - unfold _handle_failure. cbn [_throttle_multiplier].
    destruct (Nat.ltb 5 (S (_consecutive_failures eng))).
    + destruct (growth_in_range _ H1 H5) as (? & ? & ?). split; assumption.
    + split; assumption.
Qed.

(** C6. For every throttle state the engine can reach: a success resets the
    failure counter to zero and sets the multiplier to the maximum of 1.0
    and 0.9 times its value; a failure increments the counter and, once
    the counter exceeds 5, sets the multiplier to the minimum of 5.0 and
    1.5 times its value, leaving it unchanged otherwise; the multiplier
    lies between 1.0 and 5.0; and a failure never lowers it. *)
Theorem throttle_rules_and_bounds (eng : DownloadEngine) :
  reachable eng ->
  _consecutive_failures (throttle_on_success eng) = 0
  /\ _throttle_multiplier (throttle_on_success eng)
     = py_max 1 (_throttle_multiplier eng * 0.9)%float
  /\ _consecutive_failures (_handle_failure eng)
     = S (_consecutive_failures eng)
  /\ (5 < S (_consecutive_failures eng) ->
      _throttle_multiplier (_handle_failure eng)
      = py_min 5 (_throttle_multiplier eng * 1.5)%float)
  /\ (S (_consecutive_failures eng) <= 5 ->
      _throttle_multiplier (_handle_failure eng) = _throttle_multiplier eng)
  /\ (1 <=? _throttle_multiplier eng)%float = true
  /\ (_throttle_multiplier eng <=? 5)%float = true
  /\ (_throttle_multiplier eng <=? _throttle_multiplier (_handle_failure eng))%float = true.
Proof.
  intros Hr. destruct (reachable_in_range eng Hr) as [H1 H5].
  split; [reflexivity|]. split; [reflexivity|]. split; [reflexivity|].
  split.
  { intros Hgt. unfold _handle_failure. cbn [_throttle_multiplier].
    apply Nat.ltb_lt in Hgt. rewrite Hgt. reflexivity. }
  split.
  { intros Hle. unfold _handle_failure. cbn [_throttle_multiplier].
    replace (Nat.ltb 5 (S (_consecutive_failures eng))) with false; [reflexivity|].
    symmetry. apply Nat.ltb_ge. exact Hle. }
  split; [assumption|]. split; [assumption|].
  unfold _handle_failure. cbn [_throttle_multiplier].
  destruct (Nat.ltb 5 (S (_consecutive_failures eng))).
  - apply growth_in_range; assumption.
  - apply leb_refl_in_range; assumption.
Qed.

(** The initial engine after seven failures: an instance of C6. *)
Lemma throttle_rules_and_bounds_witness :
  let eng := Nat.iter 7 _handle_failure (new_engine 50 0) in
  reachable eng
  /\ (1 <=? _throttle_multiplier eng)%float = true
  /\ (_throttle_multiplier eng <=? 5)%float = true
  /\ (_throttle_multiplier eng <=? _throttle_multiplier (_handle_failure eng))%float = true.
Proof.
  assert (Hr : reachable (Nat.iter 7 _handle_failure (new_engine 50 0)))
    by (simpl; repeat apply reachable_failure; apply reachable_new).
  split; [exact Hr|].
  destruct (throttle_rules_and_bounds _ Hr) as (_ & _ & _ & _ & _ & H1 & H5 & Hm).
  split; [exact H1|]. split; [exact H5|exact Hm].
Defined.

(** C10. A body fetched and written into the folder runs the success branch
    of the throttle whatever its size: the engine after the call is the one
    a success leaves, with the failure counter at zero and the multiplier
    decayed, and the status is empty exactly when the body is shorter than
    [min_content_size]. *)
Theorem empty_resets_throttle_like_success (w : World) (eng : DownloadEngine)
    (fs : FS) (i : nat) (point_path url save_folder content : string) :
  fetch w i point_path url = Body content ->
  fs save_folder <> None ->
  let '(eng', _, r) := _download_single w eng fs i point_path url save_folder in
  eng' = throttle_on_success eng
  /\ _consecutive_failures eng' = 0
  /\ _throttle_multiplier eng' = py_max 1 (_throttle_multiplier eng * 0.9)%float
  /\ ((Z.of_nat (String.length content) < min_content_size eng)%Z ->
      status_of r = Empty)
  /\ ((min_content_size eng <= Z.of_nat (String.length content))%Z ->
      status_of r = Success).
Proof.
  intros Hfetch Hfs. unfold _download_single. rewrite Hfetch.
  destruct (fs save_folder); [|congruence].
  cbn [min_content_size throttle_on_success].
  destruct (Z.ltb_spec (Z.of_nat (String.length content)) (min_content_size eng)).
  - split; [reflexivity|]. split; [reflexivity|]. split; [reflexivity|].
    split; [reflexivity | intros; lia].
  - split; [reflexivity|]. split; [reflexivity|]. split; [reflexivity|].
    split; [intros; lia | reflexivity].
Qed.

(** A ten-byte body against the default threshold of fifty, after six
    failures: an instance of C10. *)
Lemma empty_resets_throttle_like_success_witness :
  let w := mkWorld "2024-01-01" (fun _ => "t") (fun _ _ _ => Body "0123456789")
                   (fun _ => 0) in
  let eng := Nat.iter 6 _handle_failure (new_engine 50 0) in
  let fs := makedirs (fun _ => None) "out" in
  _throttle_multiplier eng = 1.5%float
  /\ fs "out" <> None
  /\ let '(eng', _, r) := _download_single w eng fs 0 "/a" "u" "out" in
     _consecutive_failures eng' = 0
     /\ _throttle_multiplier eng' = 1.35%float
     /\ status_of r = Empty.
Proof.
  split; [reflexivity|].
  assert (Hfs : makedirs (fun _ => None) "out" "out" <> None)
    by (vm_compute; discriminate).
  split; [exact Hfs|].
  pose proof (empty_resets_throttle_like_success
                (mkWorld "2024-01-01" (fun _ => "t") (fun _ _ _ => Body "0123456789")
                         (fun _ => 0))
                (Nat.iter 6 _handle_failure (new_engine 50 0))
                (makedirs (fun _ => None) "out") 0 "/a" "u" "out" "0123456789"
                eq_refl Hfs) as H.
  cbv beta iota zeta in H.
  destruct (_download_single _ _ _ _ _ _ _) as [[eng' fs'] r].
  destruct H as (-> & H0 & Hm & He & _).
  split; [exact H0|]. split; [reflexivity|].
  apply He. vm_compute. reflexivity.
Defined.

End Throttle.

(** ** The state file *)

Section StateFile.

Lemma update_same (fs : FS) (path : string) (d : folder) :
  update fs path d path = Some d.
Proof. unfold update. rewrite String.eqb_refl. reflexivity. Qed.

Lemma makedirs_exists (fs : FS) (path : string) :
  makedirs fs path path <> None.
Proof.
  unfold makedirs. destruct (fs path) eqn:E.
  - rewrite E. discriminate.
  - rewrite update_same. discriminate.
Qed.

Lemma makedirs_existing (fs : FS) (path : string) :
  fs path <> None -> makedirs fs path = fs.
Proof. unfold makedirs. destruct (fs path); [reflexivity|congruence]. Qed.

(** A new folder has no sidecar; an existing one keeps its own. *)
Lemma read_state_file_makedirs (fs : FS) (path : string) :
  read_state_file (makedirs fs path) path = read_state_file fs path.
Proof.
  unfold read_state_file, makedirs. destruct (fs path) eqn:E.
  - rewrite E. reflexivity.
  - rewrite update_same. reflexivity.
Qed.

(** A worker's write leaves the sidecar as it is. *)
Lemma read_state_file_write (fs : FS) (dir name body : string) :
  read_state_file (write_file fs dir name body) dir = read_state_file fs dir.
Proof.
  unfold read_state_file, write_file. destruct (fs dir) eqn:E.
  - rewrite update_same. reflexivity.
  - rewrite E. reflexivity.
Qed.

Lemma write_file_exists (fs : FS) (dir name body : string) :
  fs dir <> None -> write_file fs dir name body dir <> None.
Proof.
  intros H. unfold write_file. destruct (fs dir); [|congruence].
  rewrite update_same. discriminate.
Qed.

(** After a save the sidecar holds the document of the state. *)
Lemma read_state_file_save (st : State.DownloadState) (fs : FS) (dir : string) :
  read_state_file (State.save st fs dir) dir = Some (JsonDoc (State.asdict st)).
Proof.
  unfold State.save, read_state_file.
  pose proof (makedirs_exists fs dir) as H.
  destruct (makedirs fs dir dir); [|congruence].
  rewrite update_same. reflexivity.
Qed.

Lemma save_exists (st : State.DownloadState) (fs : FS) (dir : string) :
  State.save st fs dir dir <> None.
Proof.
  pose proof (read_state_file_save st fs dir) as H. unfold read_state_file in H.
  destruct (State.save st fs dir dir); [discriminate|discriminate].
Qed.

(** The constructor rebuilds a state from its own dictionary. *)
Lemma construct_asdict (st : State.DownloadState) :
  State.construct (State.asdict st) = inr st.
Proof. destruct st. reflexivity. Qed.

(** C4. For every state, saving it and loading the file again gives a state
    with the same district, start date, total and the same completed,
    failed and empty collections: the state itself. *)
Theorem save_load_roundtrip (st : State.DownloadState) (fs : FS) (dir : string) :
  State.load (State.save st fs dir) dir = Some st
  /\ forall st', State.load (State.save st fs dir) dir = Some st' ->
       State.district st' = State.district st
       /\ State.date_started st' = State.date_started st
       /\ State.total_points st' = State.total_points st
       /\ State.completed st' = State.completed st
       /\ State.failed st' = State.failed st
       /\ State.empty st' = State.empty st.
Proof.
  assert (H : State.load (State.save st fs dir) dir = Some st).
  { unfold State.load. rewrite read_state_file_save, construct_asdict. reflexivity. }
  split; [exact H|].
  intros st' H'. rewrite H in H'. injection H' as <-. repeat split.
Qed.

(** A missing file gives no state. *)
Lemma load_missing (fs : FS) (dir : string) :
  read_state_file fs dir = None -> State.load fs dir = None.
Proof. unfold State.load. intros ->. reflexivity. Qed.

(** Text that is not JSON gives no state. *)
Lemma load_not_json (fs : FS) (dir : string) :
  read_state_file fs dir = Some NotJson -> State.load fs dir = None.
Proof. unfold State.load. intros ->. reflexivity. Qed.

(** A document that is not a mapping gives no state. *)
Lemma load_not_mapping (fs : FS) (dir : string) (v : pyval) :
  read_state_file fs dir = Some (JsonDoc v) ->
  (forall items, v <> PDict items) -> State.load fs dir = None.
Proof.
  unfold State.load. intros -> Hv.
  destruct v; try reflexivity. exfalso. apply (Hv items). reflexivity.
Qed.

(** A mapping whose first key is not a field name gives no state. *)
Lemma load_unknown_key (fs : FS) (dir : string) (key : string) (v : pyval)
    (rest : list (string * pyval)) :
  read_state_file fs dir = Some (JsonDoc (PDict ((key, v) :: rest))) ->
  State.set_field State.default key v = None -> State.load fs dir = None.
Proof.
  unfold State.load. intros -> Hk. simpl. rewrite Hk. reflexivity.
Qed.

(** A fresh state has well-formed lists. *)
Lemma initial_state_fresh (w : World) (fs : FS) (dir district : string)
    (url_list : list (string * string)) :
  State.load fs dir = None ->
  lists_ok (initial_state w fs dir url_list district) = true
  /\ State.completed_set (initial_state w fs dir url_list district) = inr [].
Proof. unfold initial_state. intros ->. split; reflexivity. Qed.

Lemma completed_set_ok (st : State.DownloadState) :
  lists_ok st = true ->
  State.completed_set st = inr (items_of (State.completed st)).
Proof.
  unfold lists_ok, State.completed_set, py_set.
  destruct (State.completed st); try discriminate.
  destruct (State.failed st); try discriminate.
  destruct (State.empty st); try discriminate.
  intros ->. reflexivity.
Qed.

End StateFile.

(** ** Completion order and statistics *)

Section Tally.

Lemma insert_at_perm {A : Type} (n : nat) (x : A) (l : list A) :
  Permutation (insert_at n x l) (x :: l).
Proof.
  revert n. induction l as [|y l IH]; intros [|n]; simpl; try reflexivity.
  rewrite IH. apply perm_swap.
Qed.

(** Every future completes exactly once. *)
Lemma as_completed_perm {A : Type} (pick : nat -> nat) (futures : list A) :
  Permutation (as_completed pick futures) futures.
Proof.
  induction futures as [|f rest IH]; simpl; [reflexivity|].
  rewrite insert_at_perm. constructor. exact IH.
Qed.

Lemma as_completed_ext {A : Type} (pick pick' : nat -> nat) (futures : list A) :
  (forall n, n < List.length futures -> pick n = pick' n) ->
  as_completed pick futures = as_completed pick' futures.
Proof.
  induction futures as [|f rest IH]; intros H; simpl; [reflexivity|].
  rewrite IH by (intros n Hn; apply H; simpl; lia).
  rewrite (H (List.length rest)) by (simpl; lia). reflexivity.
Qed.

Lemma insert_at_app {A : Type} (a b : list A) (x : A) :
  insert_at (List.length a) x (a ++ b) = a ++ x :: b.
Proof.
  induction a as [|y a IH]; simpl.
  - destruct b; reflexivity.
  - rewrite IH. reflexivity.
Qed.

(** Every order of completion is the order of some [pick]. *)
Lemma as_completed_any {A : Type} (futures : list A) :
  forall order, Permutation order futures ->
  exists pick, as_completed pick futures = order.
Proof.
  induction futures as [|f rest IH]; intros order Hp.
  - exists (fun _ => 0). symmetry. apply Permutation_nil. symmetry. exact Hp.
  - assert (Hin : In f order)
      by (apply (Permutation_in _ (Permutation_sym Hp)); left; reflexivity).
    destruct (in_split _ _ Hin) as (a & b & ->).
    assert (Hp' : Permutation (a ++ b) rest).
    { symmetry. apply Permutation_cons_app_inv with (a := f). symmetry. exact Hp. }
    destruct (IH (a ++ b) Hp') as (pick' & Hpick).
    exists (fun n => if Nat.eqb n (List.length rest) then List.length a else pick' n).
    simpl. rewrite Nat.eqb_refl.
    rewrite (as_completed_ext _ pick').
    + rewrite Hpick. apply insert_at_app.
    + intros n Hn. destruct (Nat.eqb_spec n (List.length rest)); [lia|reflexivity].
Qed.

Lemma submit_length (url_list : list (string * string)) :
  List.length (submit url_list) = List.length url_list.
Proof.
  unfold submit. rewrite length_combine, length_seq. apply Nat.min_id.
Qed.

Lemma submit_points (url_list : list (string * string)) :
  map snd (submit url_list) = url_list.
Proof.
  unfold submit. generalize 0.
  induction url_list as [|x l IH]; intros n; simpl; [reflexivity|].
  rewrite IH. reflexivity.
Qed.

Lemma completion_order_perm (w : World) (items : list (string * string)) :
  Permutation (completion_order w items) (submit items).
Proof. apply as_completed_perm. Qed.

Lemma results_of_length (w : World) (mcs : Z) (items : list (string * string)) :
  List.length (results_of w mcs items) = List.length items.
Proof.
  unfold results_of. rewrite length_map.
  rewrite (Permutation_length (completion_order_perm w items)).
  apply submit_length.
Qed.


Lemma count_perm (st : status) (rs rs' : list result) :
  Permutation rs rs' -> count st rs = count st rs'.
Proof.
  intros H. unfold count. induction H; simpl.
  - reflexivity.
  - destruct (status_eqb (status_of x) st); simpl; congruence.
  - destruct (status_eqb (status_of x) st), (status_eqb (status_of y) st); reflexivity.
  - congruence.
Qed.

(** Each result carries exactly one of the three statuses. *)
Lemma count_partition (rs : list result) :
  count Success rs + count Failed rs + count Empty rs = List.length rs.
Proof.
  unfold count. induction rs as [|r rs IH]; simpl; [reflexivity|].
  destruct (status_of r); simpl; lia.
Qed.

Lemma count_app (st : status) (rs rs' : list result) :
  count st (rs ++ rs') = count st rs + count st rs'.
Proof. unfold count. rewrite filter_app, length_app. reflexivity. Qed.

Lemma reported_app (rs rs' : list result) :
  reported (rs ++ rs') = reported rs ++ reported rs'.
Proof. unfold reported. apply flat_map_app. Qed.

(** What one result adds to the statistics. *)
Lemma tally_spec (stats : Stats.DownloadStats) (r : result) :
  Stats.total (tally stats r) = Stats.total stats
  /\ Stats.skipped (tally stats r) = Stats.skipped stats
  /\ Stats.success (tally stats r) = Stats.success stats + count Success [r]
  /\ Stats.failed (tally stats r) = Stats.failed stats + count Failed [r]
  /\ Stats.empty (tally stats r) = Stats.empty stats + count Empty [r]
  /\ Stats.errors (tally stats r) = Stats.errors stats ++ reported [r].
Proof.
  destruct r as [[[p st] size] error]. unfold count, reported, status_of, error_of.
  destruct st; simpl; repeat split; try lia; try (rewrite app_nil_r; reflexivity).
  destruct error as [[|c rest]|]; simpl; rewrite ?app_nil_r; reflexivity.
Qed.

Lemma tally_fold (rs : list result) : forall stats : Stats.DownloadStats,
  let stats' := fold_left tally rs stats in
  Stats.total stats' = Stats.total stats
  /\ Stats.skipped stats' = Stats.skipped stats
  /\ Stats.success stats' = Stats.success stats + count Success rs
  /\ Stats.failed stats' = Stats.failed stats + count Failed rs
  /\ Stats.empty stats' = Stats.empty stats + count Empty rs
  /\ Stats.errors stats' = Stats.errors stats ++ reported rs.
Proof.
  induction rs as [|r rs IH]; intros stats; cbn [fold_left].
  - rewrite app_nil_r. unfold count. simpl. repeat split; lia || reflexivity.
  - destruct (IH (tally stats r)) as (Ht & Hk & Hs & Hf & He & Hx).
    destruct (tally_spec stats r) as (Ht' & Hk' & Hs' & Hf' & He' & Hx').
    change (r :: rs) with ([r] ++ rs).
    rewrite !count_app, reported_app.
    rewrite Ht, Hk, Hs, Hf, He, Hx, Ht', Hk', Hs', Hf', He', Hx'.
    rewrite <- app_assoc. repeat split; lia || reflexivity.
Qed.

(** In an existing folder, the tuple [_download_single] returns, and the
    threshold it leaves untouched. *)
Lemma download_single_result (w : World) (eng : DownloadEngine) (fs : FS)
    (i : nat) (point_path url save_folder : string) :
  fs save_folder <> None ->
  snd (_download_single w eng fs i point_path url save_folder)
  = result_of w (min_content_size eng) (i, (point_path, url))
  /\ min_content_size (fst (fst (_download_single w eng fs i point_path url save_folder)))
     = min_content_size eng.
Proof.
  intros Hfs.
  unfold _download_single, result_of, attempt_of, point_of. simpl.
  destruct (fetch w i point_path url)
    as [content| |[code|]|message|message|message remnant]; simpl;
    try (split; reflexivity).
  - destruct (fs save_folder); [|congruence].
    destruct (Z.of_nat (String.length content) <? min_content_size eng)%Z;
      split; reflexivity.
  - destruct (fs save_folder); [|congruence]. split; reflexivity.
Qed.

(** [_download_single] leaves the sidecar as it is and the folder in place. *)
Lemma download_single_fs (w : World) (eng : DownloadEngine) (fs : FS) (i : nat)
    (point_path url save_folder : string) :
  let fs' := snd (fst (_download_single w eng fs i point_path url save_folder)) in
  read_state_file fs' save_folder = read_state_file fs save_folder
  /\ (fs save_folder <> None -> fs' save_folder <> None).
Proof.
  unfold _download_single.
  destruct (fetch w i point_path url)
    as [content| |code|message|message|message remnant]; simpl;
    try (split; [reflexivity|tauto]).
  - destruct (fs save_folder) eqn:E; simpl; [|split; [reflexivity|tauto]].
    destruct (Z.of_nat (String.length content) <? _)%Z; simpl;
      (split; [apply read_state_file_write
              | intros _; apply write_file_exists; congruence]).
  - destruct (fs save_folder) eqn:E; simpl; [|split; [reflexivity|tauto]].
    split; [apply read_state_file_write
           | intros _; apply write_file_exists; congruence].
Qed.

(** The loop of [download_batch] tallies the results in completion order. *)
Lemma batch_fold (w : World) (save_folder : string)
    (order : list (nat * (string * string))) :
  forall (eng : DownloadEngine) (fs : FS) (stats : Stats.DownloadStats),
  fs save_folder <> None ->
  exists eng' fs',
    fold_left (batch_step w save_folder) order (eng, fs, stats)
    = (eng', fs',
       fold_left tally (map (result_of w (min_content_size eng)) order) stats)
    /\ min_content_size eng' = min_content_size eng.
Proof.
  induction order as [|[i [p u]] order IH]; intros eng fs stats Hfs; simpl.
  - exists eng, fs. split; reflexivity.
  - destruct (download_single_result w eng fs i p u save_folder Hfs) as [Hr Hm].
    destruct (download_single_fs w eng fs i p u save_folder) as [_ Hex].
    destruct (_download_single w eng fs i p u save_folder) as [[eng1 fs1] r].
    simpl in Hr, Hm, Hex. subst r.
    destruct (IH eng1 fs1
                (tally stats (result_of w (min_content_size eng) (i, (p, u))))
                (Hex Hfs))
      as (eng' & fs' & Hfold & Hmin).
    exists eng', fs'. rewrite Hfold, Hm. split; [reflexivity|congruence].
Qed.

End Tally.

(** ** The resumable loop *)

Section Resume.

Variable w : World.
Variable save_folder : string.

Lemma points_with_app (keep : status -> bool) (rs rs' : list result) :
  points_with keep (rs ++ rs') = points_with keep rs ++ points_with keep rs'.
Proof. unfold points_with. rewrite filter_app, map_app. reflexivity. Qed.

Lemma records_refl (st : State.DownloadState) :
  lists_ok st = true -> records st st [].
Proof.
  intros H. unfold records. simpl. rewrite !app_nil_r.
  repeat split; try assumption. exists []. rewrite app_nil_r. split; reflexivity.
Qed.

Lemma records_trans (st1 st2 st3 : State.DownloadState) (rs rs' : list result) :
  records st1 st2 rs -> records st2 st3 rs' -> records st1 st3 (rs ++ rs').
Proof.
  intros (_ & Hd & Hs & Ht & Hc & He & recs & Hf & Hp)
         (Hok & Hd' & Hs' & Ht' & Hc' & He' & recs' & Hf' & Hp').
  unfold records. rewrite !points_with_app, !map_app.
  split; [assumption|]. split; [congruence|]. split; [congruence|].
  split; [congruence|].
  split; [rewrite Hc', Hc, app_assoc; reflexivity|].
  split; [rewrite He', He, app_assoc; reflexivity|].
  exists (recs ++ recs'). split.
  - rewrite Hf', Hf, app_assoc. reflexivity.
  - rewrite map_app, Hp, Hp'. reflexivity.
Qed.

(** One result: a success appends the identifier to the completed list;
    an empty result appends it to the empty and to the completed list; a
    failure appends a record to the failed list only.  No append raises on
    well-formed lists. *)
Lemma record_outcome_ok (k : nat) (st : State.DownloadState) (r : result) :
  lists_ok st = true ->
  exists st', record_outcome w k st r = inr st' /\ records st st' [r].
Proof.
  destruct st as [d ds tp c f e]. unfold lists_ok. simpl.
  destruct c as [| | | | |done|]; try discriminate.
  destruct f as [| | | | |failures|]; try discriminate.
  destruct e as [| | | | |empties|]; try discriminate.
  intros Hh. destruct r as [[[p st] size] error].
  unfold records, lists_ok, points_with, status_of, point_of_result.
  destruct st; simpl.
  - eexists. split; [reflexivity|]. simpl. rewrite ?app_nil_r.
    rewrite forallb_app, Hh. repeat split. exists []. rewrite app_nil_r.
    split; reflexivity.
  - eexists. split; [reflexivity|]. simpl. rewrite ?app_nil_r.
    rewrite forallb_app, Hh. repeat split. exists []. rewrite app_nil_r.
    split; reflexivity.
  - eexists. split; [reflexivity|]. simpl. rewrite ?app_nil_r.
    rewrite Hh. repeat split. eexists. split; reflexivity.
Qed.

(** One turn of the loop from a well-formed state. *)
Lemma resume_step_ok (a : resume_acc) (future : nat * (string * string)) :
  lists_ok (acc_state a) = true -> acc_fs a save_folder <> None ->
  exists a',
    resume_step w save_folder (inr a) future = inr a'
    /\ acc_completed a' = S (acc_completed a)
    /\ acc_stats a'
       = tally (acc_stats a) (result_of w (min_content_size (acc_engine a)) future)
    /\ min_content_size (acc_engine a') = min_content_size (acc_engine a)
    /\ records (acc_state a) (acc_state a')
               [result_of w (min_content_size (acc_engine a)) future]
    /\ acc_fs a' save_folder <> None
    /\ read_state_file (acc_fs a') save_folder
       = if Nat.eqb (S (acc_completed a) mod 50) 0
         then Some (JsonDoc (State.asdict (acc_state a')))
         else read_state_file (acc_fs a) save_folder.
Proof.
  intros Hok Hfs. destruct future as [i [p u]]. unfold resume_step.
  destruct (download_single_result w (acc_engine a) (acc_fs a) i p u save_folder Hfs)
    as [Hr Hm].
  destruct (download_single_fs w (acc_engine a) (acc_fs a) i p u save_folder)
    as [Hread Hex].
  destruct (_download_single w (acc_engine a) (acc_fs a) i p u save_folder)
    as [[eng1 fs1] r].
  simpl in Hr, Hm, Hread, Hex. subst r.
  destruct (record_outcome_ok (S (acc_completed a)) (acc_state a)
              (result_of w (min_content_size (acc_engine a)) (i, (p, u))) Hok)
    as (st' & Hrec & Hrecords).
  rewrite Hrec. eexists. split; [reflexivity|].
  cbn [acc_completed acc_stats acc_engine acc_state acc_fs].
  split; [reflexivity|]. split; [reflexivity|]. split; [assumption|].
  split; [assumption|].
  destruct (Nat.eqb (S (acc_completed a) mod 50) 0).
  - split; [apply save_exists | apply read_state_file_save].
  - split; [apply Hex, Hfs | assumption].
Qed.

(** The whole loop from a well-formed state: it does not raise, counts
    every completion, tallies the results and records them in the state. *)
Lemma resume_fold (order : list (nat * (string * string))) :
  forall a : resume_acc,
  lists_ok (acc_state a) = true -> acc_fs a save_folder <> None ->
  exists a',
    fold_left (resume_step w save_folder) order (inr a) = inr a'
    /\ acc_completed a' = acc_completed a + List.length order
    /\ acc_stats a'
       = fold_left tally
           (map (result_of w (min_content_size (acc_engine a))) order)
           (acc_stats a)
    /\ min_content_size (acc_engine a') = min_content_size (acc_engine a)
    /\ records (acc_state a) (acc_state a')
               (map (result_of w (min_content_size (acc_engine a))) order)
    /\ acc_fs a' save_folder <> None.
Proof.
  induction order as [|future order IH]; intros a Hok Hfs.
  - exists a. cbn [fold_left map List.length].
    split; [reflexivity|]. split; [lia|]. split; [reflexivity|].
    split; [reflexivity|]. split; [apply records_refl, Hok | assumption].
  - destruct (resume_step_ok a future Hok Hfs)
      as (a1 & Hstep & Hc & Hs & Hm & Hrec & Hfs1 & _).
    assert (Hok1 : lists_ok (acc_state a1) = true) by apply Hrec.
    destruct (IH a1 Hok1 Hfs1) as (a' & Hfold & Hc' & Hs' & Hm' & Hrec' & Hfs').
    exists a'. cbn [fold_left map List.length]. rewrite Hstep.
    split; [exact Hfold|]. split; [lia|].
    split; [rewrite Hs', Hs, Hm; reflexivity|].
    split; [congruence|].
    split; [|assumption].
    change (?x :: ?l) with ([x] ++ l).
    rewrite Hm in Hrec'. eapply records_trans; eassumption.
Qed.




End Resume.

(** ** download_batch *)

Section Batch.

Lemma classify_failed (mcs : Z) (a : attempt) :
  status_eqb (classify mcs a) Failed = raised a.
Proof.
  destruct a as [content| | | | |]; simpl; try reflexivity.
  destruct (Z.of_nat (String.length content) <? mcs)%Z; reflexivity.
Qed.

Lemma count_failed_raised (w : World) (mcs : Z)
    (futures : list (nat * (string * string))) :
  count Failed (map (result_of w mcs) futures)
  = List.length (filter (fun f => raised (attempt_of w f)) futures).
Proof.
  unfold count. induction futures as [|f futures IH]; [reflexivity|].
  cbn [map filter]. unfold status_of at 1, result_of at 1. cbn [fst snd].
  rewrite classify_failed. destruct (raised (attempt_of w f)); simpl; congruence.
Qed.

Lemma results_of_perm (w : World) (mcs : Z) (items : list (string * string)) :
  Permutation (results_of w mcs items) (map (result_of w mcs) (submit items)).
Proof. apply Permutation_map, completion_order_perm. Qed.

(** What [download_batch] returns: the tally of the results. *)
Lemma download_batch_stats (w : World) (eng : DownloadEngine) (fs : FS)
    (url_list : list (string * string)) (output_folder : string)
    (date_subfolder : bool) :
  snd (download_batch w eng fs url_list output_folder date_subfolder)
  = fold_left tally (results_of w (min_content_size eng) url_list)
              (Stats.init (List.length url_list) 0).
Proof.
  unfold download_batch. destruct url_list as [|item rest] eqn:E.
  - reflexivity.
  - rewrite <- E.
    destruct (batch_fold w (save_folder_of w output_folder date_subfolder)
                (as_completed (pick w) (submit url_list)) eng
                (makedirs fs (save_folder_of w output_folder date_subfolder))
                (Stats.init (List.length url_list) 0)
                (makedirs_exists fs _))
      as (eng' & fs' & Hfold & _).
    rewrite Hfold. reflexivity.
Qed.

(** The counters of [download_batch], class by class. *)
Lemma download_batch_counts (w : World) (eng : DownloadEngine)
    (fs : FS) (url_list : list (string * string)) (output_folder : string)
    (date_subfolder : bool) :
  let stats :=
    snd (download_batch w eng fs url_list output_folder date_subfolder) in
  let outcomes :=
    map (result_of w (min_content_size eng)) (submit url_list) in
  Stats.total stats = List.length url_list
  /\ Stats.success stats + Stats.failed stats + Stats.empty stats
     = Stats.total stats
  /\ Stats.success stats = count Success outcomes
  /\ Stats.empty stats = count Empty outcomes
  /\ Stats.failed stats = count Failed outcomes
  /\ Stats.failed stats
     = List.length (filter (fun f => raised (attempt_of w f)) (submit url_list)).
Proof.
  cbv zeta. rewrite download_batch_stats.
  destruct (tally_fold (results_of w (min_content_size eng) url_list)
              (Stats.init (List.length url_list) 0))
    as (Ht & _ & Hs & Hf & He & _).
  cbv zeta in Ht, Hs, Hf, He. simpl in Ht, Hs, Hf, He.
  pose proof (count_partition (results_of w (min_content_size eng) url_list)) as Hp.
  rewrite results_of_length in Hp.
  pose proof (results_of_perm w (min_content_size eng) url_list) as Hperm.
  rewrite <- (count_failed_raised w (min_content_size eng)).
  rewrite <- !(count_perm _ _ _ Hperm).
  rewrite Ht, Hs, Hf, He. repeat split; lia.
Qed.

(** C1. After [download_batch], for every list of items, [total] is the
    length of the list and [success + failed + empty = total]; each counter
    is the number of items in its class, where an item is a success when
    the fetched body has at least [min_content_size] bytes, empty when it
    is shorter, and failed when the attempt raised. *)
Theorem download_batch_classifies_every_item (w : World) (eng : DownloadEngine)
    (fs : FS) (url_list : list (string * string)) (output_folder : string)
    (date_subfolder : bool) :
  let stats :=
    snd (download_batch w eng fs url_list output_folder date_subfolder) in
  let outcomes :=
    map (result_of w (min_content_size eng)) (submit url_list) in
  Stats.total stats = List.length url_list
  /\ Stats.success stats + Stats.failed stats + Stats.empty stats
     = Stats.total stats
  /\ Stats.success stats = count Success outcomes
  /\ Stats.empty stats = count Empty outcomes
  /\ Stats.failed stats = count Failed outcomes
  /\ Stats.failed stats
     = List.length (filter (fun f => raised (attempt_of w f)) (submit url_list)).
Proof.
  exact (download_batch_counts w eng fs url_list output_folder date_subfolder).
Qed.

Lemma substring_length_le (n : nat) (s : string) :
  String.length (substring 0 n s) <= n.
Proof.
  revert s. induction n as [|n IH]; intros [|c s]; simpl; try lia.
  specialize (IH s). lia.
Qed.

(** The three shapes of a recorded message. *)
Lemma error_text_shape (a : attempt) (m : string) :
  error_text a = Some m ->
  m = "Timeout" \/ (exists shown, m = ("HTTP " ++ shown)%string)
  \/ String.length m <= 50.
Proof.
  destruct a as [content| |[code|]|message|message|message remnant]; simpl;
    intros H; try discriminate; injection H as <-.
  - left. reflexivity.
  - right. left. eexists. reflexivity.
  - right. left. exists "unknown". reflexivity.
  - right. right. apply substring_length_le.
  - right. right. apply substring_length_le.
  - right. right. apply substring_length_le.
Qed.

Lemma error_text_raised (a : attempt) (m : string) :
  error_text a = Some m -> raised a = true.
Proof. destruct a; simpl; intros H; try reflexivity. discriminate. Qed.

Lemma reported_in (rs : list result) (p m : string) :
  In (p, m) (reported rs)
  <-> exists r, In r rs /\ point_of_result r = p /\ status_of r = Failed
                /\ error_of r = Some m /\ m <> "".
Proof.
  unfold reported. rewrite in_flat_map. split.
  - intros (r & Hin & Hr). exists r. split; [exact Hin|].
    destruct (status_of r); [destruct Hr | destruct Hr |].
    destruct (error_of r) as [[|c rest]|]; [destruct Hr | | destruct Hr].
    destruct Hr as [Heq|[]]. injection Heq as <- <-.
    repeat split. discriminate.
  - intros (r & Hin & Hp & Hs & He & Hm). exists r. split; [exact Hin|].
    rewrite Hs, He. destruct m as [|c rest]; [congruence|].
    left. rewrite Hp. reflexivity.
Qed.

(** Every raising attempt with a message that is not empty is reported. *)
Lemma reported_complete (w : World) (mcs : Z) (items : list (string * string))
    (future : nat * (string * string)) (c : ascii) (rest : string) :
  In future (submit items) ->
  error_text (attempt_of w future) = Some (String c rest) ->
  In (point_of future, String c rest) (reported (results_of w mcs items)).
Proof.
  intros Hin Htext. apply reported_in. exists (result_of w mcs future).
  split.
  - unfold results_of. apply in_map.
    apply (Permutation_in _ (Permutation_sym (completion_order_perm w items))).
    exact Hin.
  - unfold result_of, point_of_result, status_of, error_of. cbn [fst snd].
    split; [reflexivity|]. split; [|split; [exact Htext|discriminate]].
    pose proof (classify_failed mcs (attempt_of w future)) as Hc.
    rewrite (error_text_raised _ _ Htext) in Hc.
    destruct (classify mcs (attempt_of w future)); try discriminate. reflexivity.
Qed.

(** Every reported pair comes from a raising attempt of the batch. *)
Lemma reported_sound (w : World) (mcs : Z) (items : list (string * string))
    (p m : string) :
  In (p, m) (reported (results_of w mcs items)) ->
  exists future,
    In future (submit items) /\ p = point_of future
    /\ raised (attempt_of w future) = true
    /\ error_text (attempt_of w future) = Some m /\ m <> "".
Proof.
  intros Hin. apply reported_in in Hin.
  destruct Hin as (r & Hr & Hp & Hs & He & Hm).
  unfold results_of in Hr. apply in_map_iff in Hr.
  destruct Hr as (future & <- & Hfut).
  exists future. split.
  - apply (Permutation_in _ (completion_order_perm w items)). exact Hfut.
  - unfold result_of, point_of_result, status_of, error_of in *. cbn [fst snd] in *.
    split; [congruence|]. split; [|split; assumption].
    apply (error_text_raised _ _ He).
Qed.

End Batch.

(** ** download_batch_with_resume *)

Section ResumableBatch.

Variable w : World.
Variable eng : DownloadEngine.
Variable fs : FS.
Variable url_list : list (string * string).
Variables output_folder district : string.
Variable date_subfolder : bool.

Abbreviation save_folder := (save_folder_of w output_folder date_subfolder).
Abbreviation st0 :=
  (start_state w fs url_list output_folder district date_subfolder).
Abbreviation remaining :=
  (remaining_of w fs url_list output_folder district date_subfolder).
Abbreviation results := (results_of w (min_content_size eng) remaining).
Abbreviation start :=
  (loop_start w eng fs url_list output_folder district date_subfolder).

(** From a well-formed state the call returns: the statistics are the tally
    of the results of the remaining items, and when some item remained the
    state that recorded them is on disk. *)
Lemma resume_returns :
  lists_ok st0 = true ->
  exists eng' fs',
    download_batch_with_resume w eng fs url_list output_folder district
                               date_subfolder
    = Returned (fold_left tally results
                  (Stats.init (List.length remaining)
                              (List.length url_list - List.length remaining)))
               eng' fs'
    /\ (remaining = [] -> fs' = makedirs fs save_folder)
    /\ (remaining <> [] ->
        exists a,
          resume_prefix w save_folder (List.length (completion_order w remaining))
                        (completion_order w remaining) start = inr a
          /\ records st0 (acc_state a) results
          /\ read_state_file fs' save_folder
             = Some (JsonDoc (State.asdict (acc_state a)))).
Proof.
  intros Hok.
  assert (Hfs : acc_fs start save_folder <> None) by apply makedirs_exists.
  destruct (resume_fold w save_folder (completion_order w remaining) start Hok Hfs)
    as (a & Hfold & _ & Hstats & _ & Hrec & _).
  change (acc_stats start)
    with (Stats.init (List.length remaining)
                     (List.length url_list - List.length remaining)) in Hstats.
  change (acc_engine start) with eng in Hstats, Hrec.
  change (acc_state start) with st0 in Hrec.
  unfold download_batch_with_resume.
  change (initial_state w (makedirs fs save_folder) save_folder url_list district)
    with st0.
  rewrite (completed_set_ok st0 Hok).
  change (not_done (items_of (State.completed st0)) url_list) with remaining.
  unfold results_of at 1. unfold results_of in Hstats, Hrec.
  change (mkAcc 0 eng (makedirs (makedirs fs save_folder) save_folder)
            (Stats.init (List.length remaining)
                        (List.length url_list - List.length remaining)) st0)
    with start.
  change (as_completed (pick w) (submit remaining))
    with (completion_order w remaining).
  destruct remaining as [|item rest] eqn:E.
  - exists eng, (makedirs fs save_folder).
    split; [reflexivity|]. split; [reflexivity|congruence].
  - rewrite Hfold.
    exists (acc_engine a), (State.save (acc_state a) (acc_fs a) save_folder).
    split; [rewrite Hstats; reflexivity|].
    split; [discriminate|].
    intros _. exists a. unfold resume_prefix. rewrite firstn_all.
    split; [exact Hfold|]. split; [exact Hrec|apply read_state_file_save].
Qed.

Lemma py_in_app (p : string) (l l' : list pyval) :
  py_in p (l ++ l') = py_in p l || py_in p l'.
Proof. unfold py_in. apply existsb_app. Qed.

Lemma py_in_strs (p : string) (l : list string) :
  py_in p (map PStr l) = str_in p l.
Proof.
  unfold py_in, str_in. induction l as [|x l IH]; simpl; [reflexivity|].
  rewrite IH. reflexivity.
Qed.

(** After the results were recorded, an identifier is in the completed list
    exactly when it was there before or one of its results did not fail. *)
Lemma records_completed (st st' : State.DownloadState) (rs : list result)
    (p : string) :
  records st st' rs ->
  py_in p (items_of (State.completed st'))
  = py_in p (items_of (State.completed st)) || str_in p (points_with not_failed rs).
Proof.
  intros (_ & _ & _ & _ & Hc & _). rewrite Hc, py_in_app, py_in_strs. reflexivity.
Qed.

Lemma remaining_spec (item : string * string) :
  In item remaining
  <-> In item url_list
      /\ py_in (fst item) (items_of (State.completed st0)) = false.
Proof.
  unfold remaining_of, not_done. rewrite filter_In, negb_true_iff. reflexivity.
Qed.


(** The state the batch starts from is the one [load] reads from the state
    file of the folder, and a state with nothing completed when [load]
    gives none. *)
Lemma load_makedirs (disk : FS) (dir : string) :
  State.load (makedirs disk dir) dir = State.load disk dir.
Proof. unfold State.load. rewrite read_state_file_makedirs. reflexivity. Qed.

Lemma start_state_loaded (st : State.DownloadState) :
  State.load fs save_folder = Some st -> st0 = st.
Proof.
  intros Hload. unfold start_state, initial_state.
  rewrite load_makedirs, Hload. reflexivity.
Qed.





(** C7, as the code has it. No attempt that raises stops a batch: every one
    is counted in [failed], and adds the pair of its identifier and message
    to [errors] when the message is not empty; a message is the word
    Timeout, or HTTP followed by the status, or at most the first fifty
    characters of the text of the exception.  [download_batch] always
    returns, and so does [download_batch_with_resume] from a well-formed
    state. *)
Theorem item_errors_are_counted :
  let stats :=
    snd (download_batch w eng fs url_list output_folder date_subfolder) in
  Stats.success stats + Stats.failed stats + Stats.empty stats
  = List.length url_list
  /\ Stats.failed stats
     = List.length (filter (fun f => raised (attempt_of w f)) (submit url_list))
  /\ (forall future c rest,
        In future (submit url_list) ->
        error_text (attempt_of w future) = Some (String c rest) ->
        In (point_of future, String c rest) (Stats.errors stats))
  /\ (forall p m,
        In (p, m) (Stats.errors stats) ->
        m <> ""
        /\ (m = "Timeout" \/ (exists shown, m = ("HTTP " ++ shown)%string)
            \/ String.length m <= 50)
        /\ exists future,
             In future (submit url_list) /\ p = point_of future
             /\ raised (attempt_of w future) = true
             /\ error_text (attempt_of w future) = Some m)
  /\ (lists_ok st0 = true ->
      exists stats' eng' fs',
        download_batch_with_resume w eng fs url_list output_folder district
                                   date_subfolder
        = Returned stats' eng' fs'
        /\ Stats.failed stats'
           = List.length
               (filter (fun f => raised (attempt_of w f)) (submit remaining))
        /\ Stats.errors stats' = reported results).
Proof.
  cbv zeta.
  destruct (download_batch_counts w eng fs url_list output_folder
              date_subfolder) as (Ht & Hsum & _ & _ & _ & Hf).
  cbv zeta in Ht, Hsum, Hf.
  split; [lia|]. split; [exact Hf|].
  assert (Herr : Stats.errors (snd (download_batch w eng fs url_list output_folder
                                      date_subfolder))
                 = reported (results_of w (min_content_size eng) url_list)).
  { rewrite download_batch_stats.
    destruct (tally_fold (results_of w (min_content_size eng) url_list)
                (Stats.init (List.length url_list) 0)) as (_ & _ & _ & _ & _ & Hx).
    exact Hx. }
  rewrite Herr. split; [|split].
  - intros future c rest Hin Htext.
    apply reported_complete with (mcs := min_content_size eng); assumption.
  - intros p m Hin.
    destruct (reported_sound _ _ _ _ _ Hin) as (future & Hfut & Hp & Hr & Htext & Hm).
    split; [exact Hm|]. split; [apply (error_text_shape _ _ Htext)|].
    exists future. repeat split; assumption.
  - intros Hok. destruct (resume_returns Hok) as (eng' & fs' & Hret & _).
    eexists _, eng', fs'. split; [exact Hret|].
    destruct (tally_fold results
                (Stats.init (List.length remaining)
                            (List.length url_list - List.length remaining)))
      as (_ & _ & _ & Hf' & _ & Hx').
    cbv zeta in Hf', Hx'. simpl in Hf', Hx'.
    split; [|exact Hx'].
    rewrite Hf'. unfold results_of.
    rewrite (count_perm _ _ _ (Permutation_map _ (completion_order_perm w remaining))).
    apply count_failed_raised.
Qed.

(** With no state to load the run is a fresh one: every item is processed
    and none is skipped. *)
Lemma resume_without_state_runs_all :
  State.load fs save_folder = None ->
  remaining = url_list
  /\ exists stats eng' fs',
       download_batch_with_resume w eng fs url_list output_folder district
                                  date_subfolder
       = Returned stats eng' fs'
       /\ Stats.total stats = List.length url_list
       /\ Stats.skipped stats = 0.
Proof.
  intros Hload.
  assert (Hload' : State.load (makedirs fs save_folder) save_folder = None).
  { unfold State.load in *. rewrite read_state_file_makedirs. exact Hload. }
  destruct (initial_state_fresh w (makedirs fs save_folder) save_folder district
              url_list Hload') as [Hok Hset].
  assert (Hdone : items_of (State.completed st0) = []).
  { unfold start_state, initial_state. rewrite Hload'. reflexivity. }
  assert (Hrem : remaining = url_list).
  { unfold remaining_of, not_done. rewrite Hdone.
    clear. induction url_list as [|x l IH]; simpl; [reflexivity|].
    f_equal. exact IH. }
  split; [exact Hrem|].
  destruct (resume_returns Hok) as (eng' & fs' & Hret & _).
  eexists _, eng', fs'. split; [exact Hret|].
  destruct (tally_fold results
              (Stats.init (List.length remaining)
                          (List.length url_list - List.length remaining)))
    as (Ht & Hk & _).
  cbv zeta in Ht, Hk. simpl in Ht, Hk. rewrite Ht, Hk, Hrem. split; lia.
Qed.

End ResumableBatch.

(** ** Instances and counterexamples *)

Section Instances.




(** A run of 120 points interrupted after 57 results: the state on disk is
    the one saved at the fiftieth, with fifty completed identifiers. *)
Example interrupted_after_57 :
  match resume_prefix steady_world "out/2024-01-01" 57
          (completion_order steady_world (many_items 120))
          (loop_start steady_world (new_engine 50 0) empty_fs (many_items 120)
                      "out" "d" true) with
  | inr a =>
      match read_state_file (acc_fs a) "out/2024-01-01" with
      | Some (JsonDoc (PDict [_; _; _; (_, PList done); _; _])) =>
          List.length done = 50
          /\ List.length (items_of (State.completed (acc_state a))) = 57
      | _ => False
      end
  | inl _ => False
  end.
Proof. vm_compute. split; reflexivity. Qed.

(** The three-point batch through [download_batch]: one success, one empty
    result and one failure, a single error entry, and two files written. *)
Example three_point_batch :
  let '(_, fs', stats) :=
    download_batch example_world (new_engine 50 0) empty_fs example_items
                   "out" true in
  stats = Stats.mk 3 1 1 1 0 510 [("/Building/RTU-3", "Timeout")]
  /\ option_map (fun d => map fst (files d)) (fs' "out/2024-01-01")
     = Some ["Building_RTU-2.csv"; "Building_RTU-1.csv"].
Proof. vm_compute. split; reflexivity. Qed.


(** C7, the claim as stated fails: an exception whose text is empty is
    counted in [failed] and leaves no pair in [errors]. *)
Lemma silent_failure_is_not_recorded :
  let stats :=
    snd (download_batch silent_world (new_engine 50 0) empty_fs
                        [("/Building/RTU-1", "http://host/1")] "out" true) in
  Stats.failed stats = 1
  /\ Stats.errors stats = []
  /\ ~ exists message, In ("/Building/RTU-1", message) (Stats.errors stats).
Proof.
  vm_compute. split; [reflexivity|]. split; [reflexivity|].
  intros [message H]. exact H.
Qed.

(** C5. A state file that is valid JSON but does not match the schema, the
    list of completed points being the number 5, is loaded as a state and
    not treated as no state; the batch that follows raises a TypeError
    where it builds the completed set. *)
Theorem load_accepts_mistyped_state :
  State.load mistyped_disk "out/2024-01-01"
  = Some (State.mk (PStr "") (PStr "") (PInt 0) (PInt 5) (PList []) (PList []))
  /\ download_batch_with_resume example_world (new_engine 50 0) mistyped_disk
                                example_items "out" "d" true
     = Raised TypeError.
Proof. split; reflexivity. Qed.

End Instances.

(** ** filter_existing_files *)

Section FilterExisting.

Lemma string_length_append (s t : string) :
  String.length (s ++ t) = String.length s + String.length t.
Proof. induction s as [|c s IH]; simpl; [reflexivity|]. rewrite IH. reflexivity. Qed.

Lemma substring_all (t : string) : substring 0 (String.length t) t = t.
Proof. induction t as [|c t IH]; simpl; [reflexivity|]. rewrite IH. reflexivity. Qed.

Lemma substring_suffix (s t : string) :
  substring (String.length s) (String.length t) (s ++ t) = t.
Proof. induction s as [|c s IH]; simpl; [apply substring_all|exact IH]. Qed.

(** A name built by appending the suffix ends with it. *)
Lemma endswith_append (s t : string) : Utils.endswith t (s ++ t) = true.
Proof.
  unfold Utils.endswith. rewrite string_length_append.
  replace (String.length s + String.length t - String.length t)
    with (String.length s) by lia.
  rewrite substring_suffix, String.eqb_refl.
  replace (Nat.leb (String.length t) (String.length s + String.length t)) with true;
    [reflexivity|].
  symmetry. apply Nat.leb_le. lia.
Qed.

(** Restricting the listing to the names that end in [.csv] does not change
    whether an expected name is present. *)
Lemma str_in_filter (name : string) (keep : string -> bool) (names : list string) :
  keep name = true -> str_in name (filter keep names) = str_in name names.
Proof.
  intros Hk. unfold str_in. induction names as [|n names IH]; [reflexivity|].
  simpl. destruct (keep n) eqn:E; simpl.
  - rewrite IH. reflexivity.
  - rewrite IH. destruct (String.eqb_spec name n) as [->|]; [congruence|reflexivity].
Qed.

Lemma filter_fold (existing : list string) (url_list : list (string * string)) :
  forall (filtered : list (string * string)) (skipped : nat),
  fold_left (filter_step existing) url_list (filtered, skipped)
  = (filtered
       ++ filter (fun item => negb (str_in (csv_name (fst item)) existing)) url_list,
     skipped
       + List.length
           (filter (fun item => str_in (csv_name (fst item)) existing) url_list)).
Proof.
  induction url_list as [|[p u] l IH]; intros filtered skipped.
  - simpl. rewrite app_nil_r, Nat.add_0_r. reflexivity.
  - cbn [fold_left filter fst]. unfold filter_step at 2. fold (csv_name p).
    destruct (str_in (csv_name p) existing); rewrite IH; cbn [negb List.length].
    + f_equal. lia.
    + rewrite <- app_assoc. reflexivity.
Qed.

(** C9. With [force] the list comes back unchanged and nothing is skipped.
    Without it, the list also comes back unchanged when today's folder
    does not exist; when it exists, exactly the items whose standardized
    name with the suffix [.csv] is among the [.csv] names of the listing
    are removed, the others are kept in order, and [skipped] is the number
    of items removed. *)
Theorem filter_existing_files_spec (w : World) (fs : FS)
    (url_list : list (string * string)) (output_folder : string) :
  filter_existing_files w fs url_list output_folder true = (url_list, 0)
  /\ (fs (path_join output_folder (today w)) = None ->
      filter_existing_files w fs url_list output_folder false = (url_list, 0))
  /\ (forall d, fs (path_join output_folder (today w)) = Some d ->
      let present := fun item : string * string =>
        str_in (csv_name (fst item))
               (filter (Utils.endswith ".csv") (listdir d)) in
      filter_existing_files w fs url_list output_folder false
      = (filter (fun item => negb (present item)) url_list,
         List.length (filter present url_list))
      /\ (forall item, present item = str_in (csv_name (fst item)) (listdir d))
      /\ List.length (filter (fun item => negb (present item)) url_list)
         + List.length (filter present url_list)
         = List.length url_list).
Proof.
  split; [reflexivity|]. split.
  - intros Hnone. unfold filter_existing_files. rewrite Hnone. reflexivity.
  - intros d Hd present. unfold filter_existing_files. rewrite Hd.
    rewrite filter_fold. split; [reflexivity|]. split.
    + intros item. unfold present. apply str_in_filter.
      unfold csv_name. apply endswith_append.
    + pose proof (filter_length present url_list). lia.
Qed.

(** The three-point batch against a folder that already holds the file of
    the second point and a file that is not a [.csv]. *)
Example filter_existing_files_example :
  filter_existing_files example_world
    (update empty_fs "out/2024-01-01"
            (mkFolder [("Building_RTU-2.csv", "x"); ("notes.txt", "y")] None))
    example_items "out" false
  = ([("/Building/RTU-1", "http://host/1"); ("/Building/RTU-3", "http://host/3")],
     1).
Proof. reflexivity. Qed.

End FilterExisting.

(** ** More on the filename normalizer *)

Section NormalizerNames.

Import Utils.

Lemma replace_absent (old new : ascii) (s : string) :
  contains old s = false -> replace old new s = s.
Proof.
  induction s as [|c rest IH]; simpl; intros H; [reflexivity|].
  apply orb_false_elim in H. destruct H as [Hc Hrest].
  rewrite Hc, IH by assumption. reflexivity.
Qed.

Lemma replace_replace (old new : ascii) (s : string) :
  old <> new -> replace old new (replace old new s) = replace old new s.
Proof.
  intros Hne. apply replace_absent, contains_replace_old, Hne.
Qed.

Lemma replace_length (old new : ascii) (s : string) :
  String.length (replace old new s) = String.length s.
Proof. induction s as [|c rest IH]; simpl; congruence. Qed.

Lemma lstrip_length (c : ascii) (s : string) :
  String.length (lstrip c s) <= String.length s.
Proof.
  induction s as [|c' rest IH]; simpl; [lia|].
  destruct (Ascii.eqb c' c); simpl; lia.
Qed.

Lemma rstrip_length (c : ascii) (s : string) :
  String.length (rstrip c s) <= String.length s.
Proof.
  induction s as [|c' rest IH]; simpl; [lia|].
  destruct (rstrip c rest) as [|k kept]; [destruct (Ascii.eqb c' c)|];
    simpl in *; lia.
Qed.

Lemma fold_replace_length (olds : list ascii) : forall s : string,
  String.length (fold_left (fun f ch => replace ch "_" f) olds s)
  = String.length s.
Proof.
  induction olds as [|o olds IH]; intros s; simpl; [reflexivity|].
  rewrite IH. apply replace_length.
Qed.

Lemma fold_replace_absent (olds : list ascii) : forall s : string,
  (forall c, In c olds -> contains c s = false) ->
  fold_left (fun f ch => replace ch "_" f) olds s = s.
Proof.
  induction olds as [|o olds IH]; intros s H; simpl; [reflexivity|].
  rewrite replace_absent by (apply H; left; reflexivity).
  apply IH. intros c Hc. apply H. right. exact Hc.
Qed.

(** The last character of a string of two characters or more is that of
    its tail. *)
Lemma endswith_tail (t : ascii) (c a : ascii) (r : string) :
  endswith (String t EmptyString) (String c (String a r))
  = endswith (String t EmptyString) (String a r).
Proof.
  unfold endswith. cbn [String.length Nat.leb Nat.sub andb].
  rewrite Nat.sub_0_r. reflexivity.
Qed.

Lemma rstrip_no_end (c : ascii) (s : string) :
  endswith (String c EmptyString) s = false -> rstrip c s = s.
Proof.
  induction s as [|c' rest IH]; intros H; [reflexivity|].
  destruct rest as [|a r].
  - unfold endswith in H. simpl in H. simpl.
    destruct (Ascii.eqb c' c); [discriminate|reflexivity].
  - rewrite endswith_tail in H. specialize (IH H).
    cbn [rstrip]. cbn [rstrip] in IH. rewrite IH. reflexivity.
Qed.

Lemma lstrip_no_start (c : ascii) (s : string) :
  PointList.startswith c s = false -> lstrip c s = s.
Proof.
  destruct s as [|c' rest]; simpl; intros H; [reflexivity|].
  rewrite H. reflexivity.
Qed.

Lemma contains_append (c : ascii) (s t : string) :
  contains c (s ++ t) = contains c s || contains c t.
Proof.
  induction s as [|c' rest IH]; simpl; [reflexivity|].
  rewrite IH, orb_assoc. reflexivity.
Qed.

(** X1. A name that holds no slash and none of the seven replaced
    characters, and neither starts nor ends with an underscore, is returned
    as it is. *)
Theorem standardize_filename_keeps_safe_names (s : string) :
  (forall c, In c ("/"%char :: illegal_chars) -> contains c s = false) ->
  PointList.startswith "_" s = false ->
  endswith "_" s = false ->
  standardize_filename s = s.
Proof.
  intros Hc Hstart Hend. unfold standardize_filename, strip.
  rewrite (replace_absent "/" "_" s) by (apply Hc; left; reflexivity).
  rewrite lstrip_no_start by assumption.
  rewrite rstrip_no_end by assumption.
  apply fold_replace_absent. intros c Hin. apply Hc. right. exact Hin.
Qed.

Lemma standardize_filename_keeps_safe_names_witness :
  (forall c, In c ("/"%char :: illegal_chars) ->
             contains c "Building_RTU-1.Temp" = false)
  /\ PointList.startswith "_" "Building_RTU-1.Temp" = false
  /\ endswith "_" "Building_RTU-1.Temp" = false
  /\ standardize_filename "Building_RTU-1.Temp" = "Building_RTU-1.Temp".
Proof.
  assert (H : forall c, In c ("/"%char :: illegal_chars) ->
                        contains c "Building_RTU-1.Temp" = false).
  { intros c Hin. simpl in Hin.
    repeat (destruct Hin as [<-|Hin]; [reflexivity|]). destruct Hin. }
  split; [exact H|]. split; [reflexivity|]. split; [reflexivity|].
  apply (standardize_filename_keeps_safe_names "Building_RTU-1.Temp" H);
    reflexivity.
Defined.

(** X2. A slash and an underscore are the same to the normalizer, and a
    leading slash is dropped: two point paths that differ only in these
    share a file name. *)
Theorem standardize_filename_slash_is_underscore (s : string) :
  standardize_filename (replace "/" "_" s) = standardize_filename s
  /\ standardize_filename (String "/" s) = standardize_filename s
  /\ standardize_filename (String "_" s) = standardize_filename s.
Proof.
  unfold standardize_filename, strip.
  split; [|split].
  - rewrite replace_replace by discriminate. reflexivity.
  - reflexivity.
  - reflexivity.
Qed.

(** X3. The normalized name is never longer than the point path. *)
Theorem standardize_filename_length (s : string) :
  String.length (standardize_filename s) <= String.length s.
Proof.
  unfold standardize_filename, strip. rewrite fold_replace_length.
  pose proof (rstrip_length "_" (lstrip "_" (replace "/" "_" s))).
  pose proof (lstrip_length "_" (replace "/" "_" s)).
  rewrite replace_length in *. lia.
Qed.

(** X4. The file name of a point holds no slash and none of the seven
    replaced characters, and ends in [.csv]. *)
Theorem csv_name_has_no_replaced_character (point_path : string) :
  (forall c, In c ("/"%char :: illegal_chars) ->
             contains c (csv_name point_path) = false)
  /\ endswith ".csv" (csv_name point_path) = true.
Proof.
  split.
  - intros c Hin. unfold csv_name. rewrite contains_append.
    rewrite standardize_filename_replaced by exact Hin.
    simpl in Hin.
    repeat (destruct Hin as [<-|Hin]; [reflexivity|]). destruct Hin.
  - unfold csv_name. apply endswith_append.
Qed.

End NormalizerNames.

(** ** More on the throttle *)

Section Binary64Strict.

#[local] Open Scope Z_scope.

(** The strict order on finite positive floats. *)
Lemma SFltb_finite_pos (m1 m2 : positive) (e1 e2 : Z) :
  SFltb (S754_finite false m1 e1) (S754_finite false m2 e2) = true
  <-> e1 < e2 \/ (e1 = e2 /\ Z.pos m1 < Z.pos m2).
Proof.
  unfold SFltb, SFcompare.
  change (Pos.compare_cont Eq m1 m2) with (m1 ?= m2)%positive.
  rewrite Pos2Z.inj_compare.
  destruct (Z.compare_spec e1 e2); destruct (Z.compare_spec (Z.pos m1) (Z.pos m2));
    split; intros; try discriminate; try reflexivity; lia.
Qed.

(** The decayed multiplier is strictly below the multiplier. *)
Lemma decay_lt_self (m : float) :
  (1 <=? m)%float = true -> (m <=? 5)%float = true -> (m * 0.9 <? m)%float = true.
Proof.
  intros H1 H5.
  destruct (float_in_range m H1 H5) as (mx & e & Hm & Hmx & He & He5).
  rewrite ltb_spec, mul_spec, Hm, Prim2SF_decay, mul_finite_pos.
  set (M := (mx * 8106479329266893)%positive).
  assert (HM : Z.pos M = Z.pos mx * 8106479329266893) by (unfold M; lia).
  destruct (Z_lt_le_dec (Z.pos M) (2 ^ 105)) as [Hlt|Hge].
  - destruct (binary_round_aux_bounds M 52 (e + -53)) as (q & e' & Hr & Hq);
      [apply digits2_pos_unique; lia | lia | lia |].
    rewrite Hr. apply SFltb_finite_pos.
    pose proof (Z.mul_div_le (Z.pos M) (2 ^ 52) eq_refl) as Hdiv.
    destruct Hq as [(-> & Hq & Hq')|(-> & Hq & Hq')]; lia.
  - destruct (binary_round_aux_bounds M 53 (e + -53)) as (q & e' & Hr & Hq);
      [apply digits2_pos_unique; lia | lia | lia |].
    rewrite Hr. apply SFltb_finite_pos.
    pose proof (Z.mul_div_le (Z.pos M) (2 ^ 53) eq_refl) as Hdiv.
    destruct Hq as [(-> & Hq & Hq')|(-> & Hq & Hq')]; lia.
Qed.

End Binary64Strict.

Section ThrottleDecay.

(** X5. A success never raises the throttle multiplier: it lowers it
    strictly while it is above 1.0, and leaves it at 1.0 once it is there. *)
Theorem success_lowers_multiplier (eng : DownloadEngine) :
  reachable eng ->
  (_throttle_multiplier (throttle_on_success eng) <=? _throttle_multiplier eng)%float
  = true
  /\ ((1 <? _throttle_multiplier eng)%float = true ->
      (_throttle_multiplier (throttle_on_success eng) <? _throttle_multiplier eng)%float
      = true)
  /\ (_throttle_multiplier eng = 1%float ->
      _throttle_multiplier (throttle_on_success eng) = 1%float).
Proof.
  intros Hr. destruct (reachable_in_range eng Hr) as [H1 H5].
  pose proof (decay_lt_self _ H1 H5) as Hlt.
  unfold throttle_on_success. cbn [_throttle_multiplier]. unfold py_max.
  split; [|split].
  - destruct (1 <? _throttle_multiplier eng * 0.9)%float.
    + apply leb_of_ltb, Hlt.
    + exact H1.
  - intros Habove.
    destruct (1 <? _throttle_multiplier eng * 0.9)%float; assumption.
  - intros ->. reflexivity.
Qed.

Lemma success_lowers_multiplier_witness :
  let eng := Nat.iter 7 _handle_failure (new_engine 50 0) in
  reachable eng
  /\ _throttle_multiplier eng = 2.25%float
  /\ _throttle_multiplier (throttle_on_success eng) = 2.025%float
  /\ (_throttle_multiplier (throttle_on_success eng) <=? _throttle_multiplier eng)%float
     = true.
Proof.
  cbv zeta.
  assert (Hr : reachable (Nat.iter 7 _handle_failure (new_engine 50 0))).
  { simpl. repeat apply reachable_failure. apply reachable_new. }
  split; [exact Hr|]. split; [reflexivity|]. split; [reflexivity|].
  exact (proj1 (success_lowers_multiplier _ Hr)).
Defined.

Lemma failures_counted (n : nat) : forall eng : DownloadEngine,
  _consecutive_failures (Nat.iter n _handle_failure eng)
  = n + _consecutive_failures eng.
Proof.
  induction n as [|n IH]; intros eng; [reflexivity|].
  change (Nat.iter (S n) _handle_failure eng)
    with (_handle_failure (Nat.iter n _handle_failure eng)).
  unfold _handle_failure at 1. cbn [_consecutive_failures].
  rewrite IH. reflexivity.
Qed.

Lemma failures_tolerated (n : nat) : forall eng : DownloadEngine,
  n + _consecutive_failures eng <= 5 ->
  _throttle_multiplier (Nat.iter n _handle_failure eng) = _throttle_multiplier eng.
Proof.
  induction n as [|n IH]; intros eng Hn; [reflexivity|].
  change (Nat.iter (S n) _handle_failure eng)
    with (_handle_failure (Nat.iter n _handle_failure eng)).
  unfold _handle_failure at 1. cbn [_throttle_multiplier].
  rewrite failures_counted.
  replace (Nat.ltb 5 (S (n + _consecutive_failures eng))) with false
    by (symmetry; apply Nat.ltb_ge; lia).
  apply IH. lia.
Qed.

(** X6. After a success, up to five failures in a row leave the multiplier
    where the success put it; the sixth is the first to raise it. *)
Theorem five_failures_are_tolerated (eng : DownloadEngine) (n : nat) :
  n <= 5 ->
  let calm := throttle_on_success eng in
  _consecutive_failures (Nat.iter n _handle_failure calm) = n
  /\ _throttle_multiplier (Nat.iter n _handle_failure calm)
     = _throttle_multiplier calm
  /\ _throttle_multiplier (Nat.iter 6 _handle_failure calm)
     = py_min 5 (_throttle_multiplier calm * 1.5)%float.
Proof.
  intros Hn calm. split; [|split].
  - rewrite failures_counted. unfold calm, throttle_on_success.
    cbn [_consecutive_failures]. lia.
  - apply failures_tolerated. unfold calm, throttle_on_success.
    cbn [_consecutive_failures]. lia.
  - change (Nat.iter 6 _handle_failure calm)
      with (_handle_failure (Nat.iter 5 _handle_failure calm)).
    unfold _handle_failure at 1. cbn [_throttle_multiplier].
    rewrite failures_counted, failures_tolerated
      by (unfold calm, throttle_on_success; cbn [_consecutive_failures]; lia).
    reflexivity.
Qed.

Lemma five_failures_are_tolerated_witness :
  5 <= 5
  /\ _throttle_multiplier
       (Nat.iter 5 _handle_failure (throttle_on_success (new_engine 50 0)))
     = 1%float
  /\ _throttle_multiplier
       (Nat.iter 6 _handle_failure (throttle_on_success (new_engine 50 0)))
     = 1.5%float.
Proof.
  split; [lia|].
  pose proof (five_failures_are_tolerated (new_engine 50 0) 5 (le_n 5)) as H.
  cbv zeta in H. destruct H as (_ & H5 & H6).
  split.
  - rewrite H5. reflexivity.
  - rewrite H6. reflexivity.
Defined.

End ThrottleDecay.

(** ** The documents [load] accepts *)

Section StateDocuments.

Lemma set_field_known (st : State.DownloadState) (key : string) (v : pyval) :
  In key field_names ->
  exists st', State.set_field st key v = Some st'
    /\ forall k, In k field_names ->
         field k st' = if String.eqb key k then Some v else field k st.
Proof.
  intros Hkey. simpl in Hkey.
  destruct Hkey as [<-|[<-|[<-|[<-|[<-|[<-|[]]]]]]];
    (eexists; split; [reflexivity|]);
    intros k Hk; simpl in Hk;
    destruct Hk as [<-|[<-|[<-|[<-|[<-|[<-|[]]]]]]]; reflexivity.
Qed.

Lemma set_field_unknown (st : State.DownloadState) (key : string) (v : pyval) :
  ~ In key field_names -> State.set_field st key v = None.
Proof.
  intros Hkey. unfold State.set_field.
  repeat match goal with
         | |- (if String.eqb ?a ?b then _ else _) = None =>
             destruct (String.eqb_spec a b) as [->|_];
             [exfalso; apply Hkey; simpl; tauto|]
         end.
  reflexivity.
Qed.

Lemma in_field_names_dec (key : string) :
  {In key field_names} + {~ In key field_names}.
Proof. apply in_dec, string_dec. Qed.

Lemma set_fields_known (kwargs : list (string * pyval)) :
  forall st : State.DownloadState,
  (forall k, In k (map fst kwargs) -> In k field_names) ->
  exists st', State.set_fields st kwargs = inr st'
    /\ forall k, In k field_names ->
         field k st' = match py_get k kwargs with
                       | Some v => Some v
                       | None => field k st
                       end.
Proof.
  induction kwargs as [|[key v] rest IH]; intros st Hkeys.
  - exists st. split; [reflexivity|]. intros k _. reflexivity.
  - destruct (set_field_known st key v) as (st1 & Hset & Hget);
      [apply Hkeys; left; reflexivity|].
    destruct (IH st1) as (st' & Hrest & Hget');
      [intros k Hk; apply Hkeys; right; exact Hk|].
    exists st'. cbn [State.set_fields]. rewrite Hset. split; [exact Hrest|].
    intros k Hk. rewrite (Hget' k Hk). cbn [py_get].
    destruct (py_get k rest); [reflexivity|]. rewrite (Hget k Hk).
    destruct (String.eqb key k); reflexivity.
Qed.

Lemma set_fields_unknown (kwargs : list (string * pyval)) :
  forall st : State.DownloadState,
  (exists k, In k (map fst kwargs) /\ ~ In k field_names) ->
  State.set_fields st kwargs = inl TypeError.
Proof.
  induction kwargs as [|[key v] rest IH]; intros st (k & Hin & Hk).
  - destruct Hin.
  - cbn [State.set_fields].
    destruct (in_field_names_dec key) as [Hkey|Hkey].
    + destruct (set_field_known st key v Hkey) as (st1 & -> & _).
      apply IH. exists k. split; [|exact Hk].
      destruct Hin as [<-|Hin]; [contradiction|exact Hin].
    + rewrite set_field_unknown by exact Hkey. reflexivity.
Qed.

Lemma keys_known_dec (kwargs : list (string * pyval)) :
  (forall k, In k (map fst kwargs) -> In k field_names)
  \/ (exists k, In k (map fst kwargs) /\ ~ In k field_names).
Proof.
  induction kwargs as [|[key v] rest [IH|(k & Hin & Hk)]].
  - left. intros k [].
  - destruct (in_field_names_dec key) as [Hkey|Hkey].
    + left. intros k [<-|Hk]; [exact Hkey|apply IH, Hk].
    + right. exists key. split; [left; reflexivity|exact Hkey].
  - right. exists k. split; [right; exact Hin|exact Hk].
Qed.

(** X7. For a state file that is absent or holds text, which the JSON
    reader parses or rejects as not being JSON, [load] gives [None] in
    exactly four cases: there is no state file, the text is rejected, the
    document is not an object, or the object has a key that is not a field
    of [DownloadState]. *)
Theorem load_none_iff (fs : FS) (dir : string) :
  State.load fs dir = None
  <-> read_state_file fs dir = None
      \/ read_state_file fs dir = Some NotJson
      \/ (exists v, read_state_file fs dir = Some (JsonDoc v)
                    /\ forall items, v <> PDict items)
      \/ (exists items k, read_state_file fs dir = Some (JsonDoc (PDict items))
                          /\ In k (map fst items) /\ ~ In k field_names).
Proof.
  unfold State.load. split.
  - destruct (read_state_file fs dir) as [[|v]|]; [tauto| |tauto].
    intros H. right. right.
    destruct v as [|b|z|x|s|l|items];
      try (left; eexists; split; [reflexivity|]; intros items; discriminate).
    right. destruct (keys_known_dec items) as [Hk|(k & Hin & Hk)].
    + destruct (set_fields_known items State.default Hk) as (st & Hst & _).
      cbn [State.construct] in H. rewrite Hst in H. discriminate.
    + exists items, k. split; [reflexivity|]. split; assumption.
  - intros [->|[->|[(v & -> & Hv)|(items & k & -> & Hin & Hk)]]];
      try reflexivity.
    + destruct v; try reflexivity. exfalso. eapply Hv. reflexivity.
    + cbn [State.construct].
      rewrite set_fields_unknown by (exists k; split; assumption).
      reflexivity.
Qed.

(** X8. A state document whose keys are all field names is accepted
    whatever its values are; each field takes the value of its key, and
    the dataclass default when the key is missing. *)
Theorem load_fills_defaults (fs : FS) (dir : string)
    (items : list (string * pyval)) :
  read_state_file fs dir = Some (JsonDoc (PDict items)) ->
  (forall k, In k (map fst items) -> In k field_names) ->
  exists st,
    State.load fs dir = Some st
    /\ forall k, In k field_names ->
         field k st = match py_get k items with
                      | Some v => Some v
                      | None => field k State.default
                      end.
Proof.
  intros Hread Hkeys.
  destruct (set_fields_known items State.default Hkeys) as (st & Hst & Hget).
  exists st. unfold State.load. rewrite Hread. cbn [State.construct].
  rewrite Hst. split; [reflexivity|exact Hget].
Qed.

Lemma load_fills_defaults_witness :
  read_state_file mistyped_disk "out/2024-01-01"
  = Some (JsonDoc (PDict [("completed", PInt 5)]))
  /\ (forall k, In k (map fst [("completed", PInt 5)]) -> In k field_names)
  /\ exists st,
       State.load mistyped_disk "out/2024-01-01" = Some st
       /\ field "completed" st = Some (PInt 5)
       /\ field "failed" st = Some (PList []).
Proof.
  assert (Hk : forall k, In k (map fst [("completed", PInt 5)]) ->
                         In k field_names).
  { intros k [<-|[]]. simpl. tauto. }
  split; [reflexivity|]. split; [exact Hk|].
  destruct (load_fills_defaults mistyped_disk "out/2024-01-01"
              [("completed", PInt 5)] eq_refl Hk) as (st & Hload & Hget).
  exists st. split; [exact Hload|]. split.
  - rewrite Hget by (simpl; tauto). reflexivity.
  - rewrite Hget by (simpl; tauto). reflexivity.
Defined.

End StateDocuments.

(** ** What a batch leaves on the disk *)

Section BatchDisk.












End BatchDisk.

(** ** A batch followed by the pass over the existing files *)

Section BatchThenFilter.

Lemma str_in_In (name : string) (names : list string) :
  str_in name names = true <-> In name names.
Proof.
  unfold str_in. rewrite existsb_exists. split.
  - intros (x & Hin & Heq). apply String.eqb_eq in Heq. subst x. exact Hin.
  - intros Hin. exists name. split; [exact Hin|apply String.eqb_refl].
Qed.

Lemma filter_partition {A : Type} (keep : A -> bool) (l : list A) :
  List.length (filter (fun x => negb (keep x)) l) + List.length (filter keep l)
  = List.length l.
Proof.
  induction l as [|x l IH]; simpl; [reflexivity|].
  destruct (keep x); simpl; lia.
Qed.


Lemma filter_map_snd {A B : Type} (keep : B -> bool) (l : list (A * B)) :
  filter keep (map snd l) = map snd (filter (fun x => keep (snd x)) l).
Proof.
  induction l as [|x l IH]; simpl; [reflexivity|].
  destruct (keep (snd x)); simpl; rewrite IH; reflexivity.
Qed.


End BatchThenFilter.

(** ** Aggregates of a batch *)

Section BatchAggregates.

(** The bytes a result adds to [bytes_downloaded]. *)
Lemma tally_bytes (stats : Stats.DownloadStats) (r : result) :
  Stats.bytes_downloaded (tally stats r)
  = Stats.bytes_downloaded stats
    + match status_of r with
      | Failed => 0
      | _ => snd (fst r)
      end.
Proof.
  destruct r as [[[p st] size] error]. destruct st; simpl; lia.
Qed.

Lemma tally_fold_bytes (w : World) (mcs : Z)
    (futures : list (nat * (string * string))) :
  forall stats : Stats.DownloadStats,
  Stats.bytes_downloaded
    (fold_left tally (map (result_of w mcs) futures) stats)
  = Stats.bytes_downloaded stats + list_sum (map (bytes_of w) futures).
Proof.
  induction futures as [|f rest IH]; intros stats; [simpl; lia|].
  cbn [map fold_left]. rewrite IH, tally_bytes.
  change (list_sum (bytes_of w f :: map (bytes_of w) rest))
    with (bytes_of w f + list_sum (map (bytes_of w) rest)).
  unfold result_of, status_of, bytes_of.
  cbn [fst snd]. destruct (attempt_of w f); cbn [classify body_size]; try lia.
  destruct (_ <? _)%Z; lia.
Qed.

Lemma list_sum_perm (l l' : list nat) :
  Permutation l l' -> list_sum l = list_sum l'.
Proof.
  induction 1; simpl; lia.
Qed.

(** X11. [bytes_downloaded] is the total length of the bodies that were
    fetched, successes and empties alike, in whatever order the downloads
    complete; a download that raised adds nothing. *)
Theorem download_batch_bytes (w : World) (eng : DownloadEngine) (fs : FS)
    (url_list : list (string * string)) (output_folder : string)
    (date_subfolder : bool) :
  Stats.bytes_downloaded
    (snd (download_batch w eng fs url_list output_folder date_subfolder))
  = list_sum (map (bytes_of w) (submit url_list))
  /\ forall future, In future (submit url_list) ->
       raised (attempt_of w future) = true -> bytes_of w future = 0.
Proof.
  split.
  - rewrite download_batch_stats. unfold results_of.
    rewrite tally_fold_bytes. cbn [Stats.init Stats.bytes_downloaded Nat.add].
    apply list_sum_perm, Permutation_map, completion_order_perm.
  - intros future _ Hr. unfold bytes_of.
    destruct (attempt_of w future); [discriminate|reflexivity..].
Qed.

Lemma reported_length (rs : list result) :
  List.length (reported rs) <= count Failed rs.
Proof.
  induction rs as [|[[[p st] size] error] rs IH]; [simpl; lia|].
  change (((p, st, size, error) :: rs)) with ([(p, st, size, error)] ++ rs).
  rewrite reported_app, count_app, length_app.
  assert (List.length (reported [(p, st, size, error)])
          <= count Failed [(p, st, size, error)]).
  { unfold reported, count, status_of, error_of. cbn [flat_map filter fst snd app].
    destruct st; cbn [status_eqb List.length app]; try lia.
    destruct error as [[|c rest]|]; cbn [List.length app]; lia. }
  lia.
Qed.

Lemma reported_length_full (w : World) (mcs : Z)
    (futures : list (nat * (string * string))) :
  (forall future, In future futures ->
                  error_text (attempt_of w future) <> Some "") ->
  List.length (reported (map (result_of w mcs) futures))
  = count Failed (map (result_of w mcs) futures).
Proof.
  induction futures as [|f rest IH]; intros H; [reflexivity|].
  cbn [map].
  change (result_of w mcs f :: map (result_of w mcs) rest)
    with ([result_of w mcs f] ++ map (result_of w mcs) rest).
  rewrite reported_app, count_app, length_app.
  rewrite IH by (intros future Hin; apply H; right; exact Hin).
  f_equal. specialize (H f (or_introl eq_refl)).
  unfold reported, count, result_of, status_of, error_of.
  cbn [flat_map filter fst snd app].
  destruct (attempt_of w f)
    as [content| |[code|]|message|message|message remnant];
    cbn [classify error_text status_eqb List.length] in *;
    try reflexivity.
  - destruct (_ <? _)%Z; reflexivity.
  - destruct (substring 0 50 message); [contradiction H; reflexivity|reflexivity].
  - destruct (substring 0 50 message); [contradiction H; reflexivity|reflexivity].
  - destruct (substring 0 50 message); [contradiction H; reflexivity|reflexivity].
Qed.

(** X12. [errors] never holds more entries than [failed] counts, and holds
    exactly as many when no exception came with an empty text. *)
Theorem download_batch_errors_bounded (w : World) (eng : DownloadEngine)
    (fs : FS) (url_list : list (string * string)) (output_folder : string)
    (date_subfolder : bool) :
  let stats :=
    snd (download_batch w eng fs url_list output_folder date_subfolder) in
  List.length (Stats.errors stats) <= Stats.failed stats
  /\ ((forall future, In future (submit url_list) ->
                      error_text (attempt_of w future) <> Some "") ->
      List.length (Stats.errors stats) = Stats.failed stats).
Proof.
  cbv zeta. rewrite download_batch_stats.
  destruct (tally_fold (results_of w (min_content_size eng) url_list)
              (Stats.init (List.length url_list) 0))
    as (_ & _ & _ & Hf & _ & He).
  cbv zeta in Hf, He. rewrite Hf, He. cbn [Stats.init Stats.errors Stats.failed app Nat.add].
  split; [apply reported_length|].
  intros Htext. unfold results_of. apply reported_length_full.
  intros future Hin. apply Htext.
  eapply Permutation_in; [|exact Hin]. apply completion_order_perm.
Qed.

End BatchAggregates.

(** ** A second run over the same list *)

Section SecondRun.

Variables w1 w2 : World.
Variables eng1 eng2 : DownloadEngine.
Variable fs : FS.
Variable url_list : list (string * string).
Variables output_folder district1 district2 : string.
Variable date_subfolder : bool.

#[local] Abbreviation folder1 := (save_folder_of w1 output_folder date_subfolder).
#[local] Abbreviation state1 :=
  (start_state w1 fs url_list output_folder district1 date_subfolder).
#[local] Abbreviation remaining1 :=
  (remaining_of w1 fs url_list output_folder district1 date_subfolder).
#[local] Abbreviation results1 :=
  (results_of w1 (min_content_size eng1) remaining1).
#[local] Abbreviation run1 :=
  (download_batch_with_resume w1 eng1 fs url_list output_folder district1
                              date_subfolder).

Lemma filter_filter {A : Type} (f g : A -> bool) (l : list A) :
  filter g (filter f l) = filter (fun x => f x && g x) l.
Proof.
  induction l as [|x l IH]; simpl; [reflexivity|].
  destruct (f x); simpl; [destruct (g x)|]; rewrite IH; reflexivity.
Qed.

Lemma NoDup_map_filter {A B : Type} (f : A -> B) (keep : A -> bool)
    (l : list A) :
  NoDup (map f l) -> NoDup (map f (filter keep l)).
Proof.
  induction l as [|x l IH]; simpl; intros H; [constructor|].
  apply NoDup_cons_iff in H. destruct H as [Hx Hl].
  destruct (keep x); simpl; [|apply IH, Hl].
  constructor; [|apply IH, Hl].
  intros Hin. apply Hx. apply in_map_iff in Hin.
  destruct Hin as (y & Hy & Hin). apply filter_In in Hin.
  apply in_map_iff. exists y. tauto.
Qed.

Lemma NoDup_map_eq {A B : Type} (f : A -> B) (l : list A) (x y : A) :
  NoDup (map f l) -> In x l -> In y l -> f x = f y -> x = y.
Proof.
  induction l as [|z l IH]; simpl; intros Hnd Hx Hy Heq; [destruct Hx|].
  apply NoDup_cons_iff in Hnd. destruct Hnd as [Hz Hl].
  destruct Hx as [->|Hx], Hy as [->|Hy].
  - reflexivity.
  - exfalso. apply Hz. rewrite Heq. apply in_map, Hy.
  - exfalso. apply Hz. rewrite <- Heq. apply in_map, Hx.
  - apply IH; assumption.
Qed.

(** A point is among the points of the results that did not fail exactly
    when one of the futures carrying it did not raise. *)
Lemma not_failed_points (w : World) (mcs : Z) (items : list (string * string))
    (p : string) :
  str_in p (points_with not_failed (results_of w mcs items)) = true
  <-> exists future, In future (submit items) /\ point_of future = p
                     /\ raised (attempt_of w future) = false.
Proof.
  rewrite str_in_In. unfold points_with, results_of.
  rewrite in_map_iff. split.
  - intros (r & Hp & Hr). apply filter_In in Hr. destruct Hr as [Hr Hst].
    apply in_map_iff in Hr. destruct Hr as (future & <- & Hf).
    exists future. split.
    + eapply Permutation_in; [apply completion_order_perm|exact Hf].
    + split; [exact Hp|].
      unfold not_failed, result_of, status_of in Hst. cbn [fst snd] in Hst.
      rewrite classify_failed in Hst. apply negb_true_iff in Hst. exact Hst.
  - intros (future & Hf & Hp & Hr).
    exists (result_of w mcs future). split; [exact Hp|].
    apply filter_In. split.
    + apply in_map. eapply Permutation_in; [|exact Hf].
      apply Permutation_sym, completion_order_perm.
    + unfold not_failed, result_of, status_of. cbn [fst snd].
      rewrite classify_failed, Hr. reflexivity.
Qed.

(** With identifiers that differ, the items whose identifier is not among
    the points that did not fail are as many as the failed results. *)
Lemma failed_items_count (w : World) (mcs : Z) (items : list (string * string)) :
  NoDup (map fst items) ->
  List.length
    (filter (fun item =>
               negb (str_in (fst item)
                            (points_with not_failed (results_of w mcs items))))
            items)
  = count Failed (results_of w mcs items).
Proof.
  intros Hnd.
  rewrite (count_perm Failed _ _ (results_of_perm w mcs items)).
  rewrite count_failed_raised.
  set (kept := fun item : string * string =>
         negb (str_in (fst item)
                      (points_with not_failed (results_of w mcs items)))).
  rewrite <- (submit_points items) at 1.
  rewrite filter_map_snd, length_map. f_equal.
  apply filter_ext_in. intros future Hf. unfold kept.
  destruct (raised (attempt_of w future)) eqn:Hr.
  - apply negb_true_iff.
    destruct (str_in _ _) eqn:Hin; [|reflexivity].
    apply not_failed_points in Hin. destruct Hin as (g & Hg & Hp & Hgr).
    assert (g = future).
    { apply (NoDup_map_eq point_of (submit items)); try assumption.
      replace (map point_of (submit items)) with (map fst items); [exact Hnd|].
      rewrite <- (submit_points items) at 1. rewrite map_map. reflexivity. }
    subst g. congruence.
  - apply negb_false_iff. apply not_failed_points.
    exists future. split; [exact Hf|]. split; [reflexivity|exact Hr].
Qed.

(** The state a second run starts from is the one the first run saved. *)
Lemma second_run_start (final : State.DownloadState) (fs1 : FS) :
  save_folder_of w2 output_folder date_subfolder = folder1 ->
  read_state_file fs1 folder1 = Some (JsonDoc (State.asdict final)) ->
  start_state w2 fs1 url_list output_folder district2 date_subfolder = final.
Proof.
  intros Hfolder Hread. unfold start_state, initial_state, State.load.
  rewrite Hfolder, read_state_file_makedirs, Hread, construct_asdict.
  reflexivity.
Qed.

Lemma second_run_remaining (final : State.DownloadState) (fs1 : FS) :
  save_folder_of w2 output_folder date_subfolder = folder1 ->
  read_state_file fs1 folder1 = Some (JsonDoc (State.asdict final)) ->
  records state1 final results1 ->
  remaining_of w2 fs1 url_list output_folder district2 date_subfolder
  = filter (fun item =>
              negb (str_in (fst item) (points_with not_failed results1)))
           remaining1.
Proof.
  intros Hfolder Hread Hrec.
  set (done := points_with not_failed results1).
  assert (Hc : forall p,
            py_in p (items_of (State.completed final))
            = py_in p (items_of (State.completed state1)) || str_in p done)
    by (intros p; apply (records_completed _ _ _ _ Hrec)).
  clearbody done. unfold remaining_of.
  rewrite (second_run_start final fs1 Hfolder Hread).
  unfold not_done. rewrite filter_filter.
  apply filter_ext. intros item. rewrite Hc. apply negb_orb.
Qed.

(** X13. A second run over the same list, into the same folder, starts
    from the state the first one saved: it leaves out every point the first
    run completed, with a full or an empty body, and what it submits are
    points whose download raised in the first run. *)
Theorem second_run_retries_only_failures :
  lists_ok state1 = true ->
  remaining1 <> [] ->
  save_folder_of w2 output_folder date_subfolder = folder1 ->
  exists stats1 eng1' fs1,
    run1 = Returned stats1 eng1' fs1
    /\ remaining_of w2 fs1 url_list output_folder district2 date_subfolder
       = filter (fun item =>
                   negb (str_in (fst item) (points_with not_failed results1)))
                remaining1
    /\ (forall item,
          In item (remaining_of w2 fs1 url_list output_folder district2
                                date_subfolder) ->
          exists future,
            In future (submit remaining1) /\ snd future = item
            /\ raised (attempt_of w1 future) = true)
    /\ lists_ok (start_state w2 fs1 url_list output_folder district2
                             date_subfolder) = true.
Proof.
  intros Hok Hne Hfolder.
  destruct (resume_returns w1 eng1 fs url_list output_folder district1
              date_subfolder Hok) as (eng1' & fs1 & Hrun & _ & Hsaved).
  destruct (Hsaved Hne) as (a & _ & Hrec & Hread).
  eexists _, eng1', fs1. split; [exact Hrun|].
  pose proof (second_run_remaining (acc_state a) fs1 Hfolder Hread Hrec) as Hrem.
  split; [exact Hrem|]. split.
  - intros item Hin. rewrite Hrem in Hin. apply filter_In in Hin.
    destruct Hin as [Hin Hnot]. apply negb_true_iff in Hnot.
    rewrite <- (submit_points remaining1) in Hin. apply in_map_iff in Hin.
    destruct Hin as (future & Hsnd & Hf).
    exists future. split; [exact Hf|]. split; [exact Hsnd|].
    destruct (raised (attempt_of w1 future)) eqn:Hr; [reflexivity|].
    exfalso. apply not_true_iff_false in Hnot. apply Hnot.
    apply not_failed_points. exists future.
    split; [exact Hf|]. split; [|exact Hr].
    unfold point_of. rewrite Hsnd. reflexivity.
  - rewrite (second_run_start (acc_state a) fs1 Hfolder Hread).
    exact (proj1 Hrec).
Qed.

(** X14. When the identifiers of the list differ from one another, the
    second run submits as many points as the first run counted as failed,
    and skips those the first run skipped, succeeded on or found empty. *)
Theorem second_run_counts :
  lists_ok state1 = true ->
  remaining1 <> [] ->
  save_folder_of w2 output_folder date_subfolder = folder1 ->
  NoDup (map fst url_list) ->
  exists stats1 eng1' fs1 stats2 eng2' fs2,
    run1 = Returned stats1 eng1' fs1
    /\ download_batch_with_resume w2 eng2 fs1 url_list output_folder district2
                                  date_subfolder
       = Returned stats2 eng2' fs2
    /\ Stats.total stats2 = Stats.failed stats1
    /\ Stats.skipped stats2
       = Stats.skipped stats1 + Stats.success stats1 + Stats.empty stats1
    /\ Stats.total stats2 + Stats.skipped stats2 = List.length url_list.
Proof.
  intros Hok Hne Hfolder Hnd.
  destruct (resume_returns w1 eng1 fs url_list output_folder district1
              date_subfolder Hok) as (eng1' & fs1 & Hrun & _ & Hsaved).
  destruct (Hsaved Hne) as (a & _ & Hrec & Hread).
  pose proof (second_run_remaining (acc_state a) fs1 Hfolder Hread Hrec) as Hrem.
  assert (Hok2 : lists_ok (start_state w2 fs1 url_list output_folder district2
                                       date_subfolder) = true).
  { rewrite (second_run_start (acc_state a) fs1 Hfolder Hread).
    exact (proj1 Hrec). }
  destruct (resume_returns w2 eng2 fs1 url_list output_folder district2
              date_subfolder Hok2) as (eng2' & fs2 & Hrun2 & _).
  eexists _, eng1', fs1, _, eng2', fs2.
  split; [exact Hrun|]. split; [exact Hrun2|].
  match goal with
  | |- Stats.total (fold_left tally ?rs2 ?init2) = _ /\ _ =>
      destruct (tally_fold rs2 init2) as (Ht2 & Hs2 & _)
  end.
  destruct (tally_fold results1
              (Stats.init (List.length remaining1)
                          (List.length url_list - List.length remaining1)))
    as (_ & Hs1 & Hsu1 & Hf1 & He1 & _).
  cbv zeta in Ht2, Hs2, Hs1, Hsu1, Hf1, He1.
  rewrite Ht2, Hs2, Hs1, Hsu1, Hf1, He1.
  cbn [Stats.init Stats.total Stats.skipped Stats.success Stats.failed
       Stats.empty Nat.add].
  rewrite Hrem.
  rewrite failed_items_count
    by (unfold remaining_of, not_done; apply NoDup_map_filter, Hnd).
  pose proof (count_partition results1) as Hpart.
  rewrite results_of_length in Hpart.
  assert (Hle : List.length remaining1 <= List.length url_list)
    by (unfold remaining_of, not_done; apply List.filter_length_le).
  split; [reflexivity|]. split; lia.
Qed.

Lemma not_done_all (already_done : list pyval) (l : list (string * string)) :
  (forall item, In item l -> py_in (fst item) already_done = true) ->
  not_done already_done l = [].
Proof.
  unfold not_done. induction l as [|x l IH]; intros Hl; [reflexivity|].
  cbn [filter]. rewrite (Hl x (or_introl eq_refl)). cbn [negb].
  apply IH. intros y Hy. apply Hl. right. exact Hy.
Qed.

(** X15. When the state file lists every point of the list as completed,
    the batch returns at once: nothing is submitted, the engine is as it
    was, and the disk is only given the dated folder if it lacked it. *)
Theorem completed_batch_is_noop :
  lists_ok state1 = true ->
  (forall item, In item url_list ->
     py_in (fst item) (items_of (State.completed state1)) = true) ->
  run1 = Returned (Stats.init 0 (List.length url_list)) eng1
                  (makedirs fs folder1).
Proof.
  intros Hok Hall.
  assert (Hrem : remaining1 = [])
    by (unfold remaining_of; apply not_done_all, Hall).
  unfold download_batch_with_resume. cbv zeta.
  change (initial_state w1 (makedirs fs folder1) folder1 url_list district1)
    with state1.
  rewrite (completed_set_ok state1 Hok).
  change (not_done (items_of (State.completed state1)) url_list) with remaining1.
  rewrite Hrem. cbn [List.length]. rewrite Nat.sub_0_r. reflexivity.
Qed.

End SecondRun.

Section SecondRunInstances.

Lemma second_run_retries_only_failures_witness :
  lists_ok (start_state example_world empty_fs example_items "out" "d" true) = true
  /\ remaining_of example_world empty_fs example_items "out" "d" true <> []
  /\ exists stats1 eng1' fs1,
       download_batch_with_resume example_world (new_engine 50 0) empty_fs
                                  example_items "out" "d" true
       = Returned stats1 eng1' fs1
       /\ remaining_of example_world fs1 example_items "out" "d" true
          = [("/Building/RTU-3", "http://host/3")].
Proof.
  assert (Hok : lists_ok (start_state example_world empty_fs example_items
                                      "out" "d" true) = true) by reflexivity.
  assert (Hne : remaining_of example_world empty_fs example_items "out" "d" true
                <> []) by discriminate.
  split; [exact Hok|]. split; [exact Hne|].
  destruct (second_run_retries_only_failures example_world example_world
              (new_engine 50 0) empty_fs example_items "out" "d" "d" true
              Hok Hne eq_refl)
    as (stats1 & eng1' & fs1 & Hrun & Hrem & _).
  exists stats1, eng1', fs1. split; [exact Hrun|].
  rewrite Hrem. reflexivity.
Defined.

Lemma second_run_counts_witness :
  lists_ok (start_state example_world empty_fs example_items "out" "d" true) = true
  /\ remaining_of example_world empty_fs example_items "out" "d" true <> []
  /\ NoDup (map fst example_items)
  /\ exists stats1 eng1' fs1 stats2 eng2' fs2,
       download_batch_with_resume example_world (new_engine 50 0) empty_fs
                                  example_items "out" "d" true
       = Returned stats1 eng1' fs1
       /\ download_batch_with_resume example_world (new_engine 50 0) fs1
                                     example_items "out" "d" true
          = Returned stats2 eng2' fs2
       /\ Stats.total stats2 = Stats.failed stats1
       /\ Stats.skipped stats2
          = Stats.skipped stats1 + Stats.success stats1 + Stats.empty stats1
       /\ Stats.total stats2 + Stats.skipped stats2 = 3.
Proof.
  assert (Hok : lists_ok (start_state example_world empty_fs example_items
                                      "out" "d" true) = true) by reflexivity.
  assert (Hne : remaining_of example_world empty_fs example_items "out" "d" true
                <> []) by discriminate.
  assert (Hnd : NoDup (map fst example_items)).
  { repeat constructor; simpl; intuition discriminate. }
  split; [exact Hok|]. split; [exact Hne|]. split; [exact Hnd|].
  exact (second_run_counts example_world example_world (new_engine 50 0)
           (new_engine 50 0) empty_fs example_items "out" "d" "d" true
           Hok Hne eq_refl Hnd).
Defined.

Lemma completed_batch_is_noop_witness :
  lists_ok (start_state example_world finished_disk example_items "out" "d" true)
  = true
  /\ (forall item, In item example_items ->
        py_in (fst item)
              (items_of (State.completed
                           (start_state example_world finished_disk example_items
                                        "out" "d" true))) = true)
  /\ download_batch_with_resume example_world (new_engine 50 0) finished_disk
                                example_items "out" "d" true
     = Returned (Stats.init 0 3) (new_engine 50 0)
                (makedirs finished_disk "out/2024-01-01").
Proof.
  assert (Hok : lists_ok (start_state example_world finished_disk example_items
                                      "out" "d" true) = true) by reflexivity.
  assert (Hall : forall item, In item example_items ->
            py_in (fst item)
                  (items_of (State.completed
                               (start_state example_world finished_disk
                                            example_items "out" "d" true)))
            = true).
  { intros item [<-|[<-|[<-|[]]]]; reflexivity. }
  split; [exact Hok|]. split; [exact Hall|].
  exact (completed_batch_is_noop example_world (new_engine 50 0) finished_disk
           example_items "out" "d" true Hok Hall).
Defined.

End SecondRunInstances.

(** ** Point lists and URLs *)

Section PointLists.

Import PointList.

Lemma load_point_list_fold (lines : list string) : forall points : list string,
  fold_left (fun points line =>
               match point_of_line line with
               | Some point_path => points ++ [point_path]
               | None => points
               end) lines points
  = points ++ flat_map (fun line => match point_of_line line with
                                    | Some point_path => [point_path]
                                    | None => []
                                    end) lines.
Proof.
  induction lines as [|line lines IH]; intros points; simpl.
  - rewrite app_nil_r. reflexivity.
  - rewrite IH. destruct (point_of_line line); simpl.
    + rewrite <- app_assoc. reflexivity.
    + reflexivity.
Qed.

Lemma load_point_list_flat (lines : list string) :
  load_point_list lines
  = flat_map (fun line => match point_of_line line with
                          | Some point_path => [point_path]
                          | None => []
                          end) lines.
Proof. unfold load_point_list. rewrite load_point_list_fold. reflexivity. Qed.

Lemma load_point_list_app (lines lines' : list string) :
  load_point_list (lines ++ lines')
  = load_point_list lines ++ load_point_list lines'.
Proof. rewrite !load_point_list_flat. apply flat_map_app. Qed.

Lemma contains_remove_same (c : ascii) (s : string) :
  Utils.contains c (remove c s) = false.
Proof.
  induction s as [|c' rest IH]; simpl; [reflexivity|].
  destruct (Ascii.eqb c' c) eqn:E; simpl; [exact IH|].
  rewrite E, IH. reflexivity.
Qed.

Lemma contains_remove (c c' : ascii) (s : string) :
  Utils.contains c s = false -> Utils.contains c (remove c' s) = false.
Proof.
  induction s as [|x rest IH]; simpl; intros H; [reflexivity|].
  apply orb_false_elim in H. destruct H as [Hx Hrest].
  destruct (Ascii.eqb x c'); simpl; [apply IH, Hrest|].
  rewrite Hx, IH by exact Hrest. reflexivity.
Qed.

Lemma contains_first_field (c : ascii) (s : string) :
  Utils.contains c (first_field c s) = false.
Proof.
  induction s as [|x rest IH]; simpl; [reflexivity|].
  destruct (Ascii.eqb x c) eqn:E; simpl; [reflexivity|].
  rewrite E, IH. reflexivity.
Qed.

Lemma contains_lstrip_ws (c : ascii) (s : string) :
  Utils.contains c s = false -> Utils.contains c (lstrip_ws s) = false.
Proof.
  induction s as [|x rest IH]; simpl; intros H; [reflexivity|].
  destruct (isspace x); [|exact H].
  apply orb_false_elim in H. apply IH, H.
Qed.

Lemma contains_rstrip_ws (c : ascii) (s : string) :
  Utils.contains c s = false -> Utils.contains c (rstrip_ws s) = false.
Proof.
  induction s as [|x rest IH]; simpl; intros H; [reflexivity|].
  apply orb_false_elim in H. destruct H as [Hx Hrest].
  specialize (IH Hrest).
  destruct (rstrip_ws rest) as [|k kept].
  - destruct (isspace x); simpl; [reflexivity|]. rewrite Hx. reflexivity.
  - cbn [Utils.contains] in *. rewrite Hx. exact IH.
Qed.

Lemma contains_strip_ws (c : ascii) (s : string) :
  Utils.contains c s = false -> Utils.contains c (strip_ws s) = false.
Proof. intros H. apply contains_rstrip_ws, contains_lstrip_ws, H. Qed.

Lemma remove_absent (c : ascii) (s : string) :
  Utils.contains c s = false -> remove c s = s.
Proof.
  induction s as [|x rest IH]; simpl; intros H; [reflexivity|].
  apply orb_false_elim in H. destruct H as [Hx Hrest].
  rewrite Hx, IH by exact Hrest. reflexivity.
Qed.

Lemma first_field_absent (c : ascii) (s : string) :
  Utils.contains c s = false -> first_field c s = s.
Proof.
  induction s as [|x rest IH]; simpl; intros H; [reflexivity|].
  apply orb_false_elim in H. destruct H as [Hx Hrest].
  rewrite Hx, IH by exact Hrest. reflexivity.
Qed.

(** What a line that yields a point looks like. *)
Lemma point_of_line_some (line p : string) :
  point_of_line line = Some p ->
  p = remove "010" (remove "034" (strip_ws (first_field "," (strip_ws line))))
  /\ p <> "" /\ strip_ws line <> ""
  /\ startswith "#" (strip_ws line) = false.
Proof.
  unfold point_of_line.
  destruct (String.eqb_spec (strip_ws line) "") as [|Hne]; [discriminate|].
  destruct (startswith "#" (strip_ws line)); [discriminate|]. cbn [orb].
  destruct (String.eqb_spec
              (remove "010" (remove "034"
                 (strip_ws (first_field "," (strip_ws line))))) "") as [|Hp];
    [discriminate|].
  intros H. injection H as <-. repeat split; assumption.
Qed.

(** X16. Every point [load_point_list] returns is a non-empty string that
    holds no comma, no double quote and no newline. *)
Theorem loaded_points_are_clean (lines : list string) (p : string) :
  In p (load_point_list lines) ->
  p <> ""
  /\ Utils.contains "," p = false
  /\ Utils.contains "034" p = false
  /\ Utils.contains "010" p = false.
Proof.
  rewrite load_point_list_flat, in_flat_map. intros (line & _ & Hp).
  destruct (point_of_line line) as [q|] eqn:E; [|destruct Hp].
  destruct Hp as [<-|[]].
  destruct (point_of_line_some line q E) as (-> & Hne & _ & _).
  split; [exact Hne|]. split; [|split].
  - apply contains_remove, contains_remove, contains_strip_ws,
      contains_first_field.
  - apply contains_remove, contains_remove_same.
  - apply contains_remove_same.
Qed.

Lemma loaded_points_are_clean_witness :
  In "/Site/AHU-1" (load_point_list ["# points"; "  /Site/AHU-1 , 12"])
  /\ Utils.contains "," "/Site/AHU-1" = false.
Proof.
  assert (H : In "/Site/AHU-1"
                 (load_point_list ["# points"; "  /Site/AHU-1 , 12"]))
    by (left; reflexivity).
  split; [exact H|].
  exact (proj1 (proj2 (loaded_points_are_clean _ _ H))).
Defined.

Lemma lstrip_ws_length (s : string) :
  String.length (lstrip_ws s) <= String.length s.
Proof.
  induction s as [|c rest IH]; simpl; [lia|].
  destruct (isspace c); simpl; lia.
Qed.

Lemma rstrip_ws_length (s : string) :
  String.length (rstrip_ws s) <= String.length s.
Proof.
  induction s as [|c rest IH]; simpl; [lia|].
  destruct (rstrip_ws rest) as [|k kept]; [destruct (isspace c)|];
    simpl in *; lia.
Qed.

Lemma lstrip_ws_full (s : string) :
  String.length (lstrip_ws s) = String.length s -> lstrip_ws s = s.
Proof.
  destruct s as [|c rest]; simpl; [reflexivity|].
  destruct (isspace c); [|reflexivity].
  pose proof (lstrip_ws_length rest). lia.
Qed.

(** A string that [strip] leaves alone is left alone by both halves. *)
Lemma strip_ws_fixed (s : string) :
  strip_ws s = s -> lstrip_ws s = s /\ rstrip_ws s = s.
Proof.
  unfold strip_ws. intros H.
  assert (Hl : lstrip_ws s = s).
  { apply lstrip_ws_full.
    pose proof (lstrip_ws_length s).
    pose proof (rstrip_ws_length (lstrip_ws s)).
    rewrite H in *. lia. }
  rewrite Hl in H. split; assumption.
Qed.

Lemma rstrip_ws_newline (s : string) :
  rstrip_ws (s ++ newline) = rstrip_ws s.
Proof.
  induction s as [|c rest IH]; [reflexivity|].
  cbn [append rstrip_ws]. rewrite IH. reflexivity.
Qed.

Lemma lstrip_ws_append (s t : string) :
  s <> "" -> lstrip_ws s = s -> lstrip_ws (s ++ t) = (s ++ t)%string.
Proof.
  destruct s as [|c rest]; [contradiction|]. intros _. simpl.
  destruct (isspace c); [|reflexivity].
  intros H. pose proof (lstrip_ws_length rest) as Hlen.
  rewrite H in Hlen. simpl in Hlen. lia.
Qed.

Lemma clean_point_line (p : string) :
  clean_point p = true -> point_of_line (p ++ newline) = Some p.
Proof.
  unfold clean_point. rewrite !andb_true_iff, !negb_true_iff.
  intros ((((((Hne & Hstrip) & Hcomma) & Hquote) & Hnl) & _) & Hhash).
  apply String.eqb_eq in Hstrip. apply String.eqb_neq in Hne.
  destruct (strip_ws_fixed p Hstrip) as [Hl Hr].
  assert (Hline : strip_ws (p ++ newline) = p).
  { unfold strip_ws. rewrite lstrip_ws_append by assumption.
    rewrite rstrip_ws_newline. exact Hr. }
  unfold point_of_line. rewrite Hline.
  apply String.eqb_neq in Hne. rewrite Hne, Hhash. cbn [orb].
  rewrite first_field_absent, Hstrip by exact Hcomma.
  rewrite (remove_absent "034" p Hquote), (remove_absent "010" p Hnl).
  rewrite Hne. reflexivity.
Qed.

(** The lines of clean points, read as the loader reads them. *)
Lemma load_point_list_lines (points : list string) :
  forallb clean_point points = true ->
  load_point_list (map (fun p => (p ++ newline)%string) points) = points.
Proof.
  rewrite load_point_list_flat.
  induction points as [|p points IH]; intros H; [reflexivity|].
  cbn [forallb] in H. apply andb_true_iff in H. destruct H as [Hp Hrest].
  cbn [map flat_map]. rewrite (clean_point_line p Hp), (IH Hrest).
  reflexivity.
Qed.

Lemma append_assoc (a b c : string) :
  ((a ++ b) ++ c)%string = (a ++ b ++ c)%string.
Proof. induction a as [|x a IH]; simpl; [reflexivity|]. rewrite IH. reflexivity. Qed.

(** A line that holds neither a newline nor a carriage return is read up
    to its end. *)
Lemma lines_from_line (p rest : string) : forall current : string,
  Utils.contains "010" p = false -> Utils.contains "013" p = false ->
  lines_from (p ++ newline ++ rest) current
  = (current ++ p ++ newline)%string :: lines_from rest "".
Proof.
  induction p as [|c p IH]; intros current Hnl Hcr.
  - reflexivity.
  - cbn [Utils.contains] in Hnl, Hcr.
    apply orb_false_elim in Hnl. apply orb_false_elim in Hcr.
    destruct Hnl as [Hc1 Hnl], Hcr as [Hc2 Hcr].
    cbn [append lines_from]. rewrite Hc1, Hc2.
    rewrite (IH _ Hnl Hcr). f_equal.
    rewrite append_assoc. reflexivity.
Qed.

Lemma file_lines_of_points (points : list string) :
  forallb clean_point points = true ->
  file_lines (text_of_points points)
  = map (fun p => (p ++ newline)%string) points.
Proof.
  unfold file_lines.
  induction points as [|p points IH]; intros H; [reflexivity|].
  cbn [forallb] in H. apply andb_true_iff in H. destruct H as [Hp Hrest].
  cbn [text_of_points fold_right map].
  unfold clean_point in Hp. rewrite !andb_true_iff, !negb_true_iff in Hp.
  destruct Hp as [[[_ Hnl] Hcr] _].
  rewrite lines_from_line by assumption.
  f_equal. apply IH, Hrest.
Qed.

(** X17. A file whose text is a list of clean points, each followed by a
    newline, loads to exactly those points, in order. *)
Theorem load_point_list_roundtrip (points : list string) :
  forallb clean_point points = true ->
  load_point_list (file_lines (text_of_points points)) = points.
Proof.
  intros H. rewrite (file_lines_of_points points H).
  apply load_point_list_lines, H.
Qed.

Lemma load_point_list_roundtrip_witness :
  forallb clean_point ["/Site/AHU-1/Temp"; "/Site/Boiler 2/Flow"] = true
  /\ text_of_points ["/Site/AHU-1/Temp"; "/Site/Boiler 2/Flow"]
     = ("/Site/AHU-1/Temp" ++ newline ++ "/Site/Boiler 2/Flow" ++ newline)%string
  /\ load_point_list
       (file_lines
          ("/Site/AHU-1/Temp" ++ newline ++ "/Site/Boiler 2/Flow" ++ newline))
     = ["/Site/AHU-1/Temp"; "/Site/Boiler 2/Flow"].
Proof.
  split; [reflexivity|]. split; [reflexivity|].
  exact (load_point_list_roundtrip ["/Site/AHU-1/Temp"; "/Site/Boiler 2/Flow"]
           eq_refl).
Defined.

Lemma rstrip_ws_head (c : ascii) (rest : string) :
  isspace c = false -> exists kept, rstrip_ws (String c rest) = String c kept.
Proof.
  intros Hc. cbn [rstrip_ws].
  destruct (rstrip_ws rest) as [|k kept]; [rewrite Hc|]; eexists; reflexivity.
Qed.

(** A line that starts with the comment sign still does once stripped. *)
Lemma startswith_hash_strip (line : string) :
  startswith "#" line = true -> startswith "#" (strip_ws line) = true.
Proof.
  destruct line as [|c rest]; [discriminate|]. cbn [startswith].
  intros H. apply Ascii.eqb_eq in H. subst c.
  unfold strip_ws. cbn [lstrip_ws].
  change (isspace "#") with false. cbv iota.
  destruct (rstrip_ws_head "#" rest eq_refl) as (kept & ->). reflexivity.
Qed.

Lemma counted_line (line : string) :
  count_points_in_file [line]
  = if negb (String.eqb (strip_ws line) "") && negb (startswith "#" line)
    then 1 else 0.
Proof.
  unfold count_points_in_file. cbn [filter].
  destruct (negb _ && negb _); reflexivity.
Qed.

Lemma count_points_app (lines lines' : list string) :
  count_points_in_file (lines ++ lines')
  = count_points_in_file lines + count_points_in_file lines'.
Proof.
  unfold count_points_in_file.
  rewrite filter_app, map_app, length_app. reflexivity.
Qed.

(** X18. [count_points_in_file] never reports fewer points than
    [load_point_list] returns, and reports more when a line holds an
    indented comment, which it counts and the loader skips. *)
Theorem count_points_covers_loaded (lines : list string) :
  List.length (load_point_list lines) <= count_points_in_file lines
  /\ forall line,
       startswith "#" line = false ->
       startswith "#" (strip_ws line) = true ->
       load_point_list (lines ++ [line]) = load_point_list lines
       /\ count_points_in_file (lines ++ [line])
          = S (count_points_in_file lines).
Proof.
  split.
  - induction lines as [|line lines IH]; [simpl; lia|].
    change (line :: lines) with ([line] ++ lines).
    rewrite load_point_list_app, count_points_app, length_app, counted_line.
    assert (List.length (load_point_list [line])
            <= if negb (String.eqb (strip_ws line) "")
                  && negb (startswith "#" line) then 1 else 0); [|lia].
    rewrite load_point_list_flat. cbn [flat_map]. rewrite app_nil_r.
    destruct (point_of_line line) as [p|] eqn:E; [|simpl; lia].
    destruct (point_of_line_some line p E) as (_ & _ & Hne & Hhash).
    apply String.eqb_neq in Hne. rewrite Hne.
    destruct (startswith "#" line) eqn:Hs.
    + rewrite (startswith_hash_strip line Hs) in Hhash. discriminate.
    + simpl. lia.
  - intros line Hraw Hstripped.
    rewrite load_point_list_app, count_points_app, counted_line, Hraw.
    assert (Hne : String.eqb (strip_ws line) "" = false).
    { destruct (strip_ws line); [discriminate|reflexivity]. }
    rewrite Hne. cbn [negb andb].
    rewrite load_point_list_flat with (lines := [line]). cbn [flat_map].
    unfold point_of_line. rewrite Hne, Hstripped. cbn [orb app].
    rewrite app_nil_r. split; [reflexivity|lia].
Qed.

Lemma append_cancel_l (a x y : string) :
  (a ++ x)%string = (a ++ y)%string -> x = y.
Proof.
  induction a as [|c a IH]; simpl; intros H; [exact H|].
  injection H as H. apply IH, H.
Qed.

Lemma append_cancel_r (t : string) : forall x y : string,
  (x ++ t)%string = (y ++ t)%string -> x = y.
Proof.
  induction x as [|c x IH]; intros [|d y] H.
  - reflexivity.
  - apply (f_equal String.length) in H.
    simpl in H. rewrite string_length_append in H. lia.
  - apply (f_equal String.length) in H.
    simpl in H. rewrite string_length_append in H. lia.
  - simpl in H. injection H as -> H. f_equal. apply IH, H.
Qed.

(** X19. For one base address and one period, two points have the same
    URL only if they are the same point. *)
Theorem build_url_injective (base_ip start_time end_time p q : string) :
  _build_url base_ip p start_time end_time
  = _build_url base_ip q start_time end_time
  <-> p = q.
Proof.
  split; [|intros ->; reflexivity].
  unfold _build_url. intros H.
  apply append_cancel_l, append_cancel_l in H.
  apply append_cancel_r in H. exact H.
Qed.

End PointLists.

(** ** process_district *)

Section District.

Variable w : World.
Variable fs : FS.
Variable url_list : list (string * string).
Variables output_folder district_name : string.
Variable throttle : float.

Lemma filter_existing_files_lengths (force : bool) :
  List.length (fst (filter_existing_files w fs url_list output_folder force))
  + snd (filter_existing_files w fs url_list output_folder force)
  = List.length url_list.
Proof.
  unfold filter_existing_files. destruct force; [simpl; lia|].
  destruct (fs (path_join output_folder (today w))) as [d|]; [|simpl; lia].
  rewrite filter_fold. cbn [fst snd app Nat.add]. apply filter_partition.
Qed.

(** What [process_district] returns after a login that succeeded, when the
    state of the day is well formed. *)
Lemma process_district_returns (force : bool) :
  let filtered :=
    fst (filter_existing_files w fs url_list output_folder force) in
  let skipped :=
    snd (filter_existing_files w fs url_list output_folder force) in
  let remaining :=
    remaining_of w fs filtered output_folder district_name true in
  lists_ok (start_state w fs filtered output_folder district_name true) = true ->
  exists stats fs',
    process_district w fs url_list output_folder district_name force throttle
                     true
    = StatsReturned stats fs'
    /\ Stats.skipped stats = skipped
    /\ Stats.total stats = List.length remaining
    /\ Stats.success stats + Stats.failed stats + Stats.empty stats
       = Stats.total stats.
Proof.
  cbv zeta. unfold process_district.
  destruct (filter_existing_files w fs url_list output_folder force)
    as [fl sk].
  cbn [fst snd]. intros Hok.
  destruct fl as [|item items] eqn:El.
  - eexists _, fs. split; [reflexivity|]. cbn. repeat split.
  - rewrite <- El in *.
    destruct (resume_returns w (new_engine 50 throttle) fs fl output_folder
                district_name true Hok) as (eng' & fs' & Hrun & _).
    rewrite Hrun.
    eexists _, fs'. split; [reflexivity|].
    match goal with
    | |- context [fold_left tally ?rs ?init] =>
        destruct (tally_fold rs init) as (Ht & _ & Hsu & Hf & He & _);
        pose proof (count_partition rs) as Hpart
    end.
    cbv zeta in Ht, Hsu, Hf, He.
    unfold set_skipped.
    cbn [Stats.skipped Stats.total Stats.success Stats.failed Stats.empty].
    rewrite Ht, Hsu, Hf, He.
    cbn [Stats.init Stats.total Stats.success Stats.failed Stats.empty Nat.add].
    rewrite results_of_length in Hpart.
    split; [reflexivity|]. split; [reflexivity|]. exact Hpart.
Qed.

(** X20. Asked to force the download, [process_district] hands the whole
    list to the resumable batch, which still leaves out every point the
    state file of the day lists as completed; the statistics report none of
    them as skipped. *)
Theorem forced_run_still_skips_recorded_points :
  lists_ok (start_state w fs url_list output_folder district_name true) = true ->
  exists stats fs',
    process_district w fs url_list output_folder district_name true throttle
                     true
    = StatsReturned stats fs'
    /\ Stats.skipped stats = 0
    /\ Stats.total stats
       = List.length (remaining_of w fs url_list output_folder district_name true)
    /\ (forall item,
          In item (remaining_of w fs url_list output_folder district_name true)
          <-> In item url_list
              /\ py_in (fst item)
                       (items_of (State.completed
                                    (start_state w fs url_list output_folder
                                                 district_name true)))
                 = false).
Proof.
  intros Hok.
  destruct (process_district_returns true Hok)
    as (stats & fs' & Hrun & Hskipped & Htotal & _).
  exists stats, fs'. split; [exact Hrun|]. split; [exact Hskipped|].
  split; [exact Htotal|].
  intros item. apply remaining_spec.
Qed.

(** X21. Without force, when the state file of the day is read as a state
    with lists where the dataclass declares them, the [skipped] that
    [process_district] returns is the number of points whose file exists;
    the points the batch then leaves out because that state lists them as
    completed are in neither [total] nor [skipped], so the two add up to
    the length of the list less those points. *)
Theorem process_district_accounting (st : State.DownloadState) :
  let filtered :=
    fst (filter_existing_files w fs url_list output_folder false) in
  let recorded := fun item : string * string =>
    py_in (fst item) (items_of (State.completed st)) in
  State.load fs (path_join output_folder (today w)) = Some st ->
  lists_ok st = true ->
  exists stats fs',
    process_district w fs url_list output_folder district_name false throttle
                     true
    = StatsReturned stats fs'
    /\ Stats.skipped stats
       = snd (filter_existing_files w fs url_list output_folder false)
    /\ Stats.total stats
       = List.length (filter (fun item => negb (recorded item)) filtered)
    /\ Stats.success stats + Stats.failed stats + Stats.empty stats
       = Stats.total stats
    /\ Stats.total stats + Stats.skipped stats
       + List.length (filter recorded filtered)
       = List.length url_list.
Proof.
  intros filtered recorded Hload Hst.
  assert (Hstart : start_state w fs filtered output_folder district_name true
                   = st)
    by (apply start_state_loaded; exact Hload).
  assert (Hok : lists_ok (start_state w fs filtered output_folder district_name
                                      true) = true)
    by (rewrite Hstart; exact Hst).
  destruct (process_district_returns false Hok)
    as (stats & fs' & Hrun & Hskipped & Htotal & Hsum).
  fold filtered in Htotal.
  unfold remaining_of, not_done in Htotal. rewrite Hstart in Htotal.
  exists stats, fs'. split; [exact Hrun|]. split; [exact Hskipped|].
  split; [exact Htotal|]. split; [exact Hsum|].
  rewrite Htotal, Hskipped.
  pose proof (filter_existing_files_lengths false) as Hlen.
  pose proof (filter_partition recorded filtered) as Hpart.
  fold filtered in Hlen. unfold recorded in *. lia.
Qed.

End District.

Section DistrictInstances.

Lemma forced_run_still_skips_recorded_points_witness :
  lists_ok (start_state example_world finished_disk example_items "out" "d" true)
  = true
  /\ exists stats fs',
       process_district example_world finished_disk example_items "out" "d"
                        true 0 true
       = StatsReturned stats fs'
       /\ Stats.skipped stats = 0
       /\ Stats.total stats = 0.
Proof.
  assert (Hok : lists_ok (start_state example_world finished_disk example_items
                                      "out" "d" true) = true) by reflexivity.
  split; [exact Hok|].
  destruct (forced_run_still_skips_recorded_points example_world finished_disk
              example_items "out" "d" 0 Hok)
    as (stats & fs' & Hrun & Hskipped & Htotal & _).
  exists stats, fs'. split; [exact Hrun|]. split; [exact Hskipped|].
  rewrite Htotal. reflexivity.
Defined.

Lemma process_district_accounting_witness :
  State.load half_done_disk (path_join "out" (today example_world))
  = Some one_done
  /\ lists_ok one_done = true
  /\ filter_existing_files example_world half_done_disk example_items "out" false
     = ([("/Building/RTU-1", "http://host/1"); ("/Building/RTU-3", "http://host/3")],
        1)
  /\ exists stats fs',
       process_district example_world half_done_disk example_items "out" "d"
                        false 0 true
       = StatsReturned stats fs'
       /\ Stats.total stats = 1
       /\ Stats.skipped stats = 1
       /\ Stats.total stats + Stats.skipped stats + 1 = 3.
Proof.
  assert (Hload : State.load half_done_disk (path_join "out" (today example_world))
                  = Some one_done) by reflexivity.
  assert (Hok : lists_ok one_done = true) by reflexivity.
  split; [exact Hload|]. split; [exact Hok|]. split; [reflexivity|].
  destruct (process_district_accounting example_world half_done_disk
              example_items "out" "d" 0 one_done Hload Hok)
    as (stats & fs' & Hrun & Hskipped & Htotal & _ & Hsum).
  exists stats, fs'. split; [exact Hrun|].
  split; [rewrite Htotal; reflexivity|].
  split; [rewrite Hskipped; reflexivity|exact Hsum].
Defined.

End DistrictInstances.

(** ** The state file of a fresh run *)

Section FreshRun.

Variable w : World.
Variable eng : DownloadEngine.
Variable fs : FS.
Variable url_list : list (string * string).
Variables output_folder district : string.
Variable date_subfolder : bool.

Lemma points_with_status_length (st : status) (rs : list result) :
  List.length (points_with (fun s => status_eqb s st) rs) = count st rs.
Proof. unfold points_with, count. apply length_map. Qed.

Lemma points_with_not_failed_length (rs : list result) :
  List.length (points_with not_failed rs) = count Success rs + count Empty rs.
Proof.
  unfold points_with. rewrite length_map.
  pose proof (filter_partition (fun r => status_eqb (status_of r) Failed) rs)
    as Hpart.
  pose proof (count_partition rs) as Hsum.
  unfold count in *. unfold not_failed. lia.
Qed.

Lemma empty_points_completed (rs : list result) (p : string) :
  In p (points_with is_empty rs) -> In p (points_with not_failed rs).
Proof.
  unfold points_with. rewrite !in_map_iff.
  intros (r & Hp & Hr). exists r. split; [exact Hp|].
  apply filter_In in Hr. apply filter_In. split; [tauto|].
  destruct Hr as [_ Hr]. unfold is_empty, not_failed in *.
  destruct (status_of r); [discriminate|reflexivity|discriminate].
Qed.

(** X22. A run that finds no usable state file and has something to do
    leaves a state file that agrees with the statistics it returns: the
    completed list has success + empty entries, the empty and failed lists
    as many as their counters, every empty point is also listed as
    completed, and the header carries the district and the length of the
    list. *)
Theorem fresh_run_state_matches_stats :
  State.load fs (save_folder_of w output_folder date_subfolder) = None ->
  url_list <> [] ->
  exists stats eng' fs' final,
    download_batch_with_resume w eng fs url_list output_folder district
                               date_subfolder
    = Returned stats eng' fs'
    /\ State.load fs' (save_folder_of w output_folder date_subfolder)
       = Some final
    /\ State.district final = PStr district
    /\ State.total_points final = PInt (Z.of_nat (List.length url_list))
    /\ List.length (items_of (State.completed final))
       = Stats.success stats + Stats.empty stats
    /\ List.length (items_of (State.empty final)) = Stats.empty stats
    /\ List.length (items_of (State.failed final)) = Stats.failed stats
    /\ (forall p, py_in p (items_of (State.empty final)) = true ->
                  py_in p (items_of (State.completed final)) = true).
Proof.
  intros Hload Hne.
  set (sf := save_folder_of w output_folder date_subfolder) in *.
  assert (Hload' : State.load (makedirs fs sf) sf = None).
  { unfold State.load in *. rewrite read_state_file_makedirs. exact Hload. }
  destruct (initial_state_fresh w (makedirs fs sf) sf district url_list Hload')
    as [Hok _].
  assert (Hst0 : start_state w fs url_list output_folder district date_subfolder
                 = State.mk (PStr district) (PStr (now w 0))
                            (PInt (Z.of_nat (List.length url_list)))
                            (PList []) (PList []) (PList [])).
  { unfold start_state, initial_state. fold sf. rewrite Hload'. reflexivity. }
  destruct (resume_without_state_runs_all w eng fs url_list output_folder
              district date_subfolder Hload) as [Hrem _].
  destruct (resume_returns w eng fs url_list output_folder district
              date_subfolder Hok) as (eng' & fs' & Hrun & _ & Hsaved).
  rewrite Hrem in Hrun, Hsaved.
  destruct (Hsaved Hne) as (a & _ & Hrec & Hread).
  destruct Hrec as (_ & Hd & _ & Ht & Hc & He & recs & Hf & Hrecs).
  rewrite Hst0 in Hd, Ht, Hc, He, Hf.
  cbn [State.district State.total_points State.completed State.empty
       State.failed items_of app] in Hd, Ht, Hc, He, Hf.
  eexists _, eng', fs', (acc_state a). split; [exact Hrun|].
  split.
  { unfold State.load. fold sf in Hread. rewrite Hread, construct_asdict.
    reflexivity. }
  split; [exact Hd|]. split; [exact Ht|].
  match goal with
  | |- context [fold_left tally ?rs ?init] =>
      destruct (tally_fold rs init) as (_ & _ & Hsu & Hfa & Hem & _)
  end.
  cbv zeta in Hsu, Hfa, Hem. rewrite Hsu, Hfa, Hem.
  cbn [Stats.init Stats.success Stats.failed Stats.empty Nat.add].
  rewrite Hc, He, Hf, !length_map.
  split; [apply points_with_not_failed_length|].
  split; [apply (points_with_status_length Empty)|].
  split.
  { apply (f_equal (@List.length _)) in Hrecs. rewrite !length_map in Hrecs.
    rewrite Hrecs. apply (points_with_status_length Failed). }
  intros p. rewrite !py_in_strs, !str_in_In. apply empty_points_completed.
Qed.

End FreshRun.

Section FreshRunInstance.

Lemma fresh_run_state_matches_stats_witness :
  State.load empty_fs (save_folder_of example_world "out" true) = None
  /\ example_items <> []
  /\ exists stats eng' fs' final,
       download_batch_with_resume example_world (new_engine 50 0) empty_fs
                                  example_items "out" "d" true
       = Returned stats eng' fs'
       /\ State.load fs' "out/2024-01-01" = Some final
       /\ List.length (items_of (State.completed final))
          = Stats.success stats + Stats.empty stats
       /\ List.length (items_of (State.failed final)) = Stats.failed stats.
Proof.
  assert (Hload : State.load empty_fs (save_folder_of example_world "out" true)
                  = None) by reflexivity.
  assert (Hne : example_items <> []) by discriminate.
  split; [exact Hload|]. split; [exact Hne|].
  destruct (fresh_run_state_matches_stats example_world (new_engine 50 0)
              empty_fs example_items "out" "d" true Hload Hne)
    as (stats & eng' & fs' & final & Hrun & Hfinal & _ & _ & Hc & _ & Hf & _).
  exists stats, eng', fs', final. repeat split; assumption.
Defined.

End FreshRunInstance.

(** ** A run that is interrupted and started again *)

Section Interrupted.

Variables w1 w2 : World.
Variable eng1 : DownloadEngine.
Variable fs : FS.
Variable url_list : list (string * string).
Variables output_folder district1 district2 : string.
Variable date_subfolder : bool.

#[local] Abbreviation dated := (save_folder_of w1 output_folder date_subfolder).
#[local] Abbreviation first_state :=
  (start_state w1 fs url_list output_folder district1 date_subfolder).
#[local] Abbreviation first_remaining :=
  (remaining_of w1 fs url_list output_folder district1 date_subfolder).
#[local] Abbreviation first_order := (completion_order w1 first_remaining).
#[local] Abbreviation first_start :=
  (loop_start w1 eng1 fs url_list output_folder district1 date_subfolder).









End Interrupted.

Section InterruptedInstance.



(** The same run, computed: the state file holds the fifty points recorded
    at the checkpoint, the second run submits seventy, and seven of them
    are points the first run had completed. *)
Example interrupted_run_resubmits_seven :
  match resume_prefix steady_world "out/2024-01-01" 57
          (completion_order steady_world (many_items 120))
          (loop_start steady_world (new_engine 50 0) empty_fs (many_items 120)
                      "out" "d" true) with
  | inr a =>
      let again :=
        remaining_of steady_world (acc_fs a) (many_items 120) "out" "d" true in
      List.length again = 70
      /\ List.length
           (filter (fun item =>
                      str_in (fst item)
                        (points_with not_failed
                           (map (result_of steady_world 50)
                                (firstn 57 (completion_order steady_world
                                              (many_items 120))))))
                   again)
         = 7
  | inl _ => False
  end.
Proof. vm_compute. split; reflexivity. Qed.

End InterruptedInstance.

(** ** Recovery of the throttle *)

Section Binary64Decay.

#[local] Open Scope Z_scope.

Lemma weight_in_range (m : float) :
  (1 <=? m)%float = true -> (m <=? 5)%float = true ->
  2 ^ 53 <= weight m <= 5 * 2 ^ 53.
Proof.
  intros H1 H5.
  destruct (float_in_range m H1 H5) as (mx & e & Hm & Hmx & He & He5).
  unfold weight. rewrite Hm.
  assert (He' : e = -52 \/ e = -51 \/ e = -50) by lia.
  destruct He' as [-> | [-> | ->]].
  - change (2 ^ (-52 + 53)) with 2. lia.
  - change (2 ^ (-51 + 53)) with 4. lia.
  - change (2 ^ (-50 + 53)) with 8. specialize (He5 eq_refl). lia.
Qed.

(** A decay that stays above 1.0 takes away a tenth of the value, up to
    the rounding. *)
Lemma decay_weight (m : float) :
  (1 <=? m)%float = true -> (m <=? 5)%float = true ->
  (1 <? m * 0.9)%float = true ->
  weight (m * 0.9) * 2 ^ 53 <= weight m * 8106479329266895.
Proof.
  intros H1 H5.
  destruct (float_in_range m H1 H5) as (mx & e & Hm & Hmx & He & He5).
  unfold weight. rewrite ltb_spec, mul_spec, Hm, Prim2SF_decay, Prim2SF_one,
    mul_finite_pos.
  set (M := (mx * 8106479329266893)%positive).
  assert (HM : Z.pos M = Z.pos mx * 8106479329266893) by (unfold M; lia).
  assert (He' : e = -52 \/ e = -51 \/ e = -50) by lia.
  destruct (Z_lt_le_dec (Z.pos M) (2 ^ 105)) as [Hlt|Hge].
  - destruct (binary_round_aux_bounds M 52 (e + -53)) as (q & e' & Hr & Hq);
      [apply digits2_pos_unique; lia | lia | lia |].
    rewrite Hr. intros Habove. apply SFltb_finite_pos in Habove.
    pose proof (Z.mul_div_le (Z.pos M) (2 ^ 52) eq_refl) as Hdiv.
    destruct Hq as [(-> & Hq & Hq')|(-> & Hq & Hq')];
      destruct He' as [-> | [-> | ->]];
      repeat match goal with
             | |- context [2 ^ ?x] =>
                 let v := eval vm_compute in (2 ^ x) in change (2 ^ x) with v
             end;
      lia.
  - destruct (binary_round_aux_bounds M 53 (e + -53)) as (q & e' & Hr & Hq);
      [apply digits2_pos_unique; lia | lia | lia |].
    rewrite Hr. intros Habove.
    pose proof (Z.mul_div_le (Z.pos M) (2 ^ 53) eq_refl) as Hdiv.
    destruct Hq as [(-> & Hq & Hq')|(-> & Hq & Hq')];
      destruct He' as [-> | [-> | ->]];
      repeat match goal with
             | |- context [2 ^ ?x] =>
                 let v := eval vm_compute in (2 ^ x) in change (2 ^ x) with v
             end;
      lia.
Qed.

Lemma decayed_once (m : float) :
  (1 <=? m)%float = true -> (m <=? 5)%float = true ->
  ((1 <=? decayed m)%float = true /\ (decayed m <=? 5)%float = true)
  /\ (decayed m = 1%float
      \/ weight (decayed m) * 2 ^ 53 <= weight m * 8106479329266895).
Proof.
  intros H1 H5. split; [apply decay_in_range; assumption|].
  unfold decayed, py_max.
  destruct (1 <? m * 0.9)%float eqn:Habove.
  - right. apply decay_weight; assumption.
  - left. reflexivity.
Qed.

Lemma decayed_iter (n : nat) (m : float) :
  (1 <=? m)%float = true -> (m <=? 5)%float = true ->
  ((1 <=? Nat.iter n decayed m)%float = true
   /\ (Nat.iter n decayed m <=? 5)%float = true)
  /\ (Nat.iter n decayed m = 1%float
      \/ weight (Nat.iter n decayed m) * (2 ^ 53) ^ Z.of_nat n
         <= weight m * 8106479329266895 ^ Z.of_nat n).
Proof.
  intros H1 H5. induction n as [|n [[Hn1 Hn5] IH]].
  - split; [split; assumption|]. right. simpl. lia.
  - change (Nat.iter (S n) decayed m) with (decayed (Nat.iter n decayed m)).
    destruct (decayed_once _ Hn1 Hn5) as [Hrange Hstep].
    split; [exact Hrange|].
    destruct IH as [Hone|Hw].
    + left. rewrite Hone. reflexivity.
    + destruct Hstep as [Hone|Hstep]; [left; exact Hone|right].
      rewrite Nat2Z.inj_succ, !Z.pow_succ_r by lia.
      set (A := weight (decayed (Nat.iter n decayed m))) in *.
      set (B := weight (Nat.iter n decayed m)) in *.
      set (P := (2 ^ 53) ^ Z.of_nat n) in *.
      set (Q := 8106479329266895 ^ Z.of_nat n) in *.
      assert (HP : 0 <= P) by (unfold P; apply Z.pow_nonneg; lia).
      assert (H1' : A * 2 ^ 53 * P <= B * 8106479329266895 * P)
        by (apply Z.mul_le_mono_nonneg_r; assumption).
      assert (H2' : B * P * 8106479329266895 <= weight m * Q * 8106479329266895)
        by (apply Z.mul_le_mono_nonneg_r; [lia|assumption]).
      lia.
Qed.

(** Sixteen decays bring any multiplier between 1.0 and 5.0 down to 1.0. *)
Lemma decayed_sixteen (m : float) :
  (1 <=? m)%float = true -> (m <=? 5)%float = true ->
  Nat.iter 16 decayed m = 1%float.
Proof.
  intros H1 H5.
  destruct (decayed_iter 16 m H1 H5) as [[Hn1 Hn5] [Hone|Hw]]; [exact Hone|].
  exfalso.
  pose proof (weight_in_range _ Hn1 Hn5) as [Hlow _].
  pose proof (weight_in_range _ H1 H5) as [_ Hhigh].
  set (A := weight (Nat.iter 16 decayed m)) in *.
  set (C := weight m) in *.
  clearbody A C.
  assert (HP : (2 ^ 53) ^ Z.of_nat 16 = 2 ^ 848) by reflexivity.
  rewrite HP in Hw.
  assert (Hnum : 5 * 2 ^ 53 * 8106479329266895 ^ Z.of_nat 16 < 2 ^ 53 * 2 ^ 848)
    by reflexivity.
  assert (Hq : 0 <= 8106479329266895 ^ Z.of_nat 16) by (apply Z.pow_nonneg; lia).
  assert (Hp : 0 <= 2 ^ 848) by (apply Z.pow_nonneg; lia).
  assert (Ha : 2 ^ 53 * 2 ^ 848 <= A * 2 ^ 848)
    by (apply Z.mul_le_mono_nonneg_r; assumption).
  assert (Hc : C * 8106479329266895 ^ Z.of_nat 16
               <= 5 * 2 ^ 53 * 8106479329266895 ^ Z.of_nat 16)
    by (apply Z.mul_le_mono_nonneg_r; assumption).
  lia.
Qed.

End Binary64Decay.

Section Recovery.

Lemma successes_decay (n : nat) (eng : DownloadEngine) :
  _throttle_multiplier (Nat.iter n throttle_on_success eng)
  = Nat.iter n decayed (_throttle_multiplier eng).
Proof.
  induction n as [|n IH]; [reflexivity|].
  change (Nat.iter (S n) throttle_on_success eng)
    with (throttle_on_success (Nat.iter n throttle_on_success eng)).
  change (Nat.iter (S n) decayed (_throttle_multiplier eng))
    with (decayed (Nat.iter n decayed (_throttle_multiplier eng))).
  rewrite <- IH. reflexivity.
Qed.

(** X24. However slow the engine has become, sixteen successes in a row
    bring the throttle multiplier back to exactly 1.0. *)
Theorem sixteen_successes_restore_full_speed (eng : DownloadEngine) :
  reachable eng ->
  _throttle_multiplier (Nat.iter 16 throttle_on_success eng) = 1%float
  /\ _consecutive_failures (Nat.iter 16 throttle_on_success eng) = 0.
Proof.
  intros Hr. destruct (reachable_in_range eng Hr) as [H1 H5].
  split.
  - rewrite successes_decay. apply decayed_sixteen; assumption.
  - reflexivity.
Qed.

Lemma sixteen_successes_restore_full_speed_witness :
  let slow := Nat.iter 12 _handle_failure (new_engine 50 0) in
  reachable slow
  /\ _throttle_multiplier slow = 5%float
  /\ (1 <? _throttle_multiplier (Nat.iter 15 throttle_on_success slow))%float
     = true
  /\ _throttle_multiplier (Nat.iter 16 throttle_on_success slow) = 1%float.
Proof.
  cbv zeta.
  assert (Hr : reachable (Nat.iter 12 _handle_failure (new_engine 50 0))).
  { simpl. repeat apply reachable_failure. apply reachable_new. }
  split; [exact Hr|]. split; [reflexivity|]. split; [reflexivity|].
  exact (proj1 (sixteen_successes_restore_full_speed _ Hr)).
Defined.

End Recovery.

(** ** One download, and the two batch loops side by side *)

Section SingleAndBoth.

(** X25. Whatever the request meets, [_download_single] reports the point
    it was given.  A failed result comes with an error, a size of zero and
    one more consecutive failure, and with the disk as it was unless it is
    the write that failed, the file then holding what the write left; any
    other result comes with no error, the body on disk under the name of
    the point, its length as size and the failure counter reset. *)
Theorem download_single_outcome (w : World) (eng : DownloadEngine) (fs : FS)
    (i : nat) (point_path url save_folder : string) :
  let '(eng', fs', r) := _download_single w eng fs i point_path url save_folder in
  point_of_result r = point_path
  /\ (status_of r = Failed ->
      eng' = _handle_failure eng /\ snd (fst r) = 0 /\ error_of r <> None
      /\ (fs' = fs
          \/ exists message remnant,
               fetch w i point_path url = RaisedOnWrite message remnant
               /\ fs' = write_file fs save_folder (csv_name point_path) remnant))
  /\ (status_of r <> Failed ->
      eng' = throttle_on_success eng /\ error_of r = None
      /\ exists content,
           fetch w i point_path url = Body content
           /\ snd (fst r) = String.length content
           /\ fs' = write_file fs save_folder (csv_name point_path) content).
Proof.
  unfold _download_single.
  destruct (fetch w i point_path url)
    as [content| |code|message|message|message remnant].
  - destruct (fs save_folder) as [d|].
    + cbv zeta. fold (csv_name point_path).
      destruct (_ <? _)%Z; (split; [reflexivity|]); split;
        try (intros H; discriminate H);
        intros _; (split; [reflexivity|]); (split; [reflexivity|]);
        exists content; repeat split.
    + split; [reflexivity|]. split.
      * intros _. repeat split; [discriminate|left; reflexivity].
      * intros H. contradiction H. reflexivity.
  - split; [reflexivity|]. split.
    + intros _. repeat split; [discriminate|left; reflexivity].
    + intros H. contradiction H. reflexivity.
  - split; [reflexivity|]. split.
    + intros _. repeat split; [discriminate|left; reflexivity].
    + intros H. contradiction H. reflexivity.
  - split; [reflexivity|]. split.
    + intros _. repeat split; [discriminate|left; reflexivity].
    + intros H. contradiction H. reflexivity.
  - split; [reflexivity|]. split.
    + intros _. repeat split; [discriminate|left; reflexivity].
    + intros H. contradiction H. reflexivity.
  - cbv zeta. fold (csv_name point_path).
    destruct (fs save_folder) as [d|]; (split; [reflexivity|]); split;
      try (intros H; contradiction H; reflexivity); intros _;
      (split; [reflexivity|]); (split; [reflexivity|]);
      (split; [discriminate|]).
    + right. exists message, remnant. split; reflexivity.
    + left. reflexivity.
Qed.

(** X26. When there is no usable state file, the resumable batch returns
    the very statistics [download_batch] returns for the same list in the
    same world. *)
Theorem resume_agrees_with_batch (w : World) (eng : DownloadEngine) (fs : FS)
    (url_list : list (string * string)) (output_folder district : string)
    (date_subfolder : bool) :
  State.load fs (save_folder_of w output_folder date_subfolder) = None ->
  exists eng' fs',
    download_batch_with_resume w eng fs url_list output_folder district
                               date_subfolder
    = Returned
        (snd (download_batch w eng fs url_list output_folder date_subfolder))
        eng' fs'.
Proof.
  intros Hload.
  set (sf := save_folder_of w output_folder date_subfolder) in *.
  assert (Hload' : State.load (makedirs fs sf) sf = None).
  { unfold State.load in *. rewrite read_state_file_makedirs. exact Hload. }
  destruct (initial_state_fresh w (makedirs fs sf) sf district url_list Hload')
    as [Hok _].
  destruct (resume_without_state_runs_all w eng fs url_list output_folder
              district date_subfolder Hload) as [Hrem _].
  destruct (resume_returns w eng fs url_list output_folder district
              date_subfolder Hok) as (eng' & fs' & Hrun & _).
  rewrite Hrem, Nat.sub_diag in Hrun.
  exists eng', fs'. rewrite Hrun, download_batch_stats. reflexivity.
Qed.

Lemma resume_agrees_with_batch_witness :
  State.load empty_fs (save_folder_of example_world "out" true) = None
  /\ exists eng' fs',
       download_batch_with_resume example_world (new_engine 50 0) empty_fs
                                  example_items "out" "d" true
       = Returned (Stats.mk 3 1 1 1 0 510 [("/Building/RTU-3", "Timeout")])
                  eng' fs'.
Proof.
  assert (Hload : State.load empty_fs (save_folder_of example_world "out" true)
                  = None) by reflexivity.
  split; [exact Hload|].
  destruct (resume_agrees_with_batch example_world (new_engine 50 0) empty_fs
              example_items "out" "d" true Hload) as (eng' & fs' & Hrun).
  exists eng', fs'. rewrite Hrun. reflexivity.
Defined.

End SingleAndBoth.

(** ** The URL of the point list *)

Section PointListUrl.

Lemma rstrip_append_same (c : ascii) (s : string) :
  Utils.rstrip c (s ++ String c EmptyString) = Utils.rstrip c s.
Proof.
  induction s as [|c' rest IH].
  - simpl. rewrite Ascii.eqb_refl. reflexivity.
  - cbn [append Utils.rstrip]. rewrite IH. reflexivity.
Qed.

Lemma rstrip_no_trailing (c : ascii) (s : string) :
  Utils.endswith (String c EmptyString) (Utils.rstrip c s) = false.
Proof.
  induction s as [|c' rest IH]; [reflexivity|].
  cbn [Utils.rstrip].
  destruct (Utils.rstrip c rest) as [|a r] eqn:E.
  - destruct (Ascii.eqb c' c) eqn:Ec; [reflexivity|].
    unfold Utils.endswith. simpl. rewrite Ec. reflexivity.
  - rewrite endswith_tail. exact IH.
Qed.

(** X27. The URL of the point list ignores trailing slashes of the base
    address: one more slash at its end gives the same URL, in which the
    path always follows a part that does not end in a slash. *)
Theorem point_list_url_ignores_trailing_slash (base_ip : string) :
  PointList.get_point_list_url (base_ip ++ "/")
  = PointList.get_point_list_url base_ip
  /\ exists host,
       PointList.get_point_list_url base_ip
       = (host ++ "/ord?history:|bql:select%20id|view:file:ITableToCsv")%string
       /\ Utils.endswith "/" host = false.
Proof.
  unfold PointList.get_point_list_url. split.
  - rewrite rstrip_append_same. reflexivity.
  - exists (Utils.rstrip "/" base_ip). split; [reflexivity|].
    apply rstrip_no_trailing.
Qed.

End PointListUrl.
